(** * Soroban contract client: a shallow embedding of the Go sources

    The development follows the contract file of package [soroban]
    (contract lifecycle: address derivation, liveness, install / deploy /
    invoke / restore and the completion poller), [transaction.go] (the
    transaction builder with its simulate and send steps) and [client.go]
    (the typed RPC methods).

    Conventions of the embedding.
    - A Go function returning [(T, error)] returns [result T]: every return
      statement of the sources sets exactly one of the two.
    - Go run-time panics (index out of range, nil dereference) are the
      [Panic] outcome of the monad [M].
    - Operations are heap objects: the builder stores pointers ([loc]) and
      the setters mutate the object pointed to.
    - Everything outside the repository (SHA-256, the XDR codec, txnbuild,
      signing, the RPC server, the clock) is a field of [Env]; the answers
      of stateful collaborators may depend on the whole history of
      interactions, which the monad records as a trace. *)

From Stdlib Require Import ZArith Lia.
From Stdlib.Strings Require Import String Byte.
From stdpp Require Import base list gmap strings.

Local Open Scope string_scope.
Local Open Scope list_scope.
Local Open Scope Z_scope.

(** ** Go values *)

(** [[]byte] and [[32]byte] *)
Definition bytes := list byte.
Definition Hash := list byte.

(** On a value of array type [[32]byte], Go's [len] is the constant 32. *)
Definition len_array32 (_ : Hash) : Z := 32.

(** Two's complement wrap-around of [int64] arithmetic. *)
Definition MaxInt64 : Z := 9223372036854775807.
Definition wrap64 (z : Z) : Z := (z + 2 ^ 63) mod 2 ^ 64 - 2 ^ 63.

Inductive error := errorString (msg : string).
Definition errors_New (msg : string) : error := errorString msg.

Inductive result (A : Type) :=
| Ok (a : A)
| Err (e : error).
Arguments Ok {A} a.
Arguments Err {A} e.

Inductive outcome (A : Type) :=
| Return (a : A)
| Panic (msg : string).
Arguments Return {A} a.
Arguments Panic {A} msg.

Definition ErrorRequiredSource := "Source Address is required".
Definition ErrorRequiredWasm := "Wasm is required".
Definition ErrorRequiredWasmHash := "WasmHash is required".
Definition ErrorRequiredClient := "Client is required".
Definition ErrorRequiredKeyPair := "Key pair is required".
Definition ErrorRequiredSalt := "Salt is required".
Definition ErrorWasmCodeNeedsRestore := "Wasm code has no ttl, requires a restore".
Definition ErrorContractNeedsRestore := "Contract has no ttl, requires a restore".
Definition ErrorContractDataNeedsRestore := "Contract data has no ttl, requires a restore".
Definition ErrorInvokeRequiresFunction := "Function is required".

Definition nilPointerPanic := "invalid memory address or nil pointer dereference".
Definition indexPanic := "index out of range [0] with length 0".

(** ** The XDR records the sources build (package xdr) *)

Definition AccountId := bytes.

Inductive ScAddressType :=
| ScAddressTypeScAddressTypeAccount
| ScAddressTypeScAddressTypeContract.

Record ScAddress := {
  ScAddress_Type : ScAddressType;
  ScAddress_AccountId : option AccountId;
  ScAddress_ContractId : option Hash }.

Inductive ContractIdPreimageType :=
| ContractIdPreimageTypeContractIdPreimageFromAddress
| ContractIdPreimageTypeContractIdPreimageFromAsset.

Record ContractIdPreimageFromAddress := {
  FromAddress_Address : ScAddress;
  FromAddress_Salt : Hash }.

Record ContractIdPreimage := {
  ContractIdPreimage_Type : ContractIdPreimageType;
  ContractIdPreimage_FromAddress : option ContractIdPreimageFromAddress }.

(** [xdr.ContractIdPreimage{}] *)
Definition ContractIdPreimage_zero : ContractIdPreimage :=
  {| ContractIdPreimage_Type := ContractIdPreimageTypeContractIdPreimageFromAddress;
     ContractIdPreimage_FromAddress := None |}.

Record HashIdPreimageContractId := {
  NetworkId : Hash;
  ContractId_ContractIdPreimage : ContractIdPreimage }.

Inductive EnvelopeType :=
| EnvelopeTypeEnvelopeTypeTxV0
| EnvelopeTypeEnvelopeTypeTx
| EnvelopeTypeEnvelopeTypeOpId
| EnvelopeTypeEnvelopeTypeContractId
| EnvelopeTypeEnvelopeTypeSorobanAuthorization.

Record HashIdPreimage := {
  HashIdPreimage_Type : EnvelopeType;
  HashIdPreimage_ContractId : option HashIdPreimageContractId }.

Inductive ScVal :=
| ScvBool (b : bool)
| ScvU32 (i : Z)
| ScvI32 (i : Z)
| ScvU64 (i : Z)
| ScvI64 (i : Z)
| ScvString (s : string)
| ScvSymbol (s : string)
| ScvLedgerKeyContractInstance
| ScvVoid.

Inductive LedgerEntryType :=
| LedgerEntryTypeAccount
| LedgerEntryTypeContractData
| LedgerEntryTypeContractCode.

Inductive ContractDataDurability :=
| ContractDataDurabilityTemporary
| ContractDataDurabilityPersistent.

Record LedgerKeyContractData := {
  ContractData_Contract : ScAddress;
  ContractData_Key : ScVal;
  ContractData_Durability : ContractDataDurability }.

Record LedgerKey := {
  LedgerKey_Type : LedgerEntryType;
  LedgerKey_Account : option AccountId;
  LedgerKey_ContractData : option LedgerKeyContractData;
  LedgerKey_ContractCode : option Hash }.

(** [xdr.LedgerKey{}] *)
Definition LedgerKey_zero : LedgerKey :=
  {| LedgerKey_Type := LedgerEntryTypeAccount;
     LedgerKey_Account := None;
     LedgerKey_ContractData := None;
     LedgerKey_ContractCode := None |}.

Inductive SorobanAuthorizationEntry := AuthorizationEntry (xdr : string).

Record SorobanTransactionData := {
  Footprint_ReadOnly : list LedgerKey;
  Footprint_ReadWrite : list LedgerKey;
  Resources_Instructions : Z;
  ResourceFee : Z }.

(** [xdr.SorobanTransactionData{Resources: {Footprint: {ReadWrite: rw}}}] *)
Definition SorobanTransactionData_ReadWrite (rw : list LedgerKey) : SorobanTransactionData :=
  {| Footprint_ReadOnly := [];
     Footprint_ReadWrite := rw;
     Resources_Instructions := 0;
     ResourceFee := 0 |}.

Record TransactionExt := {
  Ext_V : Z;
  Ext_SorobanData : option SorobanTransactionData }.

Definition TransactionExt_zero : TransactionExt :=
  {| Ext_V := 0; Ext_SorobanData := None |}.

Inductive HostFunctionType :=
| HostFunctionTypeHostFunctionTypeInvokeContract
| HostFunctionTypeHostFunctionTypeCreateContract
| HostFunctionTypeHostFunctionTypeUploadContractWasm.

Record InvokeContractArgs := {
  ContractAddress : ScAddress;
  FunctionName : string;
  Args : list ScVal }.

Record CreateContractArgs := {
  CreateContract_ContractIdPreimage : ContractIdPreimage;
  Executable_WasmHash : Hash }.

Record HostFunction := {
  HostFunction_Type : HostFunctionType;
  HostFunction_InvokeContract : option InvokeContractArgs;
  HostFunction_CreateContract : option CreateContractArgs;
  HostFunction_Wasm : option bytes }.

(** ** Operations, accounts and transactions (package txnbuild) *)

Record InvokeHostFunction := {
  Invoke_HostFunction : HostFunction;
  Invoke_Auth : list SorobanAuthorizationEntry;
  Invoke_SourceAccount : string;
  Invoke_Ext : TransactionExt }.

Record RestoreFootprint := {
  Restore_SourceAccount : string;
  Restore_Ext : TransactionExt }.

(** The implementations of the interface [txnbuild.Operation] the sources
    dispatch on, and any other one (a payment, a trust-line change ...). *)
Inductive Operation :=
| OpInvokeHostFunction (op : InvokeHostFunction)
| OpRestoreFootprint (op : RestoreFootprint)
| OpOther (kind : string).

(** The repository's [Account], an implementation of [txnbuild.Account]. *)
Record Account := {
  AccountId_ : string;
  Sequence : Z }.

Definition GetAccountID (a : Account) : string := AccountId_ a.

Inductive KeyPair := FullKeyPair (seed : string).

Record TimeBounds := {
  MinTime : Z;
  MaxTime : Z }.

Definition TimeBounds_zero : TimeBounds := {| MinTime := 0; MaxTime := 0 |}.

Record LedgerBounds := {
  MinLedger : Z;
  MaxLedger : Z }.

Inductive Memo := MemoText (s : string).

Record Preconditions := {
  Pre_TimeBounds : TimeBounds;
  Pre_LedgerBounds : option LedgerBounds;
  Pre_MinSequenceNumber : option Z;
  Pre_MinSequenceNumberAge : Z;
  Pre_MinSequenceNumberLedgerGap : Z;
  Pre_ExtraSigners : list string }.

(** [txnbuild.TransactionParams]; the operations are the objects the
    builder's pointers refer to when the transaction is built ([None] for a
    pointer to no object). *)
Record TransactionParams := {
  Params_SourceAccount : option Account;
  Params_Operations : list (option Operation);
  Params_Preconditions : Preconditions;
  Params_BaseFee : Z;
  Params_IncrementSequenceNum : bool }.

Definition MinBaseFee : Z := 100.

(** A built [*txnbuild.Transaction], opaque to the repository. *)
Inductive Tx := Envelope (xdr : string).

(** ** RPC results (client.go) *)

Record Client := {
  URL : string;
  PassPhrase : string;
  FriendbotURL : string }.

Record SendTransactionResult := {
  Send_Hash : string;
  Send_Status : string;
  Send_ErrorResultXdr : string }.

Record SimulateResult := {
  Result_Auth : list string;
  Result_XDR : string }.

Record RestorePreamble_ := {
  Preamble_MinResourceFee : Z;
  Preamble_TransactionData : string }.

Record SimulateTransactionResult := {
  Sim_Error : string;
  Sim_TransactionData : string;
  Sim_MinResourceFee : Z;
  Sim_Results : list SimulateResult;
  RestorePreamble : RestorePreamble_ }.

Record GetTransactionResult := {
  Status : string;
  ResultXdr : string;
  ResultMetaXdr : string }.

Record GetLedgerEntrie := {
  Entrie_Key : string;
  Entrie_Xdr : string;
  LastModifiedLedgerSeq : Z;
  LiveUntilLedgerSeq : Z }.

Record GetLedgerEntriesResult := {
  LatestLedger : Z;
  Entries : list GetLedgerEntrie }.

(** ** Interactions with the outside *)

Inductive Request :=
| ReqSimulateTransaction (transaction : string)
| ReqSendTransaction (transaction : string)
| ReqGetTransaction (hash : string)
| ReqGetLedgerEntries (keys : list string).

(** What the run of a function does to the outside, oldest first:
    - [EvCall]: one JSON-RPC call ([Client.CallResult]);
    - [EvNewTransaction]: one call of [txnbuild.NewTransaction], which
      reads and may advance the source account's sequence number;
    - [EvSleep]: one [time.Sleep], with its duration in nanoseconds. *)
Inductive Event :=
| EvCall (c : Client) (r : Request)
| EvNewTransaction (p : TransactionParams)
| EvSleep (d : Z).

Definition Trace := list Event.

(** The collaborators. A stateful collaborator sees the trace so far. *)
Record Env := {
  sha256_Sum256 : bytes -> Hash;
  xdr_AddressToAccountId : string -> result AccountId;
  HashIdPreimage_MarshalBinary : HashIdPreimage -> result bytes;
  LedgerKey_MarshalBinaryBase64 : LedgerKey -> result string;
  SafeUnmarshalBase64_ScVal : string -> result ScVal;
  SafeUnmarshalBase64_AuthorizationEntry : string -> result SorobanAuthorizationEntry;
  SafeUnmarshalBase64_TransactionData : string -> result SorobanTransactionData;
  txnbuild_NewTimeout : Trace -> Z -> TimeBounds;
  txnbuild_NewTransaction : Trace -> TransactionParams -> result Tx;
  Tx_Sign : Tx -> string -> list (option KeyPair) -> result Tx;
  Tx_Base64 : Tx -> result string;
  rpc_simulateTransaction : Trace -> Client -> string -> result SimulateTransactionResult;
  rpc_sendTransaction : Trace -> Client -> string -> result SendTransactionResult;
  rpc_getTransaction : Trace -> Client -> string -> result GetTransactionResult;
  rpc_getLedgerEntries : Trace -> Client -> list string -> result GetLedgerEntriesResult }.

(** ** The monad: heap of operations, trace, panics *)

(** Addresses of heap objects. *)
Abbreviation loc := nat (only parsing).

Record State := {
  heap : list Operation;
  trace : Trace }.

Definition M (A : Type) : Type := State -> outcome A * State.

Definition ret {A} (a : A) : M A := fun s => (Return a, s).

Definition bind {A B} (m : M A) (k : A -> M B) : M B :=
  fun s =>
    match m s with
    | (Return a, s') => k a s'
    | (Panic msg, s') => (Panic msg, s')
    end.

Definition panic {A} (msg : string) : M A := fun s => (Panic msg, s).

Notation "'let*' x ':=' m 'in' k" := (bind m (fun x => k))
  (at level 10, x name, m at level 100, k at level 200).
Notation "'let*' ' p ':=' m 'in' k" := (bind m (fun x => match x with p => k end))
  (at level 10, p pattern, m at level 100, k at level 200).

Definition emit (e : Event) : M unit :=
  fun s => (Return tt, {| heap := heap s; trace := trace s ++ [e] |}).

Definition history : M Trace := fun s => (Return (trace s), s).

Definition theHeap : M (list Operation) := fun s => (Return (heap s), s).

(** [&op]: a new object. *)
Definition alloc (op : Operation) : M loc :=
  fun s => (Return (length (heap s)), {| heap := heap s ++ [op]; trace := trace s |}).

(** Assignment through a pointer. *)
Definition store (l : loc) (op : Operation) : M unit :=
  fun s => (Return tt, {| heap := <[l := op]> (heap s); trace := trace s |}).

(** Dereference of a [*Client] to call a method with a value receiver. *)
Definition deref {A} (p : option A) : M A :=
  match p with
  | Some a => ret a
  | None => panic nilPointerPanic
  end.

Section Soroban.

Context (E : Env).

(** ** client.go *)

Definition Client_SimulateTransaction (c : Client) (tx : Tx) : M (result SimulateTransactionResult) :=
  match Tx_Base64 E tx with
  | Err e => ret (Err e)
  | Ok base64 =>
      let* h := history in
      let* _ := emit (EvCall c (ReqSimulateTransaction base64)) in
      ret (rpc_simulateTransaction E h c base64)
  end.

Definition Client_SendTransaction (c : Client) (tx : Tx) : M (result SendTransactionResult) :=
  match Tx_Base64 E tx with
  | Err e => ret (Err e)
  | Ok base64 =>
      let* h := history in
      let* _ := emit (EvCall c (ReqSendTransaction base64)) in
      ret (rpc_sendTransaction E h c base64)
  end.

Definition Client_GetTransaction (c : Client) (hash : string) : M (result GetTransactionResult) :=
  let* h := history in
  let* _ := emit (EvCall c (ReqGetTransaction hash)) in
  ret (rpc_getTransaction E h c hash).

Definition Client_GetLedgerEntries (c : Client) (keys : list string) : M (result GetLedgerEntriesResult) :=
  let* h := history in
  let* _ := emit (EvCall c (ReqGetLedgerEntries keys)) in
  ret (rpc_getLedgerEntries E h c keys).

(** ** transaction.go *)

Record transactionBuild := {
  source : option Account;
  operations : list loc;
  signers : list (option KeyPair);
  timeBounds : TimeBounds;
  ledgerBounds : option LedgerBounds;
  minSequenceNumber : option Z;
  minSequenceNumberAge : Z;
  minSequenceNumberLedgerGap : Z;
  extraSigners : list string;
  build_Memo : option Memo;
  baseFee : Z;
  incrementSequenceNum : bool }.

Record Transaction := {
  client : option Client;
  build : transactionBuild }.

Definition NewTransctionBuilder : Transaction :=
  {| client := None;
     build := {| source := None; operations := []; signers := [];
                 timeBounds := TimeBounds_zero; ledgerBounds := None;
                 minSequenceNumber := None; minSequenceNumberAge := 0;
                 minSequenceNumberLedgerGap := 0; extraSigners := [];
                 build_Memo := None;
                 baseFee := MinBaseFee;
                 incrementSequenceNum := true |} |}.

Definition Transaction_Client (t : Transaction) (c : option Client) : Transaction :=
  {| client := c; build := build t |}.

Definition Transaction_SourceAccount (t : Transaction) (s : option Account) : Transaction :=
  let b := build t in
  {| client := client t;
     build := {| source := s; operations := operations b; signers := signers b;
                 timeBounds := timeBounds b; ledgerBounds := ledgerBounds b;
                 minSequenceNumber := minSequenceNumber b;
                 minSequenceNumberAge := minSequenceNumberAge b;
                 minSequenceNumberLedgerGap := minSequenceNumberLedgerGap b;
                 extraSigners := extraSigners b; build_Memo := build_Memo b;
                 baseFee := baseFee b;
                 incrementSequenceNum := incrementSequenceNum b |} |}.

Definition Transaction_Operation (t : Transaction) (ops : list loc) : Transaction :=
  let b := build t in
  {| client := client t;
     build := {| source := source b; operations := operations b ++ ops; signers := signers b;
                 timeBounds := timeBounds b; ledgerBounds := ledgerBounds b;
                 minSequenceNumber := minSequenceNumber b;
                 minSequenceNumberAge := minSequenceNumberAge b;
                 minSequenceNumberLedgerGap := minSequenceNumberLedgerGap b;
                 extraSigners := extraSigners b; build_Memo := build_Memo b;
                 baseFee := baseFee b;
                 incrementSequenceNum := incrementSequenceNum b |} |}.

Definition Transaction_Signer (t : Transaction) (kps : list (option KeyPair)) : Transaction :=
  let b := build t in
  {| client := client t;
     build := {| source := source b; operations := operations b; signers := signers b ++ kps;
                 timeBounds := timeBounds b; ledgerBounds := ledgerBounds b;
                 minSequenceNumber := minSequenceNumber b;
                 minSequenceNumberAge := minSequenceNumberAge b;
                 minSequenceNumberLedgerGap := minSequenceNumberLedgerGap b;
                 extraSigners := extraSigners b; build_Memo := build_Memo b;
                 baseFee := baseFee b;
                 incrementSequenceNum := incrementSequenceNum b |} |}.

Definition Transaction_TimeBounds (t : Transaction) (tb : TimeBounds) : Transaction :=
  let b := build t in
  {| client := client t;
     build := {| source := source b; operations := operations b; signers := signers b;
                 timeBounds := tb; ledgerBounds := ledgerBounds b;
                 minSequenceNumber := minSequenceNumber b;
                 minSequenceNumberAge := minSequenceNumberAge b;
                 minSequenceNumberLedgerGap := minSequenceNumberLedgerGap b;
                 extraSigners := extraSigners b; build_Memo := build_Memo b;
                 baseFee := baseFee b;
                 incrementSequenceNum := incrementSequenceNum b |} |}.

Definition Transaction_LedgerBounds (t : Transaction) (lb : option LedgerBounds) : Transaction :=
  let b := build t in
  {| client := client t;
     build := {| source := source b; operations := operations b; signers := signers b;
                 timeBounds := timeBounds b; ledgerBounds := lb;
                 minSequenceNumber := minSequenceNumber b;
                 minSequenceNumberAge := minSequenceNumberAge b;
                 minSequenceNumberLedgerGap := minSequenceNumberLedgerGap b;
                 extraSigners := extraSigners b; build_Memo := build_Memo b;
                 baseFee := baseFee b;
                 incrementSequenceNum := incrementSequenceNum b |} |}.

Definition Transaction_MinSequenceNumber (t : Transaction) (mn : option Z) : Transaction :=
  let b := build t in
  {| client := client t;
     build := {| source := source b; operations := operations b; signers := signers b;
                 timeBounds := timeBounds b; ledgerBounds := ledgerBounds b;
                 minSequenceNumber := mn;
                 minSequenceNumberAge := minSequenceNumberAge b;
                 minSequenceNumberLedgerGap := minSequenceNumberLedgerGap b;
                 extraSigners := extraSigners b; build_Memo := build_Memo b;
                 baseFee := baseFee b;
                 incrementSequenceNum := incrementSequenceNum b |} |}.

Definition Transaction_MinSequenceNumberAge (t : Transaction) (mn : Z) : Transaction :=
  let b := build t in
  {| client := client t;
     build := {| source := source b; operations := operations b; signers := signers b;
                 timeBounds := timeBounds b; ledgerBounds := ledgerBounds b;
                 minSequenceNumber := minSequenceNumber b;
                 minSequenceNumberAge := mn;
                 minSequenceNumberLedgerGap := minSequenceNumberLedgerGap b;
                 extraSigners := extraSigners b; build_Memo := build_Memo b;
                 baseFee := baseFee b;
                 incrementSequenceNum := incrementSequenceNum b |} |}.

Definition Transaction_MinSequenceNumberLedgerGap (t : Transaction) (mn : Z) : Transaction :=
  let b := build t in
  {| client := client t;
     build := {| source := source b; operations := operations b; signers := signers b;
                 timeBounds := timeBounds b; ledgerBounds := ledgerBounds b;
                 minSequenceNumber := minSequenceNumber b;
                 minSequenceNumberAge := minSequenceNumberAge b;
                 minSequenceNumberLedgerGap := mn;
                 extraSigners := extraSigners b; build_Memo := build_Memo b;
                 baseFee := baseFee b;
                 incrementSequenceNum := incrementSequenceNum b |} |}.

Definition Transaction_ExtraSigner (t : Transaction) (xs : list string) : Transaction :=
  let b := build t in
  {| client := client t;
     build := {| source := source b; operations := operations b; signers := signers b;
                 timeBounds := timeBounds b; ledgerBounds := ledgerBounds b;
                 minSequenceNumber := minSequenceNumber b;
                 minSequenceNumberAge := minSequenceNumberAge b;
                 minSequenceNumberLedgerGap := minSequenceNumberLedgerGap b;
                 extraSigners := extraSigners b ++ xs; build_Memo := build_Memo b;
                 baseFee := baseFee b;
                 incrementSequenceNum := incrementSequenceNum b |} |}.

Definition Transaction_Memo (t : Transaction) (m : option Memo) : Transaction :=
  let b := build t in
  {| client := client t;
     build := {| source := source b; operations := operations b; signers := signers b;
                 timeBounds := timeBounds b; ledgerBounds := ledgerBounds b;
                 minSequenceNumber := minSequenceNumber b;
                 minSequenceNumberAge := minSequenceNumberAge b;
                 minSequenceNumberLedgerGap := minSequenceNumberLedgerGap b;
                 extraSigners := extraSigners b; build_Memo := m;
                 baseFee := baseFee b;
                 incrementSequenceNum := incrementSequenceNum b |} |}.

Definition Transaction_BaseFee (t : Transaction) (f : Z) : Transaction :=
  let b := build t in
  {| client := client t;
     build := {| source := source b; operations := operations b; signers := signers b;
                 timeBounds := timeBounds b; ledgerBounds := ledgerBounds b;
                 minSequenceNumber := minSequenceNumber b;
                 minSequenceNumberAge := minSequenceNumberAge b;
                 minSequenceNumberLedgerGap := minSequenceNumberLedgerGap b;
                 extraSigners := extraSigners b; build_Memo := build_Memo b;
                 baseFee := f;
                 incrementSequenceNum := incrementSequenceNum b |} |}.

(** The assignments [t.build.incrementSequenceNum = v] of [Simulate]. *)
Definition set_incrementSequenceNum (t : Transaction) (v : bool) : Transaction :=
  let b := build t in
  {| client := client t;
     build := {| source := source b; operations := operations b; signers := signers b;
                 timeBounds := timeBounds b; ledgerBounds := ledgerBounds b;
                 minSequenceNumber := minSequenceNumber b;
                 minSequenceNumberAge := minSequenceNumberAge b;
                 minSequenceNumberLedgerGap := minSequenceNumberLedgerGap b;
                 extraSigners := extraSigners b; build_Memo := build_Memo b;
                 baseFee := baseFee b;
                 incrementSequenceNum := v |} |}.

Definition set_Auth (op : InvokeHostFunction) (auth : list SorobanAuthorizationEntry) : InvokeHostFunction :=
  {| Invoke_HostFunction := Invoke_HostFunction op;
     Invoke_Auth := auth;
     Invoke_SourceAccount := Invoke_SourceAccount op;
     Invoke_Ext := Invoke_Ext op |}.

Definition set_Invoke_Ext (op : InvokeHostFunction) (ext : TransactionExt) : InvokeHostFunction :=
  {| Invoke_HostFunction := Invoke_HostFunction op;
     Invoke_Auth := Invoke_Auth op;
     Invoke_SourceAccount := Invoke_SourceAccount op;
     Invoke_Ext := ext |}.

Definition set_Restore_Ext (op : RestoreFootprint) (ext : TransactionExt) : RestoreFootprint :=
  {| Restore_SourceAccount := Restore_SourceAccount op;
     Restore_Ext := ext |}.

(** [Authorization]: [t.build.operations[0]] is indexed without a length
    test; the type assertion fails on any operation that is not an
    [*InvokeHostFunction]. *)
Definition Authorization (t : Transaction) (auth : list SorobanAuthorizationEntry) : M Transaction :=
  match operations (build t) with
  | [] => panic indexPanic
  | l :: _ =>
      let* h := theHeap in
      match h !! l with
      | Some (OpInvokeHostFunction op) =>
          let* _ := store l (OpInvokeHostFunction (set_Auth op auth)) in
          ret t
      | _ => ret t
      end
  end.

(** [SorobanData]: guarded by [len(t.build.operations) > 0], then a type
    switch on the leading operation. *)
Definition SorobanData (t : Transaction) (data : SorobanTransactionData) : M Transaction :=
  match operations (build t) with
  | [] => ret t
  | l :: _ =>
      let* h := theHeap in
      match h !! l with
      | Some (OpInvokeHostFunction op) =>
          let* _ := store l (OpInvokeHostFunction
                      (set_Invoke_Ext op {| Ext_V := 1; Ext_SorobanData := Some data |})) in
          ret t
      | Some (OpRestoreFootprint op) =>
          let* _ := store l (OpRestoreFootprint
                      (set_Restore_Ext op {| Ext_V := 1; Ext_SorobanData := Some data |})) in
          ret t
      | _ => ret t
      end
  end.

Definition buildParams (t : Transaction) (h : list Operation) : TransactionParams :=
  let b := build t in
  {| Params_SourceAccount := source b;
     Params_Operations := map (fun l => h !! l) (operations b);
     Params_Preconditions :=
       {| Pre_TimeBounds := timeBounds b;
          Pre_LedgerBounds := ledgerBounds b;
          Pre_MinSequenceNumber := minSequenceNumber b;
          Pre_MinSequenceNumberAge := minSequenceNumberAge b;
          Pre_MinSequenceNumberLedgerGap := minSequenceNumberLedgerGap b;
          Pre_ExtraSigners := extraSigners b |};
     Params_BaseFee := baseFee b;
     Params_IncrementSequenceNum := incrementSequenceNum b |}.

Definition buildTx (t : Transaction) : M (result Tx) :=
  let* h := theHeap in
  let params := buildParams t h in
  let* tr := history in
  let* _ := emit (EvNewTransaction params) in
  ret (txnbuild_NewTransaction E tr params).

(** The inner loop of [Simulate]: decode and append the entries of one
    result. *)
Fixpoint decodeAuth (auths : list string) (auth : list SorobanAuthorizationEntry)
  : result (list SorobanAuthorizationEntry) :=
  match auths with
  | [] => Ok auth
  | authBase64 :: rest =>
      match SafeUnmarshalBase64_AuthorizationEntry E authBase64 with
      | Err e => Err e
      | Ok authEntry => decodeAuth rest (auth ++ [authEntry])
      end
  end.

(** The outer loop of [Simulate]. *)
Fixpoint decodeResults (results : list SimulateResult) (auth : list SorobanAuthorizationEntry)
  : result (list SorobanAuthorizationEntry) :=
  match results with
  | [] => Ok auth
  | res :: rest =>
      match SafeUnmarshalBase64_ScVal E (Result_XDR res) with
      | Err e => Err e
      | Ok _ =>
          match decodeAuth (Result_Auth res) auth with
          | Err e => Err e
          | Ok auth' => decodeResults rest auth'
          end
      end
  end.

(** [Simulate] returns its result and leaves the builder, which it mutates
    in place, in the state returned next to it. *)
Definition Simulate (t : Transaction) : M (result SimulateTransactionResult * Transaction) :=
  let increase := incrementSequenceNum (build t) in
  let t := set_incrementSequenceNum t false in
  let* r := buildTx t in
  let t := set_incrementSequenceNum t increase in
  match r with
  | Err e => ret (Err e, t)
  | Ok tx =>
      let* c := deref (client t) in
      let* r := Client_SimulateTransaction c tx in
      match r with
      | Err e => ret (Err e, t)
      | Ok res =>
          match decodeResults (Sim_Results res) [] with
          | Err e => ret (Err e, t)
          | Ok auth =>
              match SafeUnmarshalBase64_TransactionData E (Sim_TransactionData res) with
              | Err e => ret (Err e, t)
              | Ok transactionData =>
                  let t := Transaction_BaseFee t (wrap64 (Sim_MinResourceFee res + MinBaseFee)) in
                  let* t := SorobanData t transactionData in
                  let* t := Authorization t auth in
                  ret (Ok res, t)
              end
          end
      end
  end.

Definition Send (t : Transaction) : M (result SendTransactionResult) :=
  let* r := buildTx t in
  match r with
  | Err e => ret (Err e)
  | Ok tx =>
      let* c := deref (client t) in
      match Tx_Sign E tx (PassPhrase c) (signers (build t)) with
      | Err e => ret (Err e)
      | Ok tx => Client_SendTransaction c tx
      end
  end.

(** ** The contract *)

Record Contract := {
  wasm : bytes;
  wasmHash : Hash;
  salt : Hash;
  contract_client : option Client;
  contract_source : option Account;
  kp : option KeyPair;
  address : option ScAddress }.

Record invokeBuild := {
  function : string;
  prams : list ScVal }.

Definition NewContract : Contract :=
  {| wasm := []; wasmHash := repeat x00 32; salt := repeat x00 32;
     contract_client := None; contract_source := None; kp := None;
     address := None |}.

Definition Contract_Wasm (c : Contract) (w : bytes) : Contract :=
  {| wasm := w; wasmHash := sha256_Sum256 E w; salt := salt c;
     contract_client := contract_client c; contract_source := contract_source c;
     kp := kp c; address := address c |}.

Definition Contract_WasmHash (c : Contract) (h : Hash) : Contract :=
  {| wasm := wasm c; wasmHash := h; salt := salt c;
     contract_client := contract_client c; contract_source := contract_source c;
     kp := kp c; address := address c |}.

Definition Contract_Salt (c : Contract) (s : string) : Contract :=
  {| wasm := wasm c; wasmHash := wasmHash c;
     salt := sha256_Sum256 E (list_byte_of_string s);
     contract_client := contract_client c; contract_source := contract_source c;
     kp := kp c; address := address c |}.

Definition Contract_Client (c : Contract) (cl : option Client) : Contract :=
  {| wasm := wasm c; wasmHash := wasmHash c; salt := salt c;
     contract_client := cl; contract_source := contract_source c;
     kp := kp c; address := address c |}.

Definition Contract_SourceAccount (c : Contract) (src : option Account) : Contract :=
  {| wasm := wasm c; wasmHash := wasmHash c; salt := salt c;
     contract_client := contract_client c; contract_source := src;
     kp := kp c; address := address c |}.

Definition Contract_KeyPair (c : Contract) (k : option KeyPair) : Contract :=
  {| wasm := wasm c; wasmHash := wasmHash c; salt := salt c;
     contract_client := contract_client c; contract_source := contract_source c;
     kp := k; address := address c |}.

(** The setter [Address], and the assignment [c.address = ...] of
    [GetAddress]. *)
Definition Contract_Address (c : Contract) (a : ScAddress) : Contract :=
  {| wasm := wasm c; wasmHash := wasmHash c; salt := salt c;
     contract_client := contract_client c; contract_source := contract_source c;
     kp := kp c; address := Some a |}.

(** [c.source.GetAccountID()]: a method call on an interface value, which
    panics on [nil]. *)
Definition source_GetAccountID (c : Contract) : M string :=
  let* a := deref (contract_source c) in
  ret (GetAccountID a).

Definition getContractIdPreimage (c : Contract) : M (result ContractIdPreimage) :=
  let* id := source_GetAccountID c in
  match xdr_AddressToAccountId E id with
  | Err e => ret (Err e)
  | Ok sourceAccountID =>
      ret (Ok {| ContractIdPreimage_Type := ContractIdPreimageTypeContractIdPreimageFromAddress;
                 ContractIdPreimage_FromAddress := Some
                   {| FromAddress_Address :=
                        {| ScAddress_Type := ScAddressTypeScAddressTypeAccount;
                           ScAddress_AccountId := Some sourceAccountID;
                           ScAddress_ContractId := None |};
                      FromAddress_Salt := salt c |} |})
  end.

(** [GetAddress] returns the address and leaves the contract, whose
    [address] field it may set, in the state returned next to it. *)
Definition GetAddress (c : Contract) : M (result ScAddress * Contract) :=
  match address c with
  | Some a => ret (Ok a, c)
  | None =>
      match contract_source c, contract_client c with
      | None, _ => ret (Err (errors_New ErrorRequiredSource), c)
      | Some _, None => ret (Err (errors_New ErrorRequiredClient), c)
      | Some _, Some cl =>
          if len_array32 (salt c) =? 0 then ret (Err (errors_New ErrorRequiredSalt), c)
          else
            let* r := getContractIdPreimage c in
            match r with
            | Err e => ret (Err e, c)
            | Ok contractIdPreimage =>
                let contractId :=
                  {| NetworkId := sha256_Sum256 E (list_byte_of_string (PassPhrase cl));
                     ContractId_ContractIdPreimage := contractIdPreimage |} in
                let preImage :=
                  {| HashIdPreimage_Type := EnvelopeTypeEnvelopeTypeContractId;
                     HashIdPreimage_ContractId := Some contractId |} in
                match HashIdPreimage_MarshalBinary E preImage with
                | Err e => ret (Err e, c)
                | Ok xdrPreImageBytes =>
                    let contractHash := sha256_Sum256 E xdrPreImageBytes in
                    let a := {| ScAddress_Type := ScAddressTypeScAddressTypeContract;
                                ScAddress_AccountId := None;
                                ScAddress_ContractId := Some contractHash |} in
                    ret (Ok a, Contract_Address c a)
                end
            end
      end
  end.

Definition GetCodeKey (c : Contract) : result LedgerKey :=
  if len_array32 (wasmHash c) =? 0 then Err (errors_New ErrorRequiredWasmHash)
  else Ok {| LedgerKey_Type := LedgerEntryTypeContractCode;
             LedgerKey_Account := None;
             LedgerKey_ContractData := None;
             LedgerKey_ContractCode := Some (wasmHash c) |}.

(** When [GetAddress] fails, [GetFootprint] returns the zero key and a nil
    error, as the source does. *)
Definition GetFootprint (c : Contract) : M (result LedgerKey * Contract) :=
  if len_array32 (wasmHash c) =? 0 then ret (Err (errors_New ErrorRequiredWasmHash), c)
  else
    let* '(r, c) := GetAddress c in
    match r with
    | Err _ => ret (Ok LedgerKey_zero, c)
    | Ok contractAddress =>
        ret (Ok {| LedgerKey_Type := LedgerEntryTypeContractData;
                   LedgerKey_Account := None;
                   LedgerKey_ContractData := Some
                     {| ContractData_Contract := contractAddress;
                        ContractData_Key := ScvLedgerKeyContractInstance;
                        ContractData_Durability := ContractDataDurabilityPersistent |};
                   LedgerKey_ContractCode := None |}, c)
    end.

(** The comparison both liveness checks end with. *)
Definition entryAlive (e : GetLedgerEntrie) (res : GetLedgerEntriesResult) : bool :=
  LiveUntilLedgerSeq e >=? LatestLedger res.

Definition IsCodeAlive (c : Contract) : M (result (bool * GetLedgerEntriesResult)) :=
  match contract_client c with
  | None => ret (Err (errors_New ErrorRequiredClient))
  | Some cl =>
      match GetCodeKey c with
      | Err e => ret (Err e)
      | Ok ledgerKey =>
          match LedgerKey_MarshalBinaryBase64 E ledgerKey with
          | Err e => ret (Err e)
          | Ok base64 =>
              let* r := Client_GetLedgerEntries cl [base64] in
              match r with
              | Err e => ret (Err e)
              | Ok res =>
                  match Entries res with
                  | [] => panic indexPanic
                  | e0 :: _ => ret (Ok (entryAlive e0 res, res))
                  end
              end
          end
      end
  end.

Definition IsInstanceAlive (c : Contract) : M (result (bool * GetLedgerEntriesResult) * Contract) :=
  let* '(r, c) := GetFootprint c in
  match r with
  | Err e => ret (Err e, c)
  | Ok ledgerKey =>
      match LedgerKey_MarshalBinaryBase64 E ledgerKey with
      | Err e => ret (Err e, c)
      | Ok base64 =>
          let* cl := deref (contract_client c) in
          let* r := Client_GetLedgerEntries cl [base64] in
          match r with
          | Err e => ret (Err e, c)
          | Ok res =>
              match Entries res with
              | [] => ret (Ok (false, res), c)
              | e0 :: _ => ret (Ok (entryAlive e0 res, res), c)
              end
          end
      end
  end.

Definition IsAlive (c : Contract) : M (result bool * Contract) :=
  let* r := IsCodeAlive c in
  match r with
  | Err e => ret (Err e, c)
  | Ok (code, _) =>
      let* '(r, c) := IsInstanceAlive c in
      match r with
      | Err e => ret (Err e, c)
      | Ok (instance, _) => ret (Ok (code && instance), c)
      end
  end.

(** The chain [NewTransctionBuilder().Client(..).SourceAccount(..).Signer(..)
    .Operation(op).TimeBounds(tb)] that every submitting function starts
    from. *)
Definition builderFor (c : Contract) (op : loc) (tb : TimeBounds) : Transaction :=
  Transaction_TimeBounds
    (Transaction_Operation
       (Transaction_Signer
          (Transaction_SourceAccount
             (Transaction_Client NewTransctionBuilder (contract_client c))
             (contract_source c))
          [kp c])
       [op])
    tb.

(** The same with [txnbuild.NewTimeout(30)], which reads the clock. *)
Definition newBuilder (c : Contract) (op : loc) : M Transaction :=
  let* tr := history in
  ret (builderFor c op (txnbuild_NewTimeout E tr 30)).

Definition simulateSubmitHostFunction (c : Contract) (op : InvokeHostFunction)
  : M (result SendTransactionResult) :=
  let* l := alloc (OpInvokeHostFunction op) in
  let* transaction := newBuilder c l in
  let* '(r, transaction) := Simulate transaction in
  match r with
  | Err e => ret (Err e)
  | Ok _ => Send transaction
  end.

(** The operation [Install] uploads the code with. *)
Definition installOp (c : Contract) (id : string) : InvokeHostFunction :=
  {| Invoke_HostFunction :=
       {| HostFunction_Type := HostFunctionTypeHostFunctionTypeUploadContractWasm;
          HostFunction_InvokeContract := None;
          HostFunction_CreateContract := None;
          HostFunction_Wasm := Some (wasm c) |};
     Invoke_Auth := [];
     Invoke_SourceAccount := id;
     Invoke_Ext := TransactionExt_zero |}.

Definition Install (c : Contract) : M (result SendTransactionResult) :=
  match contract_client c, contract_source c, kp c with
  | None, _, _ => ret (Err (errors_New ErrorRequiredClient))
  | Some _, None, _ => ret (Err (errors_New ErrorRequiredSource))
  | Some _, Some _, None => ret (Err (errors_New ErrorRequiredKeyPair))
  | Some _, Some _, Some _ =>
      let* id := source_GetAccountID c in
      simulateSubmitHostFunction c (installOp c id)
  end.

Definition Deploy (c : Contract) : M (result SendTransactionResult) :=
  match contract_client c, contract_source c, kp c with
  | None, _, _ => ret (Err (errors_New ErrorRequiredClient))
  | Some _, None, _ => ret (Err (errors_New ErrorRequiredSource))
  | Some _, Some _, None => ret (Err (errors_New ErrorRequiredKeyPair))
  | Some _, Some _, Some _ =>
      let* r := IsCodeAlive c in
      match r with
      | Err e => ret (Err e)
      | Ok (false, _) => ret (Err (errors_New ErrorWasmCodeNeedsRestore))
      | Ok (true, _) =>
          let* r := getContractIdPreimage c in
          match r with
          | Err e => ret (Err e)
          | Ok contractIdPreimage =>
              let* id := source_GetAccountID c in
              let createOp :=
                {| Invoke_HostFunction :=
                     {| HostFunction_Type := HostFunctionTypeHostFunctionTypeCreateContract;
                        HostFunction_InvokeContract := None;
                        HostFunction_CreateContract := Some
                          {| CreateContract_ContractIdPreimage := contractIdPreimage;
                             Executable_WasmHash := wasmHash c |};
                        HostFunction_Wasm := None |};
                   Invoke_Auth := [];
                   Invoke_SourceAccount := id;
                   Invoke_Ext := TransactionExt_zero |} in
              simulateSubmitHostFunction c createOp
          end
      end
  end.

(** [time.Duration(i) * 2 * time.Second], in nanoseconds. *)
Definition Second : Z := 1000000000.
Definition backoff (i : Z) : Z := wrap64 (wrap64 (i * 2) * Second).

(** The loop [for i := ..; i < bound; i++] of the poller with [n]
    iterations left, that is [bound = i + n]. *)
Fixpoint pollFrom (c : option Client) (hash : string) (n : nat) (i : Z)
  : M (result (option GetTransactionResult)) :=
  match n with
  | O => ret (Ok None)
  | S n' =>
      let* cl := deref c in
      let* r := Client_GetTransaction cl hash in
      match r with
      | Err e => ret (Err e)
      | Ok res =>
          if negb (String.eqb (Status res) "NOT_FOUND") then ret (Ok (Some res))
          else
            let* _ := emit (EvSleep (backoff i)) in
            pollFrom c hash n' (i + 1)
      end
  end.

(** The poller of the client: [for i := 0; i < 5; i++]. *)
Definition waitCompletedTransaction (c : option Client) (hash : string)
  : M (result (option GetTransactionResult)) :=
  pollFrom c hash 5 0.

(** The poller of the tests (contract_test.go), with the same body and
    [maxAttempts] for the bound. *)
Definition WaitCompletedTransaction (c : Client) (hash : string) (maxAttempts : Z)
  : M (result (option GetTransactionResult)) :=
  pollFrom (Some c) hash (Z.to_nat maxAttempts) 0.

Definition Restore (c : Contract) : M (result SendTransactionResult * Contract) :=
  match GetCodeKey c with
  | Err e => ret (Err e, c)
  | Ok codeKey =>
      let readWrite := [codeKey] in
      let* '(r, c) := GetFootprint c in
      match r with
      | Err e => ret (Err e, c)
      | Ok instanceKey =>
          let readWrite := readWrite ++ [instanceKey] in
          let* id := source_GetAccountID c in
          let* l := alloc (OpRestoreFootprint
                      {| Restore_SourceAccount := id; Restore_Ext := TransactionExt_zero |}) in
          let* transaction := newBuilder c l in
          let* transaction := SorobanData transaction (SorobanTransactionData_ReadWrite readWrite) in
          let* '(r, transaction) := Simulate transaction in
          match r with
          | Err e => ret (Err e, c)
          | Ok _ =>
              let* r := Send transaction in
              ret (r, c)
          end
      end
  end.

(** The block of [invoke] under [res.RestorePreamble.MinResourceFee != 0];
    [Some e] when it returns from [invoke] with the error [e]. *)
Definition restorePreambleStep (c : Contract) (res : SimulateTransactionResult) (restore : bool)
  : M (option error) :=
  if negb restore then ret (Some (errors_New ErrorContractDataNeedsRestore))
  else
    match SafeUnmarshalBase64_TransactionData E (Sim_TransactionData res) with
    | Err e => ret (Some e)
    | Ok transactionData =>
        let* id := source_GetAccountID c in
        let* l := alloc (OpRestoreFootprint
                    {| Restore_SourceAccount := id; Restore_Ext := TransactionExt_zero |}) in
        let* t := newBuilder c l in
        let* t := SorobanData t transactionData in
        let t := Transaction_BaseFee t
                   (wrap64 (Preamble_MinResourceFee (RestorePreamble res) + MinBaseFee)) in
        let* r := Send t in
        match r with
        | Err e => ret (Some e)
        | Ok res' =>
            let* _ := waitCompletedTransaction (contract_client c) (Send_Hash res') in
            ret None
        end
    end.

Definition invokeOp (contractAddress : ScAddress) (b : invokeBuild) (id : string) : InvokeHostFunction :=
  {| Invoke_HostFunction :=
       {| HostFunction_Type := HostFunctionTypeHostFunctionTypeInvokeContract;
          HostFunction_InvokeContract := Some
            {| ContractAddress := contractAddress;
               FunctionName := function b;
               Args := prams b |};
          HostFunction_CreateContract := None;
          HostFunction_Wasm := None |};
     Invoke_Auth := [];
     Invoke_SourceAccount := id;
     Invoke_Ext := TransactionExt_zero |}.

(** The operation and the builder [invoke] simulates and sends. *)
Definition invokeTransaction (c : Contract) (contractAddress : ScAddress) (b : invokeBuild)
  : M Transaction :=
  let* id := source_GetAccountID c in
  let* l := alloc (OpInvokeHostFunction (invokeOp contractAddress b id)) in
  newBuilder c l.

Definition invoke (c : Contract) (b : invokeBuild) (restore : bool)
  : M (result SendTransactionResult * Contract) :=
  let* '(r, c) := GetAddress c in
  match r with
  | Err e => ret (Err e, c)
  | Ok contractAddress =>
      let* transaction := invokeTransaction c contractAddress b in
      let* '(r, transaction) := Simulate transaction in
      match r with
      | Err e => ret (Err e, c)
      | Ok res =>
          let* early :=
            if negb (Preamble_MinResourceFee (RestorePreamble res) =? 0)
            then restorePreambleStep c res restore
            else ret None in
          match early with
          | Some e => ret (Err e, c)
          | None =>
              let* r := Send transaction in
              ret (r, c)
          end
      end
  end.

Definition invokeBuilder_Send (c : Contract) (b : invokeBuild)
  : M (result SendTransactionResult * Contract) :=
  if String.eqb (function b) "" then ret (Err (errors_New ErrorInvokeRequiresFunction), c)
  else
    let* '(r, c) := IsAlive c in
    match r with
    | Err e => ret (Err e, c)
    | Ok false => ret (Err (errors_New ErrorContractNeedsRestore), c)
    | Ok true => invoke c b false
    end.

Definition invokeBuilder_RestoreAndSend (c : Contract) (b : invokeBuild)
  : M (result SendTransactionResult * Contract) :=
  if String.eqb (function b) "" then ret (Err (errors_New ErrorInvokeRequiresFunction), c)
  else
    let* '(r, c) := IsAlive c in
    match r with
    | Err e => ret (Err e, c)
    | Ok isAlive =>
        let* '(stop, c) :=
          if negb isAlive then
            let* '(r, c) := Restore c in
            match r with
            | Err e => ret (Some e, c)
            | Ok res =>
                let* _ := waitCompletedTransaction (contract_client c) (Send_Hash res) in
                ret (None, c)
            end
          else ret (None, c) in
        match stop with
        | Some e => ret (Err e, c)
        | None => invoke c b true
        end
    end.

End Soroban.

(** ** The claimed behaviour, in the words of the specification *)

(** The record whose encoding is hashed (specification 4.1): the network
    identifier, which is the digest of the passphrase, next to the preimage
    [{type: FromAddress, address: account address, salt}]. *)
Definition contractIdRecord (E : Env) (account : AccountId) (salt : Hash)
  (networkPassphrase : string) : HashIdPreimage :=
  let contractIdPreimage :=
    {| ContractIdPreimage_Type := ContractIdPreimageTypeContractIdPreimageFromAddress;
       ContractIdPreimage_FromAddress := Some
         {| FromAddress_Address :=
              {| ScAddress_Type := ScAddressTypeScAddressTypeAccount;
                 ScAddress_AccountId := Some account;
                 ScAddress_ContractId := None |};
            FromAddress_Salt := salt |} |} in
  let networkId := sha256_Sum256 E (list_byte_of_string networkPassphrase) in
  {| HashIdPreimage_Type := EnvelopeTypeEnvelopeTypeContractId;
     HashIdPreimage_ContractId := Some
       {| NetworkId := networkId;
          ContractId_ContractIdPreimage := contractIdPreimage |} |}.

(** An address of kind contract. *)
Definition contractAddress (id : Hash) : ScAddress :=
  {| ScAddress_Type := ScAddressTypeScAddressTypeContract;
     ScAddress_AccountId := None;
     ScAddress_ContractId := Some id |}.

(** [deriveAddress(sourceAccountId, salt, networkPassphrase)] of the
    specification (4.1): it fails when the account identifier cannot be
    parsed or the record cannot be encoded, and is otherwise the digest of
    the encoded record, wrapped as an address of kind contract. *)
Definition deriveAddress (E : Env) (sourceAccountId : string) (salt : Hash)
  (networkPassphrase : string) : result ScAddress :=
  match xdr_AddressToAccountId E sourceAccountId with
  | Err e => Err e
  | Ok account =>
      match HashIdPreimage_MarshalBinary E
              (contractIdRecord E account salt networkPassphrase) with
      | Err e => Err e
      | Ok encoding => Ok (contractAddress (sha256_Sum256 E encoding))
      end
  end.

(** The contract's address is set: by the setter [Address], or by an
    earlier call of [GetAddress] that returned it. *)
Definition address_set (E : Env) (c : Contract) (a : ScAddress) : Prop :=
  (exists c0, c = Contract_Address c0 a) \/
  (exists c0 s0 s1, GetAddress E c0 s0 = (Return (Ok a, c), s1)).

(** ** The vocabulary of the statements *)

(** A query of the status of a transaction. *)
Definition isGetTransaction (e : Event) : bool :=
  match e with
  | EvCall _ (ReqGetTransaction _) => true
  | _ => false
  end.

(** The ledger key of the code, which [GetCodeKey] always returns: the
    length test on the array can not fail. *)
Definition codeKey (c : Contract) : LedgerKey :=
  {| LedgerKey_Type := LedgerEntryTypeContractCode;
     LedgerKey_Account := None;
     LedgerKey_ContractData := None;
     LedgerKey_ContractCode := Some (wasmHash c) |}.

(** The state after one more interaction. *)
Definition after (s : State) (evs : list Event) : State :=
  {| heap := heap s; trace := trace s ++ evs |}.

(** The builders the exported functions give: [NewTransctionBuilder] and
    its setters. None of them assigns [incrementSequenceNum]. *)
Inductive Built : Transaction -> Prop :=
| Built_New : Built NewTransctionBuilder
| Built_Client t c : Built t -> Built (Transaction_Client t c)
| Built_SourceAccount t a : Built t -> Built (Transaction_SourceAccount t a)
| Built_Operation t ops : Built t -> Built (Transaction_Operation t ops)
| Built_Signer t kps : Built t -> Built (Transaction_Signer t kps)
| Built_TimeBounds t tb : Built t -> Built (Transaction_TimeBounds t tb)
| Built_LedgerBounds t lb : Built t -> Built (Transaction_LedgerBounds t lb)
| Built_MinSequenceNumber t mn : Built t -> Built (Transaction_MinSequenceNumber t mn)
| Built_MinSequenceNumberAge t mn : Built t -> Built (Transaction_MinSequenceNumberAge t mn)
| Built_MinSequenceNumberLedgerGap t mn :
    Built t -> Built (Transaction_MinSequenceNumberLedgerGap t mn)
| Built_ExtraSigner t xs : Built t -> Built (Transaction_ExtraSigner t xs)
| Built_Memo t m : Built t -> Built (Transaction_Memo t m)
| Built_BaseFee t f : Built t -> Built (Transaction_BaseFee t f).

(** The parameters [Simulate] builds its transaction from. *)
Definition simParams (t : Transaction) (s : State) : TransactionParams :=
  buildParams (set_incrementSequenceNum t false) (heap s).

(** The last statement of [Simulate], the chain
    [t.BaseFee(..).SorobanData(..).Authorization(..)], and its return. *)
Definition writeBack (t : Transaction) (res : SimulateTransactionResult)
  (auth : list SorobanAuthorizationEntry) (transactionData : SorobanTransactionData)
  : M (result SimulateTransactionResult * Transaction) :=
  let t := Transaction_BaseFee t (wrap64 (Sim_MinResourceFee res + MinBaseFee)) in
  let* t := SorobanData t transactionData in
  let* t := Authorization t auth in
  ret (Ok res, t).

(** The construction of a transaction. *)
Definition isNewTransaction (e : Event) : bool :=
  match e with
  | EvNewTransaction _ => true
  | _ => false
  end.

(** [auth] is the decoding, entry by entry and in order, of the
    authorization entries of all the per-operation results of [res]. *)
Definition decodedAuth (E : Env) (res : SimulateTransactionResult)
  (auth : list SorobanAuthorizationEntry) : Prop :=
  Forall2 (fun base64 entry => SafeUnmarshalBase64_AuthorizationEntry E base64 = Ok entry)
    (concat (map Result_Auth (Sim_Results res))) auth.

(** The authorization entries the leading operation of the builder carries;
    only an invoke-host-function has any. *)
Definition attachedAuth (h : list Operation) (t : Transaction) : list SorobanAuthorizationEntry :=
  match operations (build t) with
  | l :: _ =>
      match h !! l with
      | Some (OpInvokeHostFunction op) => Invoke_Auth op
      | _ => []
      end
  | [] => []
  end.

(** The leading operation of the builder is an invoke-host-function. *)
Definition leadingIsInvoke (h : list Operation) (t : Transaction) : bool :=
  match operations (build t) with
  | l :: _ =>
      match h !! l with
      | Some (OpInvokeHostFunction _) => true
      | _ => false
      end
  | [] => false
  end.

(** C3 as the specification states it. *)
Definition simulate_claim (E : Env) (t : Transaction) (s : State) : Prop :=
  forall res t' s',
    Simulate E t s = (Return (Ok res, t'), s') ->
    baseFee (build t') = Sim_MinResourceFee res + MinBaseFee
    /\ decodedAuth E res (attachedAuth (heap s') t').

(** The bound of the loop of [waitCompletedTransaction]. *)
Definition maxAttempts : nat := 5.

(** What [k] attempts answered NOT_FOUND do, from attempt [i] on: a query,
    then the sleep of that attempt. *)
Fixpoint pollEvents (cl : Client) (hash : string) (k : nat) (i : Z) : list Event :=
  match k with
  | O => []
  | S k' =>
      EvCall cl (ReqGetTransaction hash) :: EvSleep (backoff i)
        :: pollEvents cl hash k' (i + 1)
  end.

(** The same from attempt 0, with the sleep of attempt [i] written as
    [i * 2] seconds. *)
Definition attempts (cl : Client) (hash : string) (k : nat) : list Event :=
  flat_map (fun i => [EvCall cl (ReqGetTransaction hash); EvSleep (Z.of_nat i * 2 * Second)])
    (seq 0 k).

(** The query was answered, with the status NOT_FOUND. *)
Definition notFound (r : result GetTransactionResult) : Prop :=
  exists res, r = Ok res /\ Status res = "NOT_FOUND".

(** Every interaction of [m], from any state, satisfies [P]. *)
Definition emits {A} (P : Event -> Prop) (m : M A) : Prop :=
  forall s, exists new, trace (snd (m s)) = trace s ++ new /\ Forall P new.

(** A submission: a call of sendTransaction. *)
Definition isSubmission (e : Event) : bool :=
  match e with
  | EvCall _ (ReqSendTransaction _) => true
  | _ => false
  end.

(** Any other interaction. *)
Definition noSubmission (e : Event) : Prop := isSubmission e = false.

(** A network call of any kind. *)
Definition isCall (e : Event) : bool :=
  match e with
  | EvCall _ _ => true
  | _ => false
  end.

(** A computation that only adds to the trace keeps what is known of it. *)
Definition grows {A} (m : M A) : Prop := emits (fun _ => True) m.

(** A restore-footprint operation with resource data attached. *)
Definition restoreOp (id : string) (data : SorobanTransactionData) : RestoreFootprint :=
  {| Restore_SourceAccount := id;
     Restore_Ext := {| Ext_V := 1; Ext_SorobanData := Some data |} |}.

(** The parameters of every transaction built during a run. *)
Definition builtOperations (tr : Trace) : list (list (option Operation)) :=
  flat_map (fun e => match e with
                     | EvNewTransaction p => [Params_Operations p]
                     | _ => []
                     end) tr.

(** The parameters of the transaction [Install] simulates. *)
Definition installParams (E : Env) (c : Contract) (id : string) (s : State) : TransactionParams :=
  simParams (builderFor c (length (heap s)) (txnbuild_NewTimeout E (trace s) 30))
    {| heap := heap s ++ [OpInvokeHostFunction (installOp c id)]; trace := trace s |}.

(** ** A small network to run the functions on *)

(** The transaction status the [n]-th query gets: the [n]-th of [statuses],
    and NOT_FOUND after them. *)
Definition statusAt (statuses : list string) (n : nat) : GetTransactionResult :=
  {| Status := nth n statuses "NOT_FOUND"; ResultXdr := ""; ResultMetaXdr := "" |}.

Definition demoData (s : string) : SorobanTransactionData :=
  {| Footprint_ReadOnly := []; Footprint_ReadWrite := [];
     Resources_Instructions := Z.of_nat (String.length s);
     ResourceFee := 0 |}.

Definition demoEnv (sim : SimulateTransactionResult) (ledger : GetLedgerEntriesResult)
  (statuses : list string) : Env :=
  {| sha256_Sum256 := fun b => firstn 32 (b ++ repeat x00 32);
     xdr_AddressToAccountId := fun id =>
       if String.eqb id "" then Err (errors_New "invalid address")
       else Ok (list_byte_of_string id);
     HashIdPreimage_MarshalBinary := fun p =>
       match HashIdPreimage_ContractId p with
       | Some cid =>
           match ContractIdPreimage_FromAddress (ContractId_ContractIdPreimage cid) with
           | Some fa =>
               Ok (NetworkId cid ++ default [] (ScAddress_AccountId (FromAddress_Address fa))
                   ++ FromAddress_Salt fa)
           | None => Err (errors_New "nil arm")
           end
       | None => Err (errors_New "nil arm")
       end;
     LedgerKey_MarshalBinaryBase64 := fun k =>
       match LedgerKey_Type k with
       | LedgerEntryTypeAccount => Ok "account"
       | LedgerEntryTypeContractData => Ok "data"
       | LedgerEntryTypeContractCode => Ok "code"
       end;
     SafeUnmarshalBase64_ScVal := fun _ => Ok ScvVoid;
     SafeUnmarshalBase64_AuthorizationEntry := fun x => Ok (AuthorizationEntry x);
     SafeUnmarshalBase64_TransactionData := fun x => Ok (demoData x);
     txnbuild_NewTimeout := fun _ timeout => {| MinTime := 0; MaxTime := timeout |};
     txnbuild_NewTransaction := fun _ p =>
       match Params_Operations p with
       | [] => Err (errors_New "no operations")
       | _ => Ok (Envelope "tx")
       end;
     Tx_Sign := fun tx _ _ => Ok tx;
     Tx_Base64 := fun tx => match tx with Envelope x => Ok x end;
     rpc_simulateTransaction := fun _ _ _ => Ok sim;
     rpc_sendTransaction := fun _ _ _ =>
       Ok {| Send_Hash := "hash"; Send_Status := "PENDING"; Send_ErrorResultXdr := "" |};
     rpc_getTransaction := fun tr _ _ =>
       Ok (statusAt statuses (length (List.filter isGetTransaction tr)));
     rpc_getLedgerEntries := fun _ _ _ => Ok ledger |}.

Definition demoClient : Client :=
  {| URL := "http://localhost:8000/rpc";
     PassPhrase := "Standalone Network ; February 2017";
     FriendbotURL := "" |}.

Definition demoAccount : Account := {| AccountId_ := "GABC"; Sequence := 7 |}.

Definition demoAddress : ScAddress :=
  {| ScAddress_Type := ScAddressTypeScAddressTypeContract;
     ScAddress_AccountId := None;
     ScAddress_ContractId := Some (repeat x01 32) |}.

Definition demoSim (fee preambleFee : Z) (auth : list string) : SimulateTransactionResult :=
  {| Sim_Error := ""; Sim_TransactionData := "invoke-data"; Sim_MinResourceFee := fee;
     Sim_Results := [ {| Result_Auth := auth; Result_XDR := "AAAAAQ==" |} ];
     RestorePreamble := {| Preamble_MinResourceFee := preambleFee;
                           Preamble_TransactionData := "restore-data!" |} |}.

Definition demoLedger (entries : list Z) : GetLedgerEntriesResult :=
  {| LatestLedger := 100;
     Entries := map (fun live => {| Entrie_Key := ""; Entrie_Xdr := "";
                                    LastModifiedLedgerSeq := 1;
                                    LiveUntilLedgerSeq := live |}) entries |}.

(** [NewContract().Client(..).SourceAccount(..).KeyPair(..)], without and
    with [Wasm] and [Salt]. *)
Definition demoBare : Contract :=
  Contract_KeyPair
    (Contract_SourceAccount (Contract_Client NewContract (Some demoClient)) (Some demoAccount))
    (Some (FullKeyPair "SEED")).

Definition demoContract (E : Env) : Contract :=
  Contract_Salt E (Contract_Wasm E demoBare [x00; x61; x73; x6d]) "a1".

Definition emptyState : State := {| heap := []; trace := [] |}.

(** Networks for the examples: every entry live and nothing to restore; no
    ledger entry; two authorization entries in the simulation; a stale
    footprint; a transaction found by the third query. *)
Definition liveNet : Env := demoEnv (demoSim 100 0 []) (demoLedger [100]) [].
Definition emptyLedgerNet : Env := demoEnv (demoSim 100 0 []) (demoLedger []) [].
Definition authNet : Env := demoEnv (demoSim 100 0 ["a1"; "a2"]) (demoLedger [100]) [].
Definition staleNet : Env := demoEnv (demoSim 100 5 []) (demoLedger [100]) ["SUCCESS"].
Definition pollNet : Env :=
  demoEnv (demoSim 100 0 []) (demoLedger [100]) ["NOT_FOUND"; "NOT_FOUND"; "SUCCESS"].

(** The address the demo contract derives. *)
Definition demoDerived (E : Env) : ScAddress :=
  match deriveAddress E "GABC" (salt (demoContract E)) (PassPhrase demoClient) with
  | Ok a => a
  | Err _ => demoAddress
  end.

(** A builder with a client and one operation, the object at address 0. *)
Definition demoBuilder : Transaction :=
  Transaction_Operation (Transaction_Client NewTransctionBuilder (Some demoClient)) [0%nat].

(** A heap whose only object is a restore-footprint, or an invoke. *)
Definition demoRestoreState : State :=
  {| heap := [OpRestoreFootprint
                {| Restore_SourceAccount := "GABC"; Restore_Ext := TransactionExt_zero |}];
     trace := [] |}.

Definition demoInvokeState : State :=
  {| heap := [OpInvokeHostFunction
                (invokeOp demoAddress {| function := "hello"; prams := [] |} "GABC")];
     trace := [] |}.

(** [Invoke().Function("hello").Symbol("World")] *)
Definition demoInvoke : invokeBuild := {| function := "hello"; prams := [ScvSymbol "World"] |}.

(** ** More of the sources *)

(** *** The account *)

Definition GetSequenceNumber (a : Account) : result Z := Ok (Sequence a).

(** [IncrementSequenceNumber], on the account it mutates: the result and
    the account after the call. *)
Definition IncrementSequenceNumber (a : Account) : result Z * Account :=
  if Sequence a =? MaxInt64
  then (Err (errorString
          "sequence cannot be increased, it already reached MaxInt64 (9223372036854775807)"),
        a)
  else
    let a' := {| AccountId_ := AccountId_ a; Sequence := wrap64 (Sequence a + 1) |} in
    (Ok (Sequence a'), a').

(** [n] calls in a row, stopping at the first error. *)
Fixpoint incrementTimes (n : nat) (a : Account) : result Z * Account :=
  match n with
  | O => (Ok (Sequence a), a)
  | S n' =>
      match IncrementSequenceNumber a with
      | (Ok _, a') => incrementTimes n' a'
      | (Err e, a') => (Err e, a')
      end
  end.

Record Signer := {
  Weight : Z;
  Key : string }.

(** [SignerSummary], on the [Signers] of the account: the loop assigns
    [m[s.Key] = s.Weight] for each signer in order. *)
Definition SignerSummary (signers : list Signer) : gmap string Z :=
  foldl (fun m s => <[Key s := Weight s]> m) ∅ signers.





(** *** The invoke builder *)

(** [Invoke()]: no function, no parameters. *)
Definition Invoke : invokeBuild := {| function := ""; prams := [] |}.

Definition invokeBuilder_Function (b : invokeBuild) (f : string) : invokeBuild :=
  {| function := f; prams := prams b |}.

Definition invokeBuilder_Params (b : invokeBuild) (params : list ScVal) : invokeBuild :=
  {| function := function b; prams := prams b ++ params |}.

Definition invokeBuilder_Bool (b : invokeBuild) (x : bool) : invokeBuild :=
  {| function := function b; prams := prams b ++ [ScvBool x] |}.

Definition invokeBuilder_Int32 (b : invokeBuild) (i : Z) : invokeBuild :=
  {| function := function b; prams := prams b ++ [ScvI32 i] |}.

Definition invokeBuilder_Int64 (b : invokeBuild) (i : Z) : invokeBuild :=
  {| function := function b; prams := prams b ++ [ScvI64 i] |}.

Definition invokeBuilder_Uint32 (b : invokeBuild) (i : Z) : invokeBuild :=
  {| function := function b; prams := prams b ++ [ScvU32 i] |}.

Definition invokeBuilder_Uint64 (b : invokeBuild) (i : Z) : invokeBuild :=
  {| function := function b; prams := prams b ++ [ScvU64 i] |}.

Definition invokeBuilder_String (b : invokeBuild) (x : string) : invokeBuild :=
  {| function := function b; prams := prams b ++ [ScvString x] |}.

Definition invokeBuilder_Symbol (b : invokeBuild) (x : string) : invokeBuild :=
  {| function := function b; prams := prams b ++ [ScvSymbol x] |}.

(** One call on the invoke builder. *)
Inductive BuilderCall :=
| CallFunction (f : string)
| CallParams (params : list ScVal)
| CallBool (x : bool)
| CallInt32 (i : Z)
| CallInt64 (i : Z)
| CallUint32 (i : Z)
| CallUint64 (i : Z)
| CallString (x : string)
| CallSymbol (x : string).

Definition applyCall (b : invokeBuild) (call : BuilderCall) : invokeBuild :=
  match call with
  | CallFunction f => invokeBuilder_Function b f
  | CallParams params => invokeBuilder_Params b params
  | CallBool x => invokeBuilder_Bool b x
  | CallInt32 i => invokeBuilder_Int32 b i
  | CallInt64 i => invokeBuilder_Int64 b i
  | CallUint32 i => invokeBuilder_Uint32 b i
  | CallUint64 i => invokeBuilder_Uint64 b i
  | CallString x => invokeBuilder_String b x
  | CallSymbol x => invokeBuilder_Symbol b x
  end.

(** The values a call adds to the parameters. *)
Definition callValues (call : BuilderCall) : list ScVal :=
  match call with
  | CallFunction _ => []
  | CallParams params => params
  | CallBool x => [ScvBool x]
  | CallInt32 i => [ScvI32 i]
  | CallInt64 i => [ScvI64 i]
  | CallUint32 i => [ScvU32 i]
  | CallUint64 i => [ScvU64 i]
  | CallString x => [ScvString x]
  | CallSymbol x => [ScvSymbol x]
  end.

(** The function name after a chain of calls: the last one set. *)
Definition lastFunction (calls : list BuilderCall) (f0 : string) : string :=
  foldl (fun f call => match call with CallFunction f' => f' | _ => f end) f0 calls.

(** ** More vocabulary *)

(** What the write-back of [Simulate] makes of the leading operation. *)
Definition written (td : SorobanTransactionData) (auth : list SorobanAuthorizationEntry)
  (op : Operation) : Operation :=
  match op with
  | OpInvokeHostFunction o =>
      OpInvokeHostFunction
        (set_Auth (set_Invoke_Ext o {| Ext_V := 1; Ext_SorobanData := Some td |}) auth)
  | OpRestoreFootprint o =>
      OpRestoreFootprint (set_Restore_Ext o {| Ext_V := 1; Ext_SorobanData := Some td |})
  | OpOther k => OpOther k
  end.

(** A query of ledger entries. *)
Definition isLedgerQuery (e : Event) : Prop :=
  match e with
  | EvCall _ (ReqGetLedgerEntries _) => True
  | _ => False
  end.

(** The operation [Deploy] creates the contract with. *)
Definition createOp (c : Contract) (contractIdPreimage : ContractIdPreimage) (id : string)
  : InvokeHostFunction :=
  {| Invoke_HostFunction :=
       {| HostFunction_Type := HostFunctionTypeHostFunctionTypeCreateContract;
          HostFunction_InvokeContract := None;
          HostFunction_CreateContract := Some
            {| CreateContract_ContractIdPreimage := contractIdPreimage;
               Executable_WasmHash := wasmHash c |};
          HostFunction_Wasm := None |};
     Invoke_Auth := [];
     Invoke_SourceAccount := id;
     Invoke_Ext := TransactionExt_zero |}.


(** A network whose code entry expired at ledger 99, the latest being 100. *)
Definition expiredNet : Env := demoEnv (demoSim 100 0 []) (demoLedger [99]) [].

(** A network that answers the second status query with an error. *)
Definition failingNet : Env :=
  {| sha256_Sum256 := sha256_Sum256 liveNet;
     xdr_AddressToAccountId := xdr_AddressToAccountId liveNet;
     HashIdPreimage_MarshalBinary := HashIdPreimage_MarshalBinary liveNet;
     LedgerKey_MarshalBinaryBase64 := LedgerKey_MarshalBinaryBase64 liveNet;
     SafeUnmarshalBase64_ScVal := SafeUnmarshalBase64_ScVal liveNet;
     SafeUnmarshalBase64_AuthorizationEntry := SafeUnmarshalBase64_AuthorizationEntry liveNet;
     SafeUnmarshalBase64_TransactionData := SafeUnmarshalBase64_TransactionData liveNet;
     txnbuild_NewTimeout := txnbuild_NewTimeout liveNet;
     txnbuild_NewTransaction := txnbuild_NewTransaction liveNet;
     Tx_Sign := Tx_Sign liveNet;
     Tx_Base64 := Tx_Base64 liveNet;
     rpc_simulateTransaction := fun _ _ _ => Err (errors_New "bad status 503");
     rpc_sendTransaction := rpc_sendTransaction liveNet;
     rpc_getTransaction := fun tr c h =>
       match List.filter isGetTransaction tr with
       | [] => rpc_getTransaction liveNet tr c h
       | _ => Err (errors_New "bad status 503")
       end;
     rpc_getLedgerEntries := rpc_getLedgerEntries liveNet |}.

(** The same object twice in the list. *)
Definition demoTwice : Transaction :=
  Transaction_Operation (Transaction_Client NewTransctionBuilder (Some demoClient))
    [0%nat; 0%nat].

(** The parameters of the transaction [simulateSubmitHostFunction]
    simulates for [op]. *)
Definition submitParams (E : Env) (c : Contract) (op : InvokeHostFunction) (s : State)
  : TransactionParams :=
  simParams (builderFor c (length (heap s)) (txnbuild_NewTimeout E (trace s) 30))
    {| heap := heap s ++ [OpInvokeHostFunction op]; trace := trace s |}.

(** The preimage [FromAddress] of an account and a salt. *)
Definition preimageOf (account : AccountId) (salt : Hash) : ContractIdPreimage :=
  {| ContractIdPreimage_Type := ContractIdPreimageTypeContractIdPreimageFromAddress;
     ContractIdPreimage_FromAddress := Some
       {| FromAddress_Address :=
            {| ScAddress_Type := ScAddressTypeScAddressTypeAccount;
               ScAddress_AccountId := Some account;
               ScAddress_ContractId := None |};
          FromAddress_Salt := salt |} |}.

(** * Properties *)

(** ** Running the monad *)

Lemma bind_Return {A B} (m : M A) (k : A -> M B) s a s' :
  m s = (Return a, s') -> bind m k s = k a s'.
Proof. intros H. unfold bind. rewrite H. reflexivity. Qed.

Lemma bind_Panic {A B} (m : M A) (k : A -> M B) s msg s' :
  m s = (Panic msg, s') -> bind m k s = (Panic msg, s').
Proof. intros H. unfold bind. rewrite H. reflexivity. Qed.

Lemma bind_inv {A B} (m : M A) (k : A -> M B) s b s2 :
  bind m k s = (Return b, s2) ->
  exists a s1, m s = (Return a, s1) /\ k a s1 = (Return b, s2).
Proof.
  unfold bind. destruct (m s) as [[a | msg] s1]; intros H.
  - exists a, s1. split; [reflexivity | exact H].
  - discriminate H.
Qed.

Ltac unfold_prims :=
  unfold source_GetAccountID, deref, history, theHeap, alloc, store, emit,
    panic, bind, ret in *.

(** ** Address derivation and its cache *)

Lemma GetAddress_run E c src cl s :
  contract_source c = Some src ->
  contract_client c = Some cl ->
  address c = None ->
  GetAddress E c s =
  (Return (deriveAddress E (GetAccountID src) (salt c) (PassPhrase cl),
           match deriveAddress E (GetAccountID src) (salt c) (PassPhrase cl) with
           | Ok a => Contract_Address c a
           | Err _ => c
           end), s).
Proof.
  intros Hsrc Hcl Hnone.
  unfold GetAddress, getContractIdPreimage, deriveAddress. unfold_prims.
  rewrite Hnone, Hsrc, Hcl. simpl.
  destruct (xdr_AddressToAccountId E (GetAccountID src)); [| reflexivity].
  simpl. destruct (HashIdPreimage_MarshalBinary E _); reflexivity.
Qed.

Lemma GetAddress_hit E c a s :
  address c = Some a -> GetAddress E c s = (Return (Ok a, c), s).
Proof. intros H. unfold GetAddress. rewrite H. reflexivity. Qed.

Lemma GetAddress_sets E c s a c' s' :
  GetAddress E c s = (Return (Ok a, c'), s') -> address c' = Some a.
Proof.
  unfold GetAddress, getContractIdPreimage. unfold_prims.
  destruct (address c) eqn:Ha.
  { intros H. injection H as <- <- _. exact Ha. }
  destruct (contract_source c); [| discriminate].
  destruct (contract_client c); [| discriminate].
  destruct (len_array32 (salt c) =? 0); [discriminate |].
  destruct (xdr_AddressToAccountId E (GetAccountID a0)); [| discriminate].
  simpl. destruct (HashIdPreimage_MarshalBinary E _); [| discriminate].
  intros H. injection H as <- <- _. reflexivity.
Qed.

(** C1. On a contract with a source account, a client and no cached
    address, [GetAddress] returns what the derivation of the specification
    gives for (account id of the source, salt, passphrase of the client):
    the preimage from the account address and the salt, the digest of the
    passphrase as network identifier, the canonical encoding of the record,
    its digest wrapped as an address of kind contract. A derived address is
    cached, nothing else changes, and two contracts that agree on the
    triple get the same answer. *)
Theorem GetAddress_derives (E : Env) (c : Contract) (src : Account) (cl : Client) (s : State)
  (Hsrc : contract_source c = Some src)
  (Hcl : contract_client c = Some cl)
  (Hnone : address c = None) :
  exists c',
    GetAddress E c s =
      (Return (deriveAddress E (GetAccountID src) (salt c) (PassPhrase cl), c'), s)
    /\ (forall account encoding,
          xdr_AddressToAccountId E (GetAccountID src) = Ok account ->
          HashIdPreimage_MarshalBinary E
            (contractIdRecord E account (salt c) (PassPhrase cl)) = Ok encoding ->
          deriveAddress E (GetAccountID src) (salt c) (PassPhrase cl)
            = Ok (contractAddress (sha256_Sum256 E encoding))
          /\ c' = Contract_Address c (contractAddress (sha256_Sum256 E encoding)))
    /\ (forall e, deriveAddress E (GetAccountID src) (salt c) (PassPhrase cl) = Err e -> c' = c)
    /\ (forall c2 src2 cl2 s2,
          contract_source c2 = Some src2 -> contract_client c2 = Some cl2 ->
          address c2 = None ->
          GetAccountID src2 = GetAccountID src -> salt c2 = salt c ->
          PassPhrase cl2 = PassPhrase cl ->
          exists c2',
            GetAddress E c2 s2 =
              (Return (deriveAddress E (GetAccountID src) (salt c) (PassPhrase cl), c2'), s2)).
Proof.
  eexists. split; [apply (GetAddress_run E c src cl s Hsrc Hcl Hnone) |].
  split; [| split].
  - intros account encoding Hacc Henc. unfold deriveAddress.
    rewrite Hacc, Henc. split; reflexivity.
  - intros e He. rewrite He. reflexivity.
  - intros c2 src2 cl2 s2 Hs2 Hc2 Hn2 Hid Hsalt Hpp.
    rewrite (GetAddress_run E c2 src2 cl2 s2 Hs2 Hc2 Hn2).
    rewrite Hid, Hsalt, Hpp. eexists. reflexivity.
Qed.

Lemma GetAddress_derives_witness :
  exists c', GetAddress liveNet (demoContract liveNet) emptyState =
    (Return (deriveAddress liveNet "GABC" (salt (demoContract liveNet))
               "Standalone Network ; February 2017", c'), emptyState).
Proof.
  destruct (GetAddress_derives liveNet (demoContract liveNet) demoAccount demoClient
              emptyState eq_refl eq_refl eq_refl) as (c' & H & _).
  exists c'. exact H.
Defined.

(** C10. Once the address of a contract is set, by the setter or by an
    earlier call of [GetAddress] that returned it, [GetAddress] returns that
    address whatever the other fields and whatever the collaborators are,
    and leaves the contract, the heap and the trace as they were: so a
    second call returns what the first one did. *)
Theorem GetAddress_cached (E : Env) (c : Contract) (a : ScAddress)
  (Hset : address_set E c a) :
  address c = Some a
  /\ (forall E' s, GetAddress E' c s = (Return (Ok a, c), s))
  /\ (forall E' cl src k sl s,
        GetAddress E'
          {| wasm := wasm c; wasmHash := wasmHash c; salt := sl;
             contract_client := cl; contract_source := src; kp := k;
             address := address c |} s
        = (Return (Ok a,
                   {| wasm := wasm c; wasmHash := wasmHash c; salt := sl;
                      contract_client := cl; contract_source := src; kp := k;
                      address := address c |}), s)).
Proof.
  assert (Ha : address c = Some a).
  { destruct Hset as [[c0 ->] | (c0 & s0 & s1 & H)].
    - reflexivity.
    - exact (GetAddress_sets E c0 s0 a c s1 H). }
  split; [exact Ha |]. split.
  - intros E' s. apply GetAddress_hit. exact Ha.
  - intros E' cl src k sl s. apply GetAddress_hit. exact Ha.
Qed.

Lemma GetAddress_cached_witness :
  address (Contract_Address NewContract demoAddress) = Some demoAddress
  /\ address (Contract_Address (demoContract liveNet) (demoDerived liveNet))
     = Some (demoDerived liveNet).
Proof.
  split.
  - apply (GetAddress_cached liveNet (Contract_Address NewContract demoAddress) demoAddress).
    left. exists NewContract. reflexivity.
  - apply (GetAddress_cached liveNet
             (Contract_Address (demoContract liveNet) (demoDerived liveNet))
             (demoDerived liveNet)).
    right. exists (demoContract liveNet), emptyState, emptyState. vm_compute. reflexivity.
Defined.

(** ** Liveness *)

Lemma GetCodeKey_ok c : GetCodeKey c = Ok (codeKey c).
Proof. reflexivity. Qed.

Lemma IsCodeAlive_run E c cl base64 res s :
  contract_client c = Some cl ->
  LedgerKey_MarshalBinaryBase64 E (codeKey c) = Ok base64 ->
  rpc_getLedgerEntries E (trace s) cl [base64] = Ok res ->
  IsCodeAlive E c s =
    (match Entries res with
     | [] => Panic indexPanic
     | e0 :: _ => Return (Ok (entryAlive e0 res, res))
     end, after s [EvCall cl (ReqGetLedgerEntries [base64])]).
Proof.
  intros Hcl Hkey Hres. unfold IsCodeAlive, Client_GetLedgerEntries.
  rewrite Hcl, GetCodeKey_ok, Hkey. unfold_prims. simpl. rewrite Hres.
  destruct (Entries res); reflexivity.
Qed.

(** [GetAddress] always returns, and changes at most the [address] field. *)
Lemma GetAddress_total E c s :
  exists r c',
    GetAddress E c s = (Return (r, c'), s)
    /\ (c' = c \/ exists a, c' = Contract_Address c a).
Proof.
  unfold GetAddress, getContractIdPreimage. unfold_prims.
  destruct (address c); [eauto |].
  destruct (contract_source c); [| eauto].
  destruct (contract_client c); [| eauto].
  destruct (len_array32 (salt c) =? 0); [eauto |].
  destruct (xdr_AddressToAccountId E (GetAccountID a)); [| eauto].
  simpl. destruct (HashIdPreimage_MarshalBinary E _); eauto 6.
Qed.

(** [GetFootprint] never fails and has no effect on heap or trace; it may
    cache the address. *)
Lemma GetFootprint_run E c s :
  exists key c',
    GetFootprint E c s = (Return (Ok key, c'), s)
    /\ contract_client c' = contract_client c
    /\ contract_source c' = contract_source c
    /\ kp c' = kp c.
Proof.
  unfold GetFootprint. simpl.
  destruct (GetAddress_total E c s) as (r & c' & HG & Hc).
  rewrite (bind_Return _ _ _ _ _ HG).
  assert (Hf : contract_client c' = contract_client c
               /\ contract_source c' = contract_source c /\ kp c' = kp c).
  { destruct Hc as [-> | [a ->]]; auto. }
  destruct r; eexists _, c'; (split; [reflexivity | exact Hf]).
Qed.

(** What [IsInstanceAlive] answers once the query has been answered: the
    comparison on the first entry, and [false] without an error when there
    is no entry. *)
Lemma IsInstanceAlive_run E c cl s :
  contract_client c = Some cl ->
  exists key c',
    GetFootprint E c s = (Return (Ok key, c'), s)
    /\ forall base64 res,
         LedgerKey_MarshalBinaryBase64 E key = Ok base64 ->
         rpc_getLedgerEntries E (trace s) cl [base64] = Ok res ->
         IsInstanceAlive E c s =
           (Return (Ok (match Entries res with
                        | [] => false
                        | e0 :: _ => entryAlive e0 res
                        end, res), c'),
            after s [EvCall cl (ReqGetLedgerEntries [base64])]).
Proof.
  intros Hcl. destruct (GetFootprint_run E c s) as (key & c' & HF & Hc' & _).
  exists key, c'. split; [exact HF |].
  intros base64 res Hkey Hres. unfold IsInstanceAlive.
  rewrite (bind_Return _ _ _ _ _ HF). rewrite Hkey, Hc', Hcl.
  unfold Client_GetLedgerEntries. unfold_prims. simpl. rewrite Hres.
  destruct (Entries res); reflexivity.
Qed.

(** With an entry in the answer, [IsCodeAlive] is the comparison
    [liveUntilLedgerSeq >= latestLedger]. *)
Lemma IsCodeAlive_entry E c cl base64 res e0 rest s :
  contract_client c = Some cl ->
  LedgerKey_MarshalBinaryBase64 E (codeKey c) = Ok base64 ->
  rpc_getLedgerEntries E (trace s) cl [base64] = Ok res ->
  Entries res = e0 :: rest ->
  exists alive,
    fst (IsCodeAlive E c s) = Return (Ok (alive, res))
    /\ (alive = true <-> LiveUntilLedgerSeq e0 >= LatestLedger res).
Proof.
  intros Hcl Hkey Hres He.
  rewrite (IsCodeAlive_run E c cl base64 res s Hcl Hkey Hres), He. simpl.
  exists (entryAlive e0 res). split; [reflexivity |].
  unfold entryAlive. rewrite Z.geb_le. lia.
Qed.

(** C2, where the code departs from it. When the answer to the query has
    no entry, [IsCodeAlive] indexes [res.Entries[0]] and panics, where the
    claim has [alive = false] and no error; [IsInstanceAlive] tests the
    length first and returns [false]. *)
Theorem IsCodeAlive_no_entry_panics (E : Env) (c : Contract) (cl : Client)
  (base64 : string) (res : GetLedgerEntriesResult) (s : State)
  (Hcl : contract_client c = Some cl)
  (Hkey : LedgerKey_MarshalBinaryBase64 E (codeKey c) = Ok base64)
  (Hres : rpc_getLedgerEntries E (trace s) cl [base64] = Ok res)
  (Hnone : Entries res = []) :
  IsCodeAlive E c s =
    (Panic indexPanic, after s [EvCall cl (ReqGetLedgerEntries [base64])]).
Proof.
  rewrite (IsCodeAlive_run E c cl base64 res s Hcl Hkey Hres), Hnone. reflexivity.
Qed.

Lemma IsCodeAlive_no_entry_panics_witness :
  IsCodeAlive emptyLedgerNet (demoContract liveNet) emptyState =
    (Panic indexPanic,
     after emptyState [EvCall demoClient (ReqGetLedgerEntries ["code"])])
  /\ fst (IsInstanceAlive emptyLedgerNet (demoContract liveNet) emptyState) =
     Return (Ok (false, demoLedger []),
             Contract_Address (demoContract liveNet) (demoDerived liveNet)).
Proof.
  split.
  - apply (IsCodeAlive_no_entry_panics emptyLedgerNet (demoContract liveNet) demoClient
             "code" (demoLedger [])); reflexivity.
  - vm_compute. reflexivity.
Defined.

(** ** The setters of the Soroban extension *)

(** What holds of both setters when there is a leading operation: the
    builder is returned as it was, the trace is untouched, only the object
    the leading pointer refers to can change, and it changes only when it is
    an invoke-host-function ([Authorization], [SorobanData]) or a
    restore-footprint ([SorobanData]). *)
Lemma SorobanData_frame t data s :
  exists h',
    SorobanData t data s = (Return t, {| heap := h'; trace := trace s |})
    /\ (forall l', head (operations (build t)) <> Some l' -> h' !! l' = heap s !! l')
    /\ (forall l rest, operations (build t) = l :: rest ->
          match heap s !! l with
          | Some (OpInvokeHostFunction op) =>
              h' !! l = Some (OpInvokeHostFunction
                                (set_Invoke_Ext op {| Ext_V := 1; Ext_SorobanData := Some data |}))
          | Some (OpRestoreFootprint op) =>
              h' !! l = Some (OpRestoreFootprint
                                (set_Restore_Ext op {| Ext_V := 1; Ext_SorobanData := Some data |}))
          | _ => h' = heap s
          end)
    /\ (operations (build t) = [] -> h' = heap s).
Proof.
  unfold SorobanData. destruct s as [h tr]. simpl.
  destruct (operations (build t)) as [| l rest] eqn:Hops.
  - exists h. repeat split; try reflexivity; intros; discriminate.
  - unfold_prims. simpl.
    destruct (h !! l) as [[op | op | k] |] eqn:Hl; simpl.
    + eexists. split; [reflexivity |]. split; [| split].
      * intros l' Hne. apply list_lookup_insert_ne. congruence.
      * intros l0 rest0 [= <- <-]. rewrite Hl.
        apply list_lookup_insert_eq. eapply lookup_lt_Some; eassumption.
      * discriminate.
    + eexists. split; [reflexivity |]. split; [| split].
      * intros l' Hne. apply list_lookup_insert_ne. congruence.
      * intros l0 rest0 [= <- <-]. rewrite Hl.
        apply list_lookup_insert_eq. eapply lookup_lt_Some; eassumption.
      * discriminate.
    + exists h. split; [reflexivity |]. split; [| split].
      * reflexivity.
      * intros l0 rest0 [= <- <-]. rewrite Hl. reflexivity.
      * discriminate.
    + exists h. split; [reflexivity |]. split; [| split].
      * reflexivity.
      * intros l0 rest0 [= <- <-]. rewrite Hl. reflexivity.
      * discriminate.
Qed.

Lemma Authorization_frame t auth s l rest :
  operations (build t) = l :: rest ->
  exists h',
    Authorization t auth s = (Return t, {| heap := h'; trace := trace s |})
    /\ (forall l', l' <> l -> h' !! l' = heap s !! l')
    /\ match heap s !! l with
       | Some (OpInvokeHostFunction op) =>
           h' !! l = Some (OpInvokeHostFunction (set_Auth op auth))
       | _ => h' = heap s
       end.
Proof.
  intros Hops. unfold Authorization. rewrite Hops. destruct s as [h tr].
  unfold_prims. simpl.
  destruct (h !! l) as [[op | op | k] |] eqn:Hl; simpl.
  - eexists. split; [reflexivity |]. split.
    + intros l' Hne. apply list_lookup_insert_ne. congruence.
    + apply list_lookup_insert_eq. eapply lookup_lt_Some; eassumption.
  - exists h. repeat split; reflexivity.
  - exists h. repeat split; reflexivity.
  - exists h. repeat split; reflexivity.
Qed.

Lemma Authorization_empty t auth s :
  operations (build t) = [] -> Authorization t auth s = (Panic indexPanic, s).
Proof. intros H. unfold Authorization. rewrite H. reflexivity. Qed.

Lemma SorobanData_empty t data s :
  operations (build t) = [] -> SorobanData t data s = (Return t, s).
Proof. intros H. unfold SorobanData. rewrite H. reflexivity. Qed.

(** C9, where the code departs from it. On a builder without operations
    [Authorization] indexes [t.build.operations[0]] and panics, where the
    claim has a call that changes nothing and does not fail; [SorobanData]
    tests the length first and returns the builder unchanged. *)
Theorem Authorization_no_operation_panics (t : Transaction)
  (auth : list SorobanAuthorizationEntry) (data : SorobanTransactionData) (s : State)
  (Hnone : operations (build t) = []) :
  Authorization t auth s = (Panic indexPanic, s)
  /\ SorobanData t data s = (Return t, s).
Proof.
  split; [apply Authorization_empty | apply SorobanData_empty]; exact Hnone.
Qed.

Lemma Authorization_no_operation_panics_witness :
  Authorization NewTransctionBuilder [AuthorizationEntry "entry"] emptyState
    = (Panic indexPanic, emptyState)
  /\ SorobanData NewTransctionBuilder (demoData "data") emptyState
    = (Return NewTransctionBuilder, emptyState).
Proof.
  apply (Authorization_no_operation_panics NewTransctionBuilder
           [AuthorizationEntry "entry"] (demoData "data") emptyState).
  reflexivity.
Defined.

(** ** Simulate *)

(** The assignments of [Simulate] around [buildTx] cancel out. *)
Lemma restore_flag t :
  set_incrementSequenceNum (set_incrementSequenceNum t false)
    (incrementSequenceNum (build t)) = t.
Proof. destruct t as [c b]. destruct b. reflexivity. Qed.

Lemma Simulate_unfold E t s :
  Simulate E t s =
  let s1 := after s [EvNewTransaction (simParams t s)] in
  match txnbuild_NewTransaction E (trace s) (simParams t s) with
  | Err e => (Return (Err e, t), s1)
  | Ok tx =>
      match client t with
      | None => (Panic nilPointerPanic, s1)
      | Some cl =>
          match Tx_Base64 E tx with
          | Err e => (Return (Err e, t), s1)
          | Ok base64 =>
              let s2 := after s1 [EvCall cl (ReqSimulateTransaction base64)] in
              match rpc_simulateTransaction E (trace s1) cl base64 with
              | Err e => (Return (Err e, t), s2)
              | Ok res =>
                  match decodeResults E (Sim_Results res) [] with
                  | Err e => (Return (Err e, t), s2)
                  | Ok auth =>
                      match SafeUnmarshalBase64_TransactionData E (Sim_TransactionData res) with
                      | Err e => (Return (Err e, t), s2)
                      | Ok transactionData => writeBack t res auth transactionData s2
                      end
                  end
              end
          end
      end
  end.
Proof.
  unfold Simulate, writeBack. rewrite !restore_flag.
  unfold buildTx, Client_SimulateTransaction, simParams. unfold_prims.
  cbn zeta.
  replace (client (set_incrementSequenceNum t false)) with (client t) by reflexivity.
  destruct (txnbuild_NewTransaction E (trace s) _); [| reflexivity].
  destruct (client t); [| reflexivity].
  destruct (Tx_Base64 E a); [| reflexivity].
  simpl. destruct (rpc_simulateTransaction E _ c a0); [| reflexivity].
  destruct (decodeResults E (Sim_Results a1) []); [| reflexivity].
  destruct (SafeUnmarshalBase64_TransactionData E (Sim_TransactionData a1)); reflexivity.
Qed.

(** The write-back returns the builder with the new fee, and changes the
    heap only, or panics. *)
Lemma writeBack_run t res auth td s :
  (exists h', writeBack t res auth td s =
      (Return (Ok res, Transaction_BaseFee t (wrap64 (Sim_MinResourceFee res + MinBaseFee))),
       {| heap := h'; trace := trace s |}))
  \/ (exists msg h', writeBack t res auth td s = (Panic msg, {| heap := h'; trace := trace s |})).
Proof.
  unfold writeBack.
  set (t1 := Transaction_BaseFee t _).
  destruct (SorobanData_frame t1 td s) as (h1 & HS & _).
  rewrite (bind_Return _ _ _ _ _ HS).
  destruct (operations (build t1)) as [| l rest] eqn:Hops.
  - right. exists indexPanic, h1.
    pose proof (Authorization_empty t1 auth {| heap := h1; trace := trace s |} Hops) as HA.
    rewrite (bind_Panic _ _ _ _ _ HA). reflexivity.
  - left.
    destruct (Authorization_frame t1 auth {| heap := h1; trace := trace s |} l rest Hops)
      as (h2 & HA & _).
    rewrite (bind_Return _ _ _ _ _ HA). exists h2. reflexivity.
Qed.

(** The events of a run of [Simulate]: the construction of one transaction
    from [simParams], then at most the one call of simulateTransaction. *)
Lemma Simulate_trace E t s :
  exists rest,
    trace (snd (Simulate E t s)) = trace s ++ EvNewTransaction (simParams t s) :: rest
    /\ (rest = [] \/ exists cl base64, rest = [EvCall cl (ReqSimulateTransaction base64)]).
Proof.
  rewrite Simulate_unfold. cbn zeta.
  destruct (txnbuild_NewTransaction E (trace s) _); [| exists []; simpl; auto].
  destruct (client t) as [cl |]; [| exists []; simpl; auto].
  destruct (Tx_Base64 E a) as [base64 |]; [| exists []; simpl; auto].
  exists [EvCall cl (ReqSimulateTransaction base64)].
  split; [| right; eauto].
  assert (Hs2 : trace (after (after s [EvNewTransaction (simParams t s)])
                         [EvCall cl (ReqSimulateTransaction base64)])
                = trace s ++ [EvNewTransaction (simParams t s);
                              EvCall cl (ReqSimulateTransaction base64)]).
  { simpl. rewrite <- app_assoc. reflexivity. }
  destruct (rpc_simulateTransaction E _ cl base64) as [res |]; [| exact Hs2].
  destruct (decodeResults E (Sim_Results res) []) as [auth |]; [| exact Hs2].
  destruct (SafeUnmarshalBase64_TransactionData E (Sim_TransactionData res)) as [td |];
    [| exact Hs2].
  destruct (writeBack_run t res auth td
              (after (after s [EvNewTransaction (simParams t s)])
                 [EvCall cl (ReqSimulateTransaction base64)]))
    as [(h' & ->) | (msg & h' & ->)]; exact Hs2.
Qed.

(** [Simulate] returns the builder with the flag it had. *)
Lemma Simulate_flag E t s r t' s' :
  Simulate E t s = (Return (r, t'), s') ->
  incrementSequenceNum (build t') = incrementSequenceNum (build t)
  /\ client t' = client t
  /\ operations (build t') = operations (build t)
  /\ signers (build t') = signers (build t).
Proof.
  rewrite Simulate_unfold. cbn zeta.
  destruct (txnbuild_NewTransaction E (trace s) _); [| intros [= _ <- _]; auto].
  destruct (client t) as [cl |] eqn:Hcl; [| discriminate].
  destruct (Tx_Base64 E a) as [base64 |]; [| intros [= _ <- _]; auto].
  destruct (rpc_simulateTransaction E _ cl base64) as [res |]; [| intros [= _ <- _]; auto].
  destruct (decodeResults E (Sim_Results res) []) as [auth |]; [| intros [= _ <- _]; auto].
  destruct (SafeUnmarshalBase64_TransactionData E (Sim_TransactionData res)) as [td |];
    [| intros [= _ <- _]; auto].
  destruct (writeBack_run t res auth td
              (after (after s [EvNewTransaction (simParams t s)])
                 [EvCall cl (ReqSimulateTransaction base64)]))
    as [(h' & ->) | (msg & h' & ->)]; [| discriminate].
  intros [= _ <- _]. simpl. auto.
Qed.

Lemma Send_trace E t s :
  exists rest,
    trace (snd (Send E t s)) = trace s ++ EvNewTransaction (buildParams t (heap s)) :: rest.
Proof.
  unfold Send, buildTx, Client_SendTransaction. unfold_prims. simpl.
  destruct (txnbuild_NewTransaction E (trace s) _); [| exists []; reflexivity].
  destruct (client t) as [cl |]; [| exists []; reflexivity].
  simpl. destruct (Tx_Sign E a (PassPhrase cl) _); [| exists []; reflexivity].
  destruct (Tx_Base64 E a0); [| exists []; reflexivity].
  simpl. eexists. rewrite <- app_assoc. reflexivity.
Qed.

Lemma Built_flag t : Built t -> incrementSequenceNum (build t) = true.
Proof. induction 1; simpl; auto. Qed.

(** C4. [Simulate] builds exactly one transaction, as its first
    interaction, with sequence-number incrementing disabled; when it
    returns, the builder's flag is what it was before the call, so that a
    [Send] that follows builds its transaction with that flag: with
    incrementing allowed for a builder that had it allowed, as every builder
    made with [NewTransctionBuilder] and the setters has. *)
Theorem Simulate_keeps_sequence_flag (E : Env) (t : Transaction) (s : State) :
  (exists rest,
     trace (snd (Simulate E t s)) = trace s ++ EvNewTransaction (simParams t s) :: rest
     /\ Params_IncrementSequenceNum (simParams t s) = false
     /\ List.filter isNewTransaction rest = [])
  /\ (forall r t' s',
        Simulate E t s = (Return (r, t'), s') ->
        incrementSequenceNum (build t') = incrementSequenceNum (build t)
        /\ exists p rest,
             trace (snd (Send E t' s')) = trace s' ++ EvNewTransaction p :: rest
             /\ Params_IncrementSequenceNum p = incrementSequenceNum (build t))
  /\ (Built t -> incrementSequenceNum (build t) = true).
Proof.
  split; [| split].
  - destruct (Simulate_trace E t s) as (rest & Htr & Hrest).
    exists rest. split; [exact Htr |]. split; [reflexivity |].
    destruct Hrest as [-> | (cl & base64 & ->)]; reflexivity.
  - intros r t' s' H. destruct (Simulate_flag E t s r t' s' H) as (Hflag & _).
    split; [exact Hflag |].
    destruct (Send_trace E t' s') as (rest & Htr).
    exists (buildParams t' (heap s')), rest. split; [exact Htr |].
    simpl. exact Hflag.
  - apply Built_flag.
Qed.

Lemma wrap64_small z : - 2 ^ 63 <= z < 2 ^ 63 -> wrap64 z = z.
Proof. intros H. unfold wrap64. rewrite Z.mod_small; lia. Qed.

Lemma decodeAuth_spec E auths acc auth :
  decodeAuth E auths acc = Ok auth ->
  exists new, auth = acc ++ new
    /\ Forall2 (fun base64 entry => SafeUnmarshalBase64_AuthorizationEntry E base64 = Ok entry)
         auths new.
Proof.
  revert acc. induction auths as [| b rest IH]; intros acc; simpl.
  - intros [= <-]. exists []. split; [symmetry; apply app_nil_r | constructor].
  - destruct (SafeUnmarshalBase64_AuthorizationEntry E b) as [entry |] eqn:Hb; [| discriminate].
    intros H. destruct (IH _ H) as (new & -> & Hnew).
    exists (entry :: new). split.
    + rewrite <- app_assoc. reflexivity.
    + constructor; assumption.
Qed.

Lemma decodeResults_spec E results acc auth :
  decodeResults E results acc = Ok auth ->
  exists new, auth = acc ++ new
    /\ Forall2 (fun base64 entry => SafeUnmarshalBase64_AuthorizationEntry E base64 = Ok entry)
         (concat (map Result_Auth results)) new.
Proof.
  revert acc. induction results as [| r rest IH]; intros acc; simpl.
  - intros [= <-]. exists []. split; [symmetry; apply app_nil_r | constructor].
  - destruct (SafeUnmarshalBase64_ScVal E (Result_XDR r)); [| discriminate].
    destruct (decodeAuth E (Result_Auth r) acc) as [acc' |] eqn:Hr; [| discriminate].
    intros H. destruct (decodeAuth_spec E _ _ _ Hr) as (new1 & -> & H1).
    destruct (IH _ H) as (new2 & -> & H2).
    exists (new1 ++ new2). split.
    + rewrite <- app_assoc. reflexivity.
    + apply Forall2_app; assumption.
Qed.

(** What a write-back that returns did to the heap: nothing outside the
    leading operation; on an invoke-host-function the data and the
    entries, on a restore-footprint the data, on anything else nothing. *)
Lemma writeBack_heap t res auth td s r t' s' :
  writeBack t res auth td s = (Return (r, t'), s') ->
  exists l rest,
    operations (build t) = l :: rest
    /\ (forall l', l' <> l -> heap s' !! l' = heap s !! l')
    /\ match heap s !! l with
       | Some (OpInvokeHostFunction op) =>
           heap s' !! l = Some (OpInvokeHostFunction
             (set_Auth (set_Invoke_Ext op {| Ext_V := 1; Ext_SorobanData := Some td |}) auth))
       | Some (OpRestoreFootprint op) =>
           heap s' !! l = Some (OpRestoreFootprint
             (set_Restore_Ext op {| Ext_V := 1; Ext_SorobanData := Some td |}))
       | _ => heap s' = heap s
       end.
Proof.
  unfold writeBack. set (t1 := Transaction_BaseFee t _).
  destruct (SorobanData_frame t1 td s) as (h1 & HS & Hfr1 & Hl1 & _).
  rewrite (bind_Return _ _ _ _ _ HS).
  destruct (operations (build t1)) as [| l rest] eqn:Hops.
  { pose proof (Authorization_empty t1 auth {| heap := h1; trace := trace s |} Hops) as HA.
    rewrite (bind_Panic _ _ _ _ _ HA). discriminate. }
  destruct (Authorization_frame t1 auth {| heap := h1; trace := trace s |} l rest Hops)
    as (h2 & HA & Hfr2 & Hl2).
  rewrite (bind_Return _ _ _ _ _ HA). unfold ret. intros [= _ _ <-].
  exists l, rest. split; [exact Hops |]. simpl in Hfr2, Hl2 |- *. split.
  - intros l' Hne. rewrite (Hfr2 l' Hne). apply Hfr1. simpl. congruence.
  - specialize (Hl1 l rest eq_refl).
    destruct (heap s !! l) as [[op | op | k] |] eqn:Hl.
    + rewrite Hl1 in Hl2. exact Hl2.
    + rewrite Hl1 in Hl2. subst h2. exact Hl1.
    + subst h1. rewrite Hl in Hl2. exact Hl2.
    + subst h1. rewrite Hl in Hl2. exact Hl2.
Qed.

Lemma Simulate_keeps_sequence_flag_witness :
  incrementSequenceNum (build (Transaction_BaseFee demoBuilder 200)) = true.
Proof.
  destruct (Simulate_keeps_sequence_flag authNet demoBuilder demoInvokeState)
    as (_ & Hreturn & Hbuilt).
  assert (Hrun : Simulate authNet demoBuilder demoInvokeState =
                 (Return (Ok (demoSim 100 0 ["a1"; "a2"]), Transaction_BaseFee demoBuilder 200),
                  snd (Simulate authNet demoBuilder demoInvokeState)))
    by (vm_compute; reflexivity).
  destruct (Hreturn _ _ _ Hrun) as [Hflag _]. rewrite Hflag.
  apply Hbuilt. repeat constructor.
Defined.

(** C3, amended. After a successful [Simulate] the base fee of the builder
    is [minResourceFee + MinBaseFee] in 64-bit arithmetic, which is the
    exact sum whenever that fits; the decoded entries of all per-operation
    results, in order, are the authorization of the leading operation when
    it is an invoke-host-function; when it is not, they are attached
    nowhere: every invoke-host-function of the heap is as it was. *)
Theorem Simulate_writes_back (E : Env) (t : Transaction) (s : State)
  (res : SimulateTransactionResult) (t' : Transaction) (s' : State)
  (Hrun : Simulate E t s = (Return (Ok res, t'), s')) :
  baseFee (build t') = wrap64 (Sim_MinResourceFee res + MinBaseFee)
  /\ (- 2 ^ 63 <= Sim_MinResourceFee res <= MaxInt64 - MinBaseFee ->
      baseFee (build t') = Sim_MinResourceFee res + MinBaseFee)
  /\ (exists auth,
        decodedAuth E res auth
        /\ attachedAuth (heap s') t' = if leadingIsInvoke (heap s) t then auth else [])
  /\ (leadingIsInvoke (heap s) t = false ->
      forall l' op', heap s' !! l' = Some (OpInvokeHostFunction op') ->
                     heap s !! l' = Some (OpInvokeHostFunction op')).
Proof.
  revert Hrun. rewrite Simulate_unfold. cbn zeta.
  destruct (txnbuild_NewTransaction E (trace s) _); [| discriminate].
  destruct (client t) as [cl |]; [| discriminate].
  destruct (Tx_Base64 E a) as [base64 |]; [| discriminate].
  destruct (rpc_simulateTransaction E _ cl base64) as [res0 |]; [| discriminate].
  destruct (decodeResults E (Sim_Results res0) []) as [auth |] eqn:Hdec; [| discriminate].
  destruct (SafeUnmarshalBase64_TransactionData E (Sim_TransactionData res0)) as [td |];
    [| discriminate].
  set (s2 := after (after s _) _). intros Hrun.
  destruct (writeBack_heap t res0 auth td s2 _ _ _ Hrun) as (l & rest & Hops & Hfr & Hl).
  destruct (writeBack_run t res0 auth td s2) as [(h' & Hwb) | (msg & h' & Hwb)];
    rewrite Hwb in Hrun; [| discriminate].
  injection Hrun as <- <- <-.
  split; [reflexivity |]. split.
  { intros Hfit. simpl. apply wrap64_small. unfold MaxInt64, MinBaseFee in *. lia. }
  destruct (decodeResults_spec E _ _ _ Hdec) as (new & -> & Hnew). simpl in Hnew.
  simpl in Hfr, Hl. unfold attachedAuth, leadingIsInvoke. simpl. rewrite Hops.
  split.
  - exists new. split; [exact Hnew |].
    destruct (heap s !! l) as [[op | op | k] |] eqn:Hsl.
    + rewrite Hl. reflexivity.
    + rewrite Hl. reflexivity.
    + subst h'. rewrite Hsl. reflexivity.
    + subst h'. rewrite Hsl. reflexivity.
  - intros Hlead l' op' Hl'.
    destruct (decide (l' = l)) as [-> | Hne].
    + destruct (heap s !! l) as [[op | op | k] |] eqn:Hsl.
      * discriminate Hlead.
      * rewrite Hl in Hl'. discriminate Hl'.
      * subst h'. rewrite <- Hsl. exact Hl'.
      * subst h'. rewrite <- Hsl. exact Hl'.
    + rewrite <- (Hfr l' Hne). exact Hl'.
Qed.

(** C3 as stated fails twice: on a builder whose leading operation is a
    restore-footprint the entries of the simulation are attached to no
    operation, and for a resource fee within 100 of the largest [int64] the
    base fee is not the sum. *)
Lemma Simulate_claim_counterexample :
  ~ simulate_claim (demoEnv (demoSim 100 0 ["a1"]) (demoLedger [100]) [])
      demoBuilder demoRestoreState
  /\ ~ simulate_claim (demoEnv (demoSim MaxInt64 0 []) (demoLedger [100]) [])
         demoBuilder demoInvokeState.
Proof.
  split; intros Hclaim.
  - set (E := demoEnv (demoSim 100 0 ["a1"]) (demoLedger [100]) []) in *.
    assert (Hrun : Simulate E demoBuilder demoRestoreState =
                   (Return (Ok (demoSim 100 0 ["a1"]), Transaction_BaseFee demoBuilder 200),
                    snd (Simulate E demoBuilder demoRestoreState)))
      by (vm_compute; reflexivity).
    destruct (Hclaim _ _ _ Hrun) as [_ Hauth].
    vm_compute in Hauth. inversion Hauth.
  - set (E := demoEnv (demoSim MaxInt64 0 []) (demoLedger [100]) []) in *.
    assert (Hrun : Simulate E demoBuilder demoInvokeState =
                   (Return (Ok (demoSim MaxInt64 0 []),
                            Transaction_BaseFee demoBuilder (-9223372036854775709)),
                    snd (Simulate E demoBuilder demoInvokeState)))
      by (vm_compute; reflexivity).
    destruct (Hclaim _ _ _ Hrun) as [Hfee _].
    vm_compute in Hfee. discriminate Hfee.
Qed.

Lemma Simulate_writes_back_witness :
  baseFee (build (Transaction_BaseFee demoBuilder 200)) = 100 + MinBaseFee
  /\ exists auth,
       decodedAuth authNet (demoSim 100 0 ["a1"; "a2"]) auth
       /\ attachedAuth (heap (snd (Simulate authNet demoBuilder demoInvokeState)))
            (Transaction_BaseFee demoBuilder 200)
          = if leadingIsInvoke (heap demoInvokeState) demoBuilder then auth else [].
Proof.
  assert (Hrun : Simulate authNet demoBuilder demoInvokeState =
                 (Return (Ok (demoSim 100 0 ["a1"; "a2"]), Transaction_BaseFee demoBuilder 200),
                  snd (Simulate authNet demoBuilder demoInvokeState)))
    by (vm_compute; reflexivity).
  destruct (Simulate_writes_back authNet demoBuilder demoInvokeState _ _ _ Hrun)
    as (_ & Hfee & Hauth & _).
  split; [| exact Hauth].
  apply Hfee. vm_compute. split; discriminate.
Defined.

(** ** The completion poller *)

Lemma backoff_seconds i : 0 <= i <= 4611686018 -> backoff i = i * 2 * Second.
Proof.
  intros H. unfold backoff, Second.
  rewrite (wrap64_small (i * 2)) by lia. apply wrap64_small. lia.
Qed.

Lemma pollEvents_attempts cl hash k :
  (k <= maxAttempts)%nat -> pollEvents cl hash k 0 = attempts cl hash k.
Proof.
  unfold maxAttempts. intros H.
  do 6 (destruct k as [| k]; [reflexivity |]). lia.
Qed.

Lemma after_after s evs1 evs2 : after (after s evs1) evs2 = after s (evs1 ++ evs2).
Proof. unfold after. simpl. rewrite app_assoc. reflexivity. Qed.

Lemma after_nil s : after s [] = s.
Proof. destruct s. unfold after. simpl. rewrite app_nil_r. reflexivity. Qed.

Lemma pollFrom_step E cl hash n i s :
  pollFrom E (Some cl) hash (S n) i s =
  match rpc_getTransaction E (trace s) cl hash with
  | Err e => (Return (Err e), after s [EvCall cl (ReqGetTransaction hash)])
  | Ok res =>
      if String.eqb (Status res) "NOT_FOUND"
      then pollFrom E (Some cl) hash n (i + 1)
             (after s [EvCall cl (ReqGetTransaction hash); EvSleep (backoff i)])
      else (Return (Ok (Some res)), after s [EvCall cl (ReqGetTransaction hash)])
  end.
Proof.
  simpl. unfold Client_GetTransaction. unfold_prims. simpl.
  destruct (rpc_getTransaction E (trace s) cl hash) as [res |]; [| reflexivity].
  destruct (String.eqb (Status res) "NOT_FOUND"); simpl; [| reflexivity].
  unfold after. simpl. rewrite <- app_assoc. reflexivity.
Qed.

(** Every attempt answered NOT_FOUND: the loop runs to its bound. *)
Lemma pollFrom_exhausted E cl hash n : forall i s,
  (forall j, (j < n)%nat ->
     notFound (rpc_getTransaction E (trace s ++ pollEvents cl hash j i) cl hash)) ->
  pollFrom E (Some cl) hash n i s = (Return (Ok None), after s (pollEvents cl hash n i)).
Proof.
  induction n as [| n IH]; intros i s Hnf.
  - simpl. rewrite after_nil. reflexivity.
  - rewrite pollFrom_step.
    destruct (Hnf 0%nat ltac:(lia)) as (res & Hres & Hst). simpl in Hres.
    rewrite app_nil_r in Hres. rewrite Hres, Hst. simpl.
    rewrite IH.
    + rewrite after_after. reflexivity.
    + intros j Hj. specialize (Hnf (S j) ltac:(lia)). simpl in Hnf |- *.
      rewrite <- app_assoc. exact Hnf.
Qed.

(** The first answer that is not NOT_FOUND is returned at once. *)
Lemma pollFrom_found E cl hash k : forall n i s res,
  (k < n)%nat ->
  (forall j, (j < k)%nat ->
     notFound (rpc_getTransaction E (trace s ++ pollEvents cl hash j i) cl hash)) ->
  rpc_getTransaction E (trace s ++ pollEvents cl hash k i) cl hash = Ok res ->
  Status res <> "NOT_FOUND" ->
  pollFrom E (Some cl) hash n i s =
    (Return (Ok (Some res)),
     after s (pollEvents cl hash k i ++ [EvCall cl (ReqGetTransaction hash)])).
Proof.
  induction k as [| k IH]; intros n i s res Hk Hnf Hres Hst;
    (destruct n as [| n]; [lia |]); rewrite pollFrom_step.
  - simpl in Hres. rewrite app_nil_r in Hres. rewrite Hres.
    apply String.eqb_neq in Hst. rewrite Hst. reflexivity.
  - destruct (Hnf 0%nat ltac:(lia)) as (res0 & Hres0 & Hst0). simpl in Hres0.
    rewrite app_nil_r in Hres0. rewrite Hres0, Hst0. simpl.
    rewrite (IH n (i + 1) _ res).
    + rewrite after_after. reflexivity.
    + lia.
    + intros j Hj. specialize (Hnf (S j) ltac:(lia)). simpl in Hnf |- *.
      rewrite <- app_assoc. exact Hnf.
    + simpl. rewrite <- app_assoc. exact Hres.
    + exact Hst.
Qed.

(** In every run the loop makes at most as many queries as its bound. *)
Lemma pollFrom_bound E c hash n : forall i s,
  exists new,
    trace (snd (pollFrom E c hash n i s)) = trace s ++ new
    /\ (length (List.filter isGetTransaction new) <= n)%nat
    /\ heap (snd (pollFrom E c hash n i s)) = heap s.
Proof.
  induction n as [| n IH]; intros i s.
  - exists []. simpl. rewrite app_nil_r. split; [reflexivity | split; [lia | reflexivity]].
  - destruct c as [cl |].
    2:{ exists []. simpl. rewrite app_nil_r. split; [reflexivity | split; [lia | reflexivity]]. }
    rewrite pollFrom_step.
    destruct (rpc_getTransaction E (trace s) cl hash) as [res |].
    2:{ exists [EvCall cl (ReqGetTransaction hash)]. simpl.
        split; [reflexivity | split; [lia | reflexivity]]. }
    destruct (String.eqb (Status res) "NOT_FOUND").
    2:{ exists [EvCall cl (ReqGetTransaction hash)]. simpl.
        split; [reflexivity | split; [lia | reflexivity]]. }
    destruct (IH (i + 1)
                (after s [EvCall cl (ReqGetTransaction hash); EvSleep (backoff i)]))
      as (new & Htr & Hlen & Hheap).
    exists ([EvCall cl (ReqGetTransaction hash); EvSleep (backoff i)] ++ new).
    split; [| split].
    + rewrite Htr. simpl. rewrite <- app_assoc. reflexivity.
    + simpl. lia.
    + rewrite Hheap. reflexivity.
Qed.

(** The poller of the tests, for any bound: all answers NOT_FOUND give no
    result and no error after [maxAttempts] queries; attempt [i] sleeps
    [i * 2] seconds as long as that fits the 64-bit duration. *)
Lemma WaitCompletedTransaction_exhausted E cl hash (bound : Z) s :
  (forall j, (j < Z.to_nat bound)%nat ->
     notFound (rpc_getTransaction E (trace s ++ pollEvents cl hash j 0) cl hash)) ->
  WaitCompletedTransaction E cl hash bound s
    = (Return (Ok None), after s (pollEvents cl hash (Z.to_nat bound) 0))
  /\ length (List.filter isGetTransaction (pollEvents cl hash (Z.to_nat bound) 0))
     = Z.to_nat bound.
Proof.
  intros Hnf. split; [apply pollFrom_exhausted; exact Hnf |].
  clear Hnf. generalize 0. induction (Z.to_nat bound) as [| n IH]; intros i; simpl;
    [reflexivity | rewrite IH; reflexivity].
Qed.

(** C7. The poller of the client, whose bound is 5 attempts: it makes at
    most [maxAttempts] queries; attempt [i] answered NOT_FOUND is followed
    by a sleep of [i * 2] seconds (none after attempt 0); the first answer
    with another status is returned at once, after [k + 1] queries when [k]
    attempts came before; and when all [maxAttempts] answers are NOT_FOUND
    it returns no result and no error after exactly [maxAttempts] queries. *)
Theorem waitCompletedTransaction_polls (E : Env) (cl : Client) (hash : string) (s : State) :
  (exists new,
     trace (snd (waitCompletedTransaction E (Some cl) hash s)) = trace s ++ new
     /\ (length (List.filter isGetTransaction new) <= maxAttempts)%nat)
  /\ (forall k res,
        (k < maxAttempts)%nat ->
        (forall j, (j < k)%nat ->
           notFound (rpc_getTransaction E (trace s ++ attempts cl hash j) cl hash)) ->
        rpc_getTransaction E (trace s ++ attempts cl hash k) cl hash = Ok res ->
        Status res <> "NOT_FOUND" ->
        waitCompletedTransaction E (Some cl) hash s =
          (Return (Ok (Some res)),
           after s (attempts cl hash k ++ [EvCall cl (ReqGetTransaction hash)])))
  /\ ((forall j, (j < maxAttempts)%nat ->
         notFound (rpc_getTransaction E (trace s ++ attempts cl hash j) cl hash)) ->
      waitCompletedTransaction E (Some cl) hash s =
        (Return (Ok None), after s (attempts cl hash maxAttempts))
      /\ length (List.filter isGetTransaction (attempts cl hash maxAttempts)) = maxAttempts)
  /\ attempts cl hash 1 = [EvCall cl (ReqGetTransaction hash); EvSleep 0].
Proof.
  unfold waitCompletedTransaction. split; [| split; [| split]].
  - destruct (pollFrom_bound E (Some cl) hash 5 0 s) as (new & Htr & Hlen & _).
    exists new. split; assumption.
  - intros k res Hk Hnf Hres Hst.
    assert (Hk' : (k <= maxAttempts)%nat) by lia.
    rewrite <- (pollEvents_attempts cl hash k Hk').
    apply pollFrom_found.
    + exact Hk.
    + intros j Hj. rewrite pollEvents_attempts by lia. apply Hnf. exact Hj.
    + rewrite pollEvents_attempts by lia. exact Hres.
    + exact Hst.
  - intros Hnf. split; [| reflexivity].
    rewrite <- (pollEvents_attempts cl hash maxAttempts) by lia.
    apply (pollFrom_exhausted E cl hash maxAttempts).
    intros j Hj. rewrite pollEvents_attempts by lia.
    apply Hnf. exact Hj.
  - reflexivity.
Qed.

(** The statuses NOT_FOUND, NOT_FOUND, SUCCESS: returned by the third
    query. All NOT_FOUND: nothing after five queries. *)
Lemma waitCompletedTransaction_polls_witness :
  fst (waitCompletedTransaction pollNet (Some demoClient) "hash" emptyState)
    = Return (Ok (Some (statusAt ["NOT_FOUND"; "NOT_FOUND"; "SUCCESS"] 2)))
  /\ waitCompletedTransaction liveNet (Some demoClient) "hash" emptyState
     = (Return (Ok None), after emptyState (attempts demoClient "hash" maxAttempts)).
Proof.
  split.
  - destruct (waitCompletedTransaction_polls pollNet demoClient "hash" emptyState)
      as (_ & Hfound & _).
    rewrite (Hfound 2%nat (statusAt ["NOT_FOUND"; "NOT_FOUND"; "SUCCESS"] 2)).
    + reflexivity.
    + unfold maxAttempts. lia.
    + intros j Hj. destruct j as [| [| j]]; [| | lia];
        eexists; (split; [reflexivity | reflexivity]).
    + reflexivity.
    + discriminate.
  - destruct (waitCompletedTransaction_polls liveNet demoClient "hash" emptyState)
      as (_ & _ & Hnone & _).
    apply Hnone. intros j Hj. unfold maxAttempts in Hj.
    do 5 (destruct j as [| j]; [eexists; (split; [reflexivity | reflexivity]) |]). lia.
Defined.

(** ** What a run may do to the outside *)

Lemma emits_ret {A} P (a : A) : emits P (ret a).
Proof. intros s. exists []. simpl. rewrite app_nil_r. split; [reflexivity | constructor]. Qed.

Lemma emits_panic {A} P msg : emits P (@panic A msg).
Proof. intros s. exists []. simpl. rewrite app_nil_r. split; [reflexivity | constructor]. Qed.

Lemma emits_bind {A B} P (m : M A) (k : A -> M B) :
  emits P m -> (forall a, emits P (k a)) -> emits P (bind m k).
Proof.
  intros Hm Hk s. unfold bind. destruct (Hm s) as (new1 & H1 & HP1).
  destruct (m s) as [[a | msg] s1]; simpl in H1.
  - destruct (Hk a s1) as (new2 & H2 & HP2). exists (new1 ++ new2). split.
    + rewrite H2, H1, app_assoc. reflexivity.
    + apply Forall_app. split; assumption.
  - exists new1. split; assumption.
Qed.

Lemma emits_emit P e : P e -> emits P (emit e).
Proof. intros He s. exists [e]. split; [reflexivity | repeat constructor; exact He]. Qed.

Lemma emits_history P : emits P history.
Proof. intros s. exists []. simpl. rewrite app_nil_r. split; [reflexivity | constructor]. Qed.

Lemma emits_theHeap P : emits P theHeap.
Proof. intros s. exists []. simpl. rewrite app_nil_r. split; [reflexivity | constructor]. Qed.

Lemma emits_alloc P op : emits P (alloc op).
Proof. intros s. exists []. simpl. rewrite app_nil_r. split; [reflexivity | constructor]. Qed.

Lemma emits_store P l op : emits P (store l op).
Proof. intros s. exists []. simpl. rewrite app_nil_r. split; [reflexivity | constructor]. Qed.

Lemma emits_deref {A} P (p : option A) : emits P (deref p).
Proof. destruct p; [apply emits_ret | apply emits_panic]. Qed.

(** Decompose a computation down to the primitives above. *)
Ltac emits_step :=
  match goal with
  | |- emits _ (ret _) => apply emits_ret
  | |- emits _ (panic _) => apply emits_panic
  | |- emits _ history => apply emits_history
  | |- emits _ theHeap => apply emits_theHeap
  | |- emits _ (alloc _) => apply emits_alloc
  | |- emits _ (store _ _) => apply emits_store
  | |- emits _ (deref _) => apply emits_deref
  | |- emits _ (emit _) => apply emits_emit; reflexivity
  | |- emits _ (bind _ _) => apply emits_bind; [| intros ?]
  | |- emits _ (match ?x with _ => _ end) => destruct x
  | |- emits _ _ => assumption
  end.

Ltac emits_auto := repeat emits_step.

Lemma GetAddress_emits P E c : emits P (GetAddress E c).
Proof. unfold GetAddress, getContractIdPreimage, source_GetAccountID. emits_auto. Qed.

Lemma GetFootprint_emits P E c : emits P (GetFootprint E c).
Proof.
  unfold GetFootprint. pose proof (GetAddress_emits P E) as HG.
  destruct (len_array32 (wasmHash c) =? 0); [apply emits_ret |].
  apply emits_bind; [apply HG |]. intros [r c']. emits_auto.
Qed.

Lemma IsCodeAlive_quiet E c : emits noSubmission (IsCodeAlive E c).
Proof. unfold IsCodeAlive, Client_GetLedgerEntries. emits_auto. Qed.

Lemma IsInstanceAlive_quiet E c : emits noSubmission (IsInstanceAlive E c).
Proof.
  unfold IsInstanceAlive, Client_GetLedgerEntries.
  apply emits_bind; [apply GetFootprint_emits |]. intros [r c']. emits_auto.
Qed.

Lemma IsAlive_quiet E c : emits noSubmission (IsAlive E c).
Proof.
  unfold IsAlive. apply emits_bind; [apply IsCodeAlive_quiet |]. intros r.
  destruct r as [[code res] | e]; [| apply emits_ret].
  apply emits_bind; [apply IsInstanceAlive_quiet |]. intros [r c']. emits_auto.
Qed.

Lemma SorobanData_emits P t data : emits P (SorobanData t data).
Proof. unfold SorobanData. emits_auto. Qed.

Lemma Authorization_emits P t auth : emits P (Authorization t auth).
Proof. unfold Authorization. emits_auto. Qed.

Lemma Simulate_quiet E t : emits noSubmission (Simulate E t).
Proof.
  unfold Simulate, buildTx, Client_SimulateTransaction.
  pose proof (SorobanData_emits noSubmission) as HS.
  pose proof (Authorization_emits noSubmission) as HA.
  apply emits_bind; [emits_auto |]. intros r.
  destruct r as [tx | e]; [| apply emits_ret].
  apply emits_bind; [emits_auto |]. intros cl.
  apply emits_bind; [emits_auto |]. intros r.
  destruct r as [res | e]; [| apply emits_ret].
  destruct (decodeResults E (Sim_Results res) []); [| apply emits_ret].
  destruct (SafeUnmarshalBase64_TransactionData E (Sim_TransactionData res));
    [| apply emits_ret].
  apply emits_bind; [apply HS |]. intros t1.
  apply emits_bind; [apply HA |]. intros t2. apply emits_ret.
Qed.

Lemma invokeTransaction_emits P E c a b : emits P (invokeTransaction E c a b).
Proof. unfold invokeTransaction, newBuilder, source_GetAccountID. emits_auto. Qed.

(** The new events of a run that ended in [s'], read off [emits]. *)
Lemma emits_run {A} P (m : M A) s o s' :
  emits P m -> m s = (o, s') -> exists new, trace s' = trace s ++ new /\ Forall P new.
Proof. intros Hm Hrun. specialize (Hm s). rewrite Hrun in Hm. exact Hm. Qed.

(** ** Invoke *)

(** C5. For a non-empty function name, when [IsAlive] passes and the
    simulation of the invoke transaction succeeds and reports
    [restorePreamble.minResourceFee != 0], [Send] of the invoke builder
    returns the error ContractDataNeedsRestore, and nothing was submitted:
    no interaction of the whole run is a call of sendTransaction. *)
Theorem Send_needs_restore (E : Env) (c : Contract) (b : invokeBuild) (s : State)
  (c1 : Contract) (s1 : State) (addr : ScAddress) (c2 : Contract)
  (res : SimulateTransactionResult) (t' : Transaction) (s3 : State)
  (Hfunction : function b <> "")
  (Halive : IsAlive E c s = (Return (Ok true, c1), s1))
  (Haddress : GetAddress E c1 s1 = (Return (Ok addr, c2), s1))
  (Hsimulate : bind (invokeTransaction E c2 addr b) (Simulate E) s1
               = (Return (Ok res, t'), s3))
  (Hstale : Preamble_MinResourceFee (RestorePreamble res) <> 0) :
  invokeBuilder_Send E c b s
    = (Return (Err (errors_New ErrorContractDataNeedsRestore), c2), s3)
  /\ exists new, trace s3 = trace s ++ new /\ Forall noSubmission new.
Proof.
  split.
  - unfold invokeBuilder_Send.
    apply String.eqb_neq in Hfunction. rewrite Hfunction.
    rewrite (bind_Return _ _ _ _ _ Halive). unfold invoke.
    rewrite (bind_Return _ _ _ _ _ Haddress).
    destruct (bind_inv _ _ _ _ _ Hsimulate) as (t0 & s2 & Ht0 & Hsim).
    rewrite (bind_Return _ _ _ _ _ Ht0). rewrite (bind_Return _ _ _ _ _ Hsim).
    apply Z.eqb_neq in Hstale. rewrite Hstale. reflexivity.
  - destruct (emits_run noSubmission _ _ _ _ (IsAlive_quiet E c) Halive)
      as (new1 & H1 & HP1).
    assert (Hq : emits noSubmission (bind (invokeTransaction E c2 addr b) (Simulate E))).
    { apply emits_bind; [apply invokeTransaction_emits |]. intros t0. apply Simulate_quiet. }
    destruct (emits_run noSubmission _ _ _ _ Hq Hsimulate) as (new2 & H2 & HP2).
    exists (new1 ++ new2). split.
    + rewrite H2, H1, app_assoc. reflexivity.
    + apply Forall_app. split; assumption.
Qed.

Lemma Send_needs_restore_witness :
  fst (invokeBuilder_Send staleNet (demoContract liveNet) demoInvoke emptyState)
    = Return (Err (errors_New ErrorContractDataNeedsRestore),
              Contract_Address (demoContract liveNet) (demoDerived liveNet))
  /\ List.filter isSubmission
       (trace (snd (invokeBuilder_Send staleNet (demoContract liveNet) demoInvoke emptyState)))
     = [].
Proof.
  set (c := demoContract liveNet).
  set (c2 := Contract_Address c (demoDerived liveNet)).
  assert (Halive : IsAlive staleNet c emptyState =
                   (Return (Ok true, c2), snd (IsAlive staleNet c emptyState)))
    by (vm_compute; reflexivity).
  set (s1 := snd (IsAlive staleNet c emptyState)) in *.
  assert (Haddress : GetAddress staleNet c2 s1 = (Return (Ok (demoDerived liveNet), c2), s1))
    by (vm_compute; reflexivity).
  assert (Hsimulate :
            bind (invokeTransaction staleNet c2 (demoDerived liveNet) demoInvoke)
              (Simulate staleNet) s1 =
            (Return (Ok (demoSim 100 5 []),
                     Transaction_BaseFee
                       (builderFor c2 0%nat (txnbuild_NewTimeout staleNet (trace s1) 30)) 200),
             snd (bind (invokeTransaction staleNet c2 (demoDerived liveNet) demoInvoke)
                    (Simulate staleNet) s1)))
    by (vm_compute; reflexivity).
  destruct (Send_needs_restore staleNet c demoInvoke emptyState c2 s1
              (demoDerived liveNet) c2 _ _ _ ltac:(discriminate) Halive Haddress Hsimulate
              ltac:(discriminate)) as [Hsend _].
  rewrite Hsend. split; [reflexivity |]. vm_compute. reflexivity.
Defined.

Lemma bind_prefix {A B} (m : M A) (k : A -> M B) s pre :
  (forall a, grows (k a)) ->
  (exists rest, trace (snd (m s)) = pre ++ rest) ->
  exists rest, trace (snd (bind m k s)) = pre ++ rest.
Proof.
  intros Hk (rest & Hm). unfold bind. destruct (m s) as [[a | msg] s1]; simpl in Hm.
  - destruct (Hk a s1) as (new & Hnew & _). exists (rest ++ new).
    rewrite Hnew, Hm, app_assoc. reflexivity.
  - exists rest. exact Hm.
Qed.

(** With a client the poller returns, and [invoke] and [RestoreAndSend]
    drop what it returns: they go on whether or not the poll was
    conclusive, and also when a query failed. *)
Lemma pollFrom_returns E cl hash n : forall i s,
  exists r s', pollFrom E (Some cl) hash n i s = (Return r, s').
Proof.
  induction n as [| n IH]; intros i s.
  - simpl. unfold ret. eauto.
  - rewrite pollFrom_step.
    destruct (rpc_getTransaction E (trace s) cl hash) as [res |]; [| eauto].
    destruct (String.eqb (Status res) "NOT_FOUND"); [apply IH | eauto].
Qed.

Lemma poll_result_dropped E cl hash s :
  exists s',
    bind (waitCompletedTransaction E (Some cl) hash) (fun _ => ret (@None error)) s
    = (Return None, s').
Proof.
  unfold waitCompletedTransaction.
  destruct (pollFrom_returns E cl hash 5 0 s) as (r & s' & H).
  exists s'. rewrite (bind_Return _ _ _ _ _ H). reflexivity.
Qed.

Lemma pollFrom_grows E c hash n i : grows (pollFrom E c hash n i).
Proof.
  intros s. destruct (pollFrom_bound E c hash n i s) as (new & Hnew & _).
  exists new. split; [exact Hnew |]. apply Forall_forall. intros; exact I.
Qed.

Lemma Send_grows E t : grows (Send E t).
Proof.
  unfold Send, buildTx, Client_SendTransaction, grows.
  apply emits_bind.
  - apply emits_bind; [apply emits_theHeap |]. intros h.
    apply emits_bind; [apply emits_history |]. intros tr.
    apply emits_bind; [apply emits_emit; exact I |]. intros _. apply emits_ret.
  - intros r. destruct r as [tx | e]; [| apply emits_ret].
    apply emits_bind; [apply emits_deref |]. intros cl.
    destruct (Tx_Sign E tx (PassPhrase cl) (signers (build t))) as [tx' | e];
      [| apply emits_ret].
    destruct (Tx_Base64 E tx') as [base64 | e]; [| apply emits_ret].
    apply emits_bind; [apply emits_history |]. intros tr.
    apply emits_bind; [apply emits_emit; exact I |]. intros _. apply emits_ret.
Qed.

(** C6, where the code departs from it. With [restore] set, the step under
    [restorePreamble.minResourceFee != 0] builds its restore-footprint
    transaction first, and the resource data of that transaction is the
    decoding of [res.TransactionData], the data of the invoke transaction:
    [res.RestorePreamble.TransactionData], which the claim has it carry, is
    never read. The fee is the one of the preamble. *)
Theorem restore_carries_invoke_data (E : Env) (c : Contract) (res : SimulateTransactionResult)
  (s : State) (src : Account) (td : SorobanTransactionData)
  (Hsrc : contract_source c = Some src)
  (Hdec : SafeUnmarshalBase64_TransactionData E (Sim_TransactionData res) = Ok td) :
  exists p,
    (exists rest,
       trace (snd (restorePreambleStep E c res true s)) = (trace s ++ [EvNewTransaction p]) ++ rest)
    /\ Params_Operations p = [Some (OpRestoreFootprint (restoreOp (GetAccountID src) td))]
    /\ Params_BaseFee p = wrap64 (Preamble_MinResourceFee (RestorePreamble res) + MinBaseFee).
Proof.
  set (op := {| Restore_SourceAccount := GetAccountID src;
                Restore_Ext := TransactionExt_zero |}).
  set (s1 := {| heap := heap s ++ [OpRestoreFootprint op]; trace := trace s |}).
  set (l := length (heap s)).
  set (t := builderFor c l (txnbuild_NewTimeout E (trace s) 30)).
  assert (Hl : heap s1 !! l = Some (OpRestoreFootprint op)).
  { apply list_lookup_middle. reflexivity. }
  destruct (SorobanData_frame t td s1) as (h' & HS & _ & Hlead & _).
  specialize (Hlead l [] eq_refl). rewrite Hl in Hlead.
  set (t2 := Transaction_BaseFee t
               (wrap64 (Preamble_MinResourceFee (RestorePreamble res) + MinBaseFee))).
  exists (buildParams t2 h'). split; [| split].
  - unfold restorePreambleStep. simpl. rewrite Hdec.
    unfold source_GetAccountID, deref. rewrite Hsrc.
    unfold bind at 1 2 3 4 5. simpl. fold l. fold op. fold s1. fold t.
    rewrite HS. fold t2.
    apply (bind_prefix (Send E t2) _ {| heap := h'; trace := trace s1 |}).
    + intros r. destruct r as [res' | e]; [| apply emits_ret].
      apply emits_bind; [apply pollFrom_grows |]. intros _. apply emits_ret.
    + destruct (Send_trace E t2 {| heap := h'; trace := trace s1 |}) as (rest & Hsend).
      exists rest. rewrite Hsend. simpl. rewrite <- app_assoc. reflexivity.
  - simpl. rewrite Hlead. reflexivity.
  - reflexivity.
Qed.

(** A stale footprint on the demo network: the preamble asks for a fee of 5
    and carries "restore-data!", the simulation itself "invoke-data". The
    restore transaction of [RestoreAndSend], the second one built, carries
    the decoding of "invoke-data". *)
Lemma restore_carries_invoke_data_witness :
  (exists p,
     (exists rest,
        trace (snd (restorePreambleStep staleNet
                      (Contract_Address (demoContract liveNet) (demoDerived liveNet))
                      (demoSim 100 5 []) true emptyState))
        = (trace emptyState ++ [EvNewTransaction p]) ++ rest)
     /\ Params_Operations p
        = [Some (OpRestoreFootprint (restoreOp "GABC" (demoData "invoke-data")))]
     /\ Params_BaseFee p = 105)
  /\ SafeUnmarshalBase64_TransactionData staleNet
       (Preamble_TransactionData (RestorePreamble (demoSim 100 5 [])))
     = Ok (demoData "restore-data!")
  /\ demoData "restore-data!" <> demoData "invoke-data"
  /\ nth 1 (builtOperations
              (trace (snd (invokeBuilder_RestoreAndSend staleNet (demoContract liveNet)
                             demoInvoke emptyState))))
       []
     = [Some (OpRestoreFootprint (restoreOp "GABC" (demoData "invoke-data")))].
Proof.
  split; [| split; [| split]].
  - apply (restore_carries_invoke_data staleNet
             (Contract_Address (demoContract liveNet) (demoDerived liveNet))
             (demoSim 100 5 []) emptyState demoAccount (demoData "invoke-data"));
      reflexivity.
  - reflexivity.
  - discriminate.
  - vm_compute. reflexivity.
Defined.

(** ** Install *)


Lemma Simulate_calls E t s tx cl base64 :
  txnbuild_NewTransaction E (trace s) (simParams t s) = Ok tx ->
  client t = Some cl ->
  Tx_Base64 E tx = Ok base64 ->
  exists rest,
    trace (snd (Simulate E t s))
    = (trace s ++ [EvNewTransaction (simParams t s);
                   EvCall cl (ReqSimulateTransaction base64)]) ++ rest.
Proof.
  intros Hbuild Hcl Hb64. rewrite Simulate_unfold. cbn zeta. rewrite Hbuild, Hcl, Hb64.
  set (s2 := after (after s _) _).
  assert (Hs2 : trace s2 = trace s ++ [EvNewTransaction (simParams t s);
                                       EvCall cl (ReqSimulateTransaction base64)]).
  { simpl. rewrite <- app_assoc. reflexivity. }
  exists []. rewrite app_nil_r.
  destruct (rpc_simulateTransaction E _ cl base64) as [res |]; [| exact Hs2].
  destruct (decodeResults E (Sim_Results res) []) as [auth |]; [| exact Hs2].
  destruct (SafeUnmarshalBase64_TransactionData E (Sim_TransactionData res)) as [td |];
    [| exact Hs2].
  destruct (writeBack_run t res auth td s2) as [(h' & ->) | (msg & h' & ->)]; exact Hs2.
Qed.

(** C8, where the code departs from it. [Install] tests the client, the
    source account and the key pair, and not the code bytes: on a contract
    with these three and no code it builds the upload transaction with an
    empty code and calls simulateTransaction on the network, where the claim
    has it return the required-field error of the code before any network
    call. *)
Theorem Install_without_wasm (E : Env) (c : Contract) (cl : Client) (src : Account)
  (k : KeyPair) (s : State) (tx : Tx) (base64 : string)
  (Hcl : contract_client c = Some cl)
  (Hsrc : contract_source c = Some src)
  (Hkp : kp c = Some k)
  (Hwasm : wasm c = [])
  (Hbuild : txnbuild_NewTransaction E (trace s) (installParams E c (GetAccountID src) s) = Ok tx)
  (Hb64 : Tx_Base64 E tx = Ok base64) :
  (exists rest,
     trace (snd (Install E c s))
     = (trace s ++ [EvNewTransaction (installParams E c (GetAccountID src) s);
                    EvCall cl (ReqSimulateTransaction base64)]) ++ rest)
  /\ Params_Operations (installParams E c (GetAccountID src) s)
     = [Some (OpInvokeHostFunction (installOp c (GetAccountID src)))]
  /\ HostFunction_Wasm (Invoke_HostFunction (installOp c (GetAccountID src))) = Some [].
Proof.
  split; [| split].
  - unfold Install. rewrite Hcl, Hsrc, Hkp.
    unfold source_GetAccountID, deref. rewrite Hsrc.
    unfold simulateSubmitHostFunction, newBuilder.
    unfold bind at 1 2 3 4 5. simpl.
    set (t := builderFor c (length (heap s)) (txnbuild_NewTimeout E (trace s) 30)).
    set (s1 := {| heap := heap s ++ _; trace := trace s |}).
    apply (bind_prefix (Simulate E t) _ s1).
    + intros [r t']. destruct r as [res | e]; [apply Send_grows | apply emits_ret].
    + apply (Simulate_calls E t s1 tx cl base64).
      * exact Hbuild.
      * unfold t. simpl. exact Hcl.
      * exact Hb64.
  - unfold installParams, simParams, buildParams. simpl.
    rewrite list_lookup_middle by reflexivity. reflexivity.
  - simpl. rewrite Hwasm. reflexivity.
Qed.

Lemma Install_without_wasm_witness :
  (exists rest,
     trace (snd (Install liveNet demoBare emptyState))
     = (trace emptyState ++ [EvNewTransaction (installParams liveNet demoBare "GABC" emptyState);
                             EvCall demoClient (ReqSimulateTransaction "tx")]) ++ rest)
  /\ List.filter isCall (trace (snd (Install liveNet demoBare emptyState)))
     = [EvCall demoClient (ReqSimulateTransaction "tx");
        EvCall demoClient (ReqSendTransaction "tx")].
Proof.
  split.
  - apply (Install_without_wasm liveNet demoBare demoClient demoAccount (FullKeyPair "SEED")
             emptyState (Envelope "tx") "tx"); reflexivity.
  - vm_compute. reflexivity.
Defined.

(** * Further properties *)

(** ** The account *)

(** [IncrementSequenceNumber] refuses at [MaxInt64] and leaves the account
    as it is; below, it adds one, without wrap-around; the account id is
    never touched. Repeated, it counts up and then sticks at [MaxInt64]
    with an error. *)
Theorem IncrementSequenceNumber_saturates (a : Account) (n : nat)
  (Hrange : - 2 ^ 63 <= Sequence a <= MaxInt64) :
  (Sequence a = MaxInt64 -> exists e, IncrementSequenceNumber a = (Err e, a))
  /\ (Sequence a < MaxInt64 ->
      IncrementSequenceNumber a
      = (Ok (Sequence a + 1), {| AccountId_ := AccountId_ a; Sequence := Sequence a + 1 |}))
  /\ (Sequence a + Z.of_nat n <= MaxInt64 ->
      incrementTimes n a
      = (Ok (Sequence a + Z.of_nat n),
         {| AccountId_ := AccountId_ a; Sequence := Sequence a + Z.of_nat n |}))
  /\ (Sequence a + Z.of_nat n > MaxInt64 ->
      exists e, incrementTimes n a
                = (Err e, {| AccountId_ := AccountId_ a; Sequence := MaxInt64 |})).
Proof.
  assert (Hstep : forall b, - 2 ^ 63 <= Sequence b <= MaxInt64 -> Sequence b < MaxInt64 ->
            IncrementSequenceNumber b
            = (Ok (Sequence b + 1), {| AccountId_ := AccountId_ b; Sequence := Sequence b + 1 |})).
  { intros b Hb Hlt. unfold IncrementSequenceNumber.
    destruct (Z.eqb_spec (Sequence b) MaxInt64) as [Heq | _]; [lia |].
    simpl. rewrite wrap64_small by (unfold MaxInt64 in *; lia). reflexivity. }
  assert (Hstop : forall b, Sequence b = MaxInt64 -> exists e, IncrementSequenceNumber b = (Err e, b)).
  { intros b Hb. unfold IncrementSequenceNumber. rewrite Hb, Z.eqb_refl. eauto. }
  split; [apply Hstop |]. split; [apply Hstep; exact Hrange |].
  revert a Hrange. induction n as [| n IH]; intros a Hrange.
  - split.
    + intros _. simpl. rewrite Z.add_0_r. destruct a; reflexivity.
    + simpl. lia.
  - destruct (Z.eq_dec (Sequence a) MaxInt64) as [Hmax | Hlt].
    + split; [lia |]. intros _. destruct (Hstop a Hmax) as (e & He).
      exists e. simpl. rewrite He. destruct a; simpl in *; subst; reflexivity.
    + simpl incrementTimes. rewrite (Hstep a Hrange) by lia.
      destruct (IH {| AccountId_ := AccountId_ a; Sequence := Sequence a + 1 |}) as [IH1 IH2];
        [simpl; lia |].
      simpl in IH1, IH2. split.
      * intros Hfit. rewrite IH1 by lia.
        replace (Sequence a + 1 + Z.of_nat n) with (Sequence a + Z.of_nat (S n)) by lia.
        reflexivity.
      * intros Hover. apply IH2. lia.
Qed.

Lemma IncrementSequenceNumber_saturates_witness :
  incrementTimes 3 {| AccountId_ := "GABC"; Sequence := MaxInt64 - 5 |}
    = (Ok (MaxInt64 - 2), {| AccountId_ := "GABC"; Sequence := MaxInt64 - 2 |})
  /\ exists e, incrementTimes 9 {| AccountId_ := "GABC"; Sequence := MaxInt64 - 5 |}
               = (Err e, {| AccountId_ := "GABC"; Sequence := MaxInt64 |}).
Proof.
  destruct (IncrementSequenceNumber_saturates
              {| AccountId_ := "GABC"; Sequence := MaxInt64 - 5 |} 3)
    as (_ & _ & Hfit & _); [vm_compute; split; discriminate |].
  destruct (IncrementSequenceNumber_saturates
              {| AccountId_ := "GABC"; Sequence := MaxInt64 - 5 |} 9)
    as (_ & _ & _ & Hover); [vm_compute; split; discriminate |].
  split.
  - rewrite Hfit by (vm_compute; discriminate). reflexivity.
  - apply Hover. reflexivity.
Defined.

Lemma SignerSummary_snoc signers s :
  SignerSummary (signers ++ [s]) = <[Key s := Weight s]> (SignerSummary signers).
Proof. unfold SignerSummary. rewrite foldl_app. reflexivity. Qed.

(** [SignerSummary] maps a key to the weight of the last signer that has
    it, and has no entry for a key of no signer. *)
Theorem SignerSummary_lookup (signers : list Signer) (k : string) :
  SignerSummary signers !! k = Weight <$> last (filter (fun s => Key s = k) signers)
  /\ (SignerSummary signers !! k = None <-> forall s, s ∈ signers -> Key s <> k).
Proof.
  assert (Hlook : forall l, SignerSummary l !! k
                            = Weight <$> last (filter (fun s => Key s = k) l)).
  { induction l as [| s l IH] using rev_ind; [reflexivity |].
    rewrite SignerSummary_snoc, filter_app.
    destruct (decide (Key s = k)) as [Hk | Hk].
    - rewrite Hk, lookup_insert_eq.
      rewrite filter_cons_True by exact Hk. rewrite filter_nil.
      rewrite last_snoc. reflexivity.
    - rewrite lookup_insert_ne by exact Hk.
      rewrite filter_cons_False by exact Hk. rewrite filter_nil, app_nil_r. exact IH. }
  split; [apply Hlook |].
  rewrite Hlook, fmap_None, last_None. split.
  - intros Hnil s Hs Hk.
    assert (Hin : s ∈ filter (fun s => Key s = k) signers)
      by (apply list_elem_of_filter; split; assumption).
    rewrite Hnil in Hin. inversion Hin.
  - intros Hall. destruct (filter (fun s => Key s = k) signers) as [| s l] eqn:Hf;
      [reflexivity |].
    assert (Hin : s ∈ filter (fun s => Key s = k) signers) by (rewrite Hf; left).
    apply list_elem_of_filter in Hin. destruct Hin as [Hk Hs].
    destruct (Hall s Hs Hk).
Qed.



(** ** More on the poller *)

(** A query that fails ends the loop. *)
Lemma pollFrom_error E cl hash k : forall n i s e,
  (k < n)%nat ->
  (forall j, (j < k)%nat ->
     notFound (rpc_getTransaction E (trace s ++ pollEvents cl hash j i) cl hash)) ->
  rpc_getTransaction E (trace s ++ pollEvents cl hash k i) cl hash = Err e ->
  pollFrom E (Some cl) hash n i s =
    (Return (Err e),
     after s (pollEvents cl hash k i ++ [EvCall cl (ReqGetTransaction hash)])).
Proof.
  induction k as [| k IH]; intros n i s e Hk Hnf Herr;
    (destruct n as [| n]; [lia |]); rewrite pollFrom_step.
  - simpl in Herr. rewrite app_nil_r in Herr. rewrite Herr. reflexivity.
  - destruct (Hnf 0%nat ltac:(lia)) as (res0 & Hres0 & Hst0). simpl in Hres0.
    rewrite app_nil_r in Hres0. rewrite Hres0, Hst0. simpl.
    rewrite (IH n (i + 1) _ e).
    + rewrite after_after. reflexivity.
    + lia.
    + intros j Hj. specialize (Hnf (S j) ltac:(lia)). simpl in Hnf |- *.
      rewrite <- app_assoc. exact Hnf.
    + simpl. rewrite <- app_assoc. exact Herr.
Qed.

(** The poller of the client retries on NOT_FOUND only: the error of a
    failed query is returned at once, after the attempts answered NOT_FOUND
    before it and with no further query. *)
Theorem waitCompletedTransaction_error (E : Env) (cl : Client) (hash : string) (s : State)
  (k : nat) (e : error)
  (Hk : (k < maxAttempts)%nat)
  (Hbefore : forall j, (j < k)%nat ->
     notFound (rpc_getTransaction E (trace s ++ attempts cl hash j) cl hash))
  (Hfails : rpc_getTransaction E (trace s ++ attempts cl hash k) cl hash = Err e) :
  waitCompletedTransaction E (Some cl) hash s =
    (Return (Err e), after s (attempts cl hash k ++ [EvCall cl (ReqGetTransaction hash)])).
Proof.
  unfold waitCompletedTransaction.
  assert (Hk' : (k <= maxAttempts)%nat) by lia.
  rewrite <- (pollEvents_attempts cl hash k Hk').
  apply pollFrom_error.
  - exact Hk.
  - intros j Hj. rewrite pollEvents_attempts by lia. apply Hbefore. exact Hj.
  - rewrite pollEvents_attempts by lia. exact Hfails.
Qed.

Lemma waitCompletedTransaction_error_witness :
  waitCompletedTransaction failingNet (Some demoClient) "hash" emptyState =
    (Return (Err (errors_New "bad status 503")),
     after emptyState (attempts demoClient "hash" 1
                       ++ [EvCall demoClient (ReqGetTransaction "hash")])).
Proof.
  apply (waitCompletedTransaction_error failingNet demoClient "hash" emptyState 1).
  - unfold maxAttempts. lia.
  - intros j Hj. destruct j as [| j]; [| lia].
    eexists. split; reflexivity.
  - reflexivity.
Defined.

(** The poller of the tests, for any bound: never more queries than the
    bound; none at all, and no result, for a bound of zero or less; and when
    every query is answered NOT_FOUND, no result and no error after exactly
    [maxAttempts] queries. *)
Theorem WaitCompletedTransaction_bounded (E : Env) (cl : Client) (hash : string)
  (bound : Z) (s : State) :
  (exists new,
     trace (snd (WaitCompletedTransaction E cl hash bound s)) = trace s ++ new
     /\ (length (List.filter isGetTransaction new) <= Z.to_nat bound)%nat)
  /\ (bound <= 0 -> WaitCompletedTransaction E cl hash bound s = (Return (Ok None), s))
  /\ ((forall j, (j < Z.to_nat bound)%nat ->
         notFound (rpc_getTransaction E (trace s ++ pollEvents cl hash j 0) cl hash)) ->
      WaitCompletedTransaction E cl hash bound s
        = (Return (Ok None), after s (pollEvents cl hash (Z.to_nat bound) 0))
      /\ length (List.filter isGetTransaction (pollEvents cl hash (Z.to_nat bound) 0))
         = Z.to_nat bound).
Proof.
  split; [| split].
  - destruct (pollFrom_bound E (Some cl) hash (Z.to_nat bound) 0 s) as (new & Htr & Hlen & _).
    exists new. split; assumption.
  - intros Hle. unfold WaitCompletedTransaction.
    replace (Z.to_nat bound) with 0%nat by lia. reflexivity.
  - apply WaitCompletedTransaction_exhausted.
Qed.

(** The sleep after attempt [i] is [i * 2] seconds as long as that fits
    the 64-bit duration in nanoseconds. *)
Theorem backoff_exact (i : Z) (Hi : 0 <= i <= 4611686018) :
  backoff i = i * 2 * Second /\ 0 <= backoff i < 2 ^ 63.
Proof.
  rewrite (backoff_seconds i Hi). unfold Second. split; [reflexivity | lia].
Qed.

Lemma backoff_exact_witness :
  backoff 4 = 8 * Second /\ backoff 4611686019 < 0.
Proof.
  split.
  - destruct (backoff_exact 4) as [H _]; [lia |]. exact H.
  - vm_compute. reflexivity.
Defined.

(** ** More on liveness *)

Lemma IsCodeAlive_entry_witness :
  exists alive,
    fst (IsCodeAlive liveNet (demoContract liveNet) emptyState)
      = Return (Ok (alive, demoLedger [100]))
    /\ (alive = true <-> 100 >= 100).
Proof.
  apply (IsCodeAlive_entry liveNet (demoContract liveNet) demoClient "code"
           (demoLedger [100])
           {| Entrie_Key := ""; Entrie_Xdr := ""; LastModifiedLedgerSeq := 1;
              LiveUntilLedgerSeq := 100 |} []); reflexivity.
Defined.

(** [IsInstanceAlive], once the query is answered: [false] without an error
    when there is no entry, and otherwise alive exactly when
    [liveUntilLedgerSeq >= latestLedger] on the first entry. The key asked
    for is the one [GetFootprint] returns. *)
Theorem IsInstanceAlive_answer (E : Env) (c : Contract) (cl : Client) (s : State)
  (key : LedgerKey) (c' : Contract) (base64 : string) (res : GetLedgerEntriesResult)
  (Hcl : contract_client c = Some cl)
  (Hkey : GetFootprint E c s = (Return (Ok key, c'), s))
  (Hb64 : LedgerKey_MarshalBinaryBase64 E key = Ok base64)
  (Hres : rpc_getLedgerEntries E (trace s) cl [base64] = Ok res) :
  exists alive,
    IsInstanceAlive E c s
    = (Return (Ok (alive, res), c'), after s [EvCall cl (ReqGetLedgerEntries [base64])])
    /\ (Entries res = [] -> alive = false)
    /\ (forall e0 rest, Entries res = e0 :: rest ->
          (alive = true <-> LiveUntilLedgerSeq e0 >= LatestLedger res)).
Proof.
  destruct (IsInstanceAlive_run E c cl s Hcl) as (key0 & c0 & HF & Hrun).
  rewrite Hkey in HF. injection HF as <- <-.
  rewrite (Hrun base64 res Hb64 Hres).
  eexists. split; [reflexivity |]. split.
  - intros ->. reflexivity.
  - intros e0 rest ->. unfold entryAlive. rewrite Z.geb_le. lia.
Qed.

Lemma IsInstanceAlive_answer_witness :
  exists alive,
    IsInstanceAlive expiredNet (Contract_Address (demoContract liveNet) demoAddress) emptyState
    = (Return (Ok (alive, demoLedger [99]),
               Contract_Address (demoContract liveNet) demoAddress),
       after emptyState [EvCall demoClient (ReqGetLedgerEntries ["data"])])
    /\ (alive = true <-> 99 >= 100).
Proof.
  destruct (IsInstanceAlive_answer expiredNet
              (Contract_Address (demoContract liveNet) demoAddress) demoClient emptyState
              {| LedgerKey_Type := LedgerEntryTypeContractData;
                 LedgerKey_Account := None;
                 LedgerKey_ContractData := Some
                   {| ContractData_Contract := demoAddress;
                      ContractData_Key := ScvLedgerKeyContractInstance;
                      ContractData_Durability := ContractDataDurabilityPersistent |};
                 LedgerKey_ContractCode := None |}
              (Contract_Address (demoContract liveNet) demoAddress)
              "data" (demoLedger [99]) eq_refl eq_refl eq_refl eq_refl)
    as (alive & Hrun & _ & Hentry).
  exists alive. split; [exact Hrun |].
  apply (Hentry {| Entrie_Key := ""; Entrie_Xdr := ""; LastModifiedLedgerSeq := 1;
                   LiveUntilLedgerSeq := 99 |} []).
  reflexivity.
Defined.

(** [GetFootprint] never returns an error. When the address cannot be
    derived it drops the error of [GetAddress] and returns the zero ledger
    key; [IsInstanceAlive] then queries the network for that key instead of
    reporting the missing field. *)
Theorem GetFootprint_drops_error (E : Env) (c : Contract) (cl : Client) (s : State)
  (e : error) (c' : Contract) (base64 : string)
  (Hcl : contract_client c = Some cl)
  (Hfails : GetAddress E c s = (Return (Err e, c'), s))
  (Hb64 : LedgerKey_MarshalBinaryBase64 E LedgerKey_zero = Ok base64) :
  GetFootprint E c s = (Return (Ok LedgerKey_zero, c'), s)
  /\ exists o, IsInstanceAlive E c s
               = (o, after s [EvCall cl (ReqGetLedgerEntries [base64])]).
Proof.
  assert (HF : GetFootprint E c s = (Return (Ok LedgerKey_zero, c'), s)).
  { unfold GetFootprint. simpl. rewrite (bind_Return _ _ _ _ _ Hfails). reflexivity. }
  split; [exact HF |].
  destruct (GetFootprint_run E c s) as (key & c0 & HF0 & Hc0 & _).
  rewrite HF in HF0. injection HF0 as <- <-.
  unfold IsInstanceAlive. rewrite (bind_Return _ _ _ _ _ HF). rewrite Hb64, Hc0, Hcl.
  unfold Client_GetLedgerEntries. unfold_prims. simpl.
  destruct (rpc_getLedgerEntries E (trace s) cl [base64]) as [res |]; [| eauto].
  destruct (Entries res); eauto.
Qed.

Lemma GetFootprint_drops_error_witness :
  GetFootprint liveNet (Contract_Client NewContract (Some demoClient)) emptyState
    = (Return (Ok LedgerKey_zero, Contract_Client NewContract (Some demoClient)), emptyState)
  /\ exists o, IsInstanceAlive liveNet (Contract_Client NewContract (Some demoClient)) emptyState
               = (o, after emptyState [EvCall demoClient (ReqGetLedgerEntries ["account"])]).
Proof.
  apply (GetFootprint_drops_error liveNet (Contract_Client NewContract (Some demoClient))
           demoClient emptyState (errors_New ErrorRequiredSource)); reflexivity.
Defined.

(** The interactions of one liveness check: nothing, or one query of ledger
    entries; the heap is left alone. *)
Lemma IsCodeAlive_shape E c s :
  exists new,
    snd (IsCodeAlive E c s) = after s new
    /\ (new = [] \/ exists cl keys, new = [EvCall cl (ReqGetLedgerEntries keys)]).
Proof.
  unfold IsCodeAlive, Client_GetLedgerEntries.
  destruct (contract_client c) as [cl |];
    [| exists []; rewrite after_nil; split; [reflexivity | auto]].
  rewrite GetCodeKey_ok.
  destruct (LedgerKey_MarshalBinaryBase64 E (codeKey c)) as [b64 |];
    [| exists []; rewrite after_nil; split; [reflexivity | auto]].
  exists [EvCall cl (ReqGetLedgerEntries [b64])]. split; [| right; eauto].
  unfold_prims. simpl.
  destruct (rpc_getLedgerEntries E (trace s) cl [b64]) as [res |]; [| reflexivity].
  destruct (Entries res); reflexivity.
Qed.

Lemma IsInstanceAlive_shape E c s :
  exists new,
    snd (IsInstanceAlive E c s) = after s new
    /\ (new = [] \/ exists cl keys, new = [EvCall cl (ReqGetLedgerEntries keys)]).
Proof.
  destruct (GetFootprint_run E c s) as (key & c' & HF & _).
  unfold IsInstanceAlive. rewrite (bind_Return _ _ _ _ _ HF).
  unfold Client_GetLedgerEntries.
  destruct (LedgerKey_MarshalBinaryBase64 E key) as [b64 |];
    [| exists []; rewrite after_nil; split; [reflexivity | auto]].
  destruct (contract_client c') as [cl |];
    [| exists []; rewrite after_nil; split; [reflexivity | auto]].
  exists [EvCall cl (ReqGetLedgerEntries [b64])]. split; [| right; eauto].
  unfold_prims. simpl.
  destruct (rpc_getLedgerEntries E (trace s) cl [b64]) as [res |]; [| reflexivity].
  destruct (Entries res); reflexivity.
Qed.

Lemma IsAlive_reads E c s :
  exists new,
    snd (IsAlive E c s) = after s new
    /\ Forall isLedgerQuery new
    /\ (length new <= 2)%nat.
Proof.
  unfold IsAlive, bind.
  destruct (IsCodeAlive_shape E c s) as (new1 & H1 & Hnew1).
  assert (HQ1 : Forall isLedgerQuery new1 /\ (length new1 <= 1)%nat).
  { destruct Hnew1 as [-> | (cl & keys & ->)]; split; simpl; try lia;
      repeat constructor. }
  destruct (IsCodeAlive E c s) as [[r | msg] s1]; simpl in H1; subst s1.
  2:{ exists new1. split; [reflexivity |]. split; [apply HQ1 | lia]. }
  destruct r as [[code res] | e].
  2:{ exists new1. split; [reflexivity |]. split; [apply HQ1 | lia]. }
  destruct (IsInstanceAlive_shape E c (after s new1)) as (new2 & H2 & Hnew2).
  assert (HQ2 : Forall isLedgerQuery new2 /\ (length new2 <= 1)%nat).
  { destruct Hnew2 as [-> | (cl & keys & ->)]; split; simpl; try lia;
      repeat constructor. }
  exists (new1 ++ new2). rewrite <- after_after.
  split; [| split; [apply Forall_app; split; [apply HQ1 | apply HQ2] |
                    rewrite length_app; lia]].
  destruct (IsInstanceAlive E c (after s new1)) as [[[r c'] | msg] s2];
    simpl in H2; subst s2; [| reflexivity].
  destruct r as [[instance res2] | e]; reflexivity.
Qed.

(** ** More on the transaction builder *)

(** [SorobanData] never fails, returns the builder as it was and leaves the
    trace alone. In the heap it changes at most the object the leading
    pointer refers to: it sets the extension of an invoke-host-function or
    of a restore-footprint to version 1 with the data, and changes nothing
    for another kind of operation, for a pointer to no object and for an
    empty list. *)
Theorem SorobanData_touches_leading (t : Transaction) (data : SorobanTransactionData)
  (s : State) :
  exists h',
    SorobanData t data s = (Return t, {| heap := h'; trace := trace s |})
    /\ (forall l', head (operations (build t)) <> Some l' -> h' !! l' = heap s !! l')
    /\ (forall l rest, operations (build t) = l :: rest ->
          match heap s !! l with
          | Some (OpInvokeHostFunction op) =>
              h' !! l = Some (OpInvokeHostFunction
                                (set_Invoke_Ext op {| Ext_V := 1; Ext_SorobanData := Some data |}))
          | Some (OpRestoreFootprint op) =>
              h' !! l = Some (OpRestoreFootprint
                                (set_Restore_Ext op {| Ext_V := 1; Ext_SorobanData := Some data |}))
          | _ => h' = heap s
          end)
    /\ (operations (build t) = [] -> h' = heap s).
Proof. apply SorobanData_frame. Qed.

(** With a leading operation, [Authorization] returns the builder as it
    was and leaves the trace alone; it replaces the entries of a leading
    invoke-host-function, keeping its other fields, and changes nothing in
    the heap when the leading operation is of another kind. *)
Theorem Authorization_sets_entries (t : Transaction)
  (auth : list SorobanAuthorizationEntry) (s : State) (l : nat) (rest : list nat)
  (Hops : operations (build t) = l :: rest) :
  exists h',
    Authorization t auth s = (Return t, {| heap := h'; trace := trace s |})
    /\ (forall l', l' <> l -> h' !! l' = heap s !! l')
    /\ match heap s !! l with
       | Some (OpInvokeHostFunction op) =>
           h' !! l = Some (OpInvokeHostFunction (set_Auth op auth))
       | _ => h' = heap s
       end.
Proof. apply (Authorization_frame t auth s l rest Hops). Qed.

Lemma Authorization_sets_entries_witness :
  exists h',
    Authorization demoBuilder [AuthorizationEntry "a1"] demoRestoreState
      = (Return demoBuilder, {| heap := h'; trace := trace demoRestoreState |})
    /\ h' = heap demoRestoreState.
Proof.
  destruct (Authorization_sets_entries demoBuilder [AuthorizationEntry "a1"]
              demoRestoreState 0%nat [] eq_refl) as (h' & Hrun & _ & Hlead).
  exists h'. split; [exact Hrun | exact Hlead].
Defined.

(** An operation that is in the list more than once is one object: after
    [SorobanData] every occurrence of the leading pointer shows the data in
    the parameters of the transaction, and the other operations are as
    they were. *)
Theorem SorobanData_shared (t : Transaction) (data : SorobanTransactionData) (s : State)
  (l : nat) (rest : list nat) (op : InvokeHostFunction)
  (Hops : operations (build t) = l :: rest)
  (Hl : heap s !! l = Some (OpInvokeHostFunction op)) :
  exists s',
    SorobanData t data s = (Return t, s')
    /\ Params_Operations (buildParams t (heap s'))
       = map (fun l' =>
                if decide (l' = l)
                then Some (OpInvokeHostFunction
                             (set_Invoke_Ext op {| Ext_V := 1; Ext_SorobanData := Some data |}))
                else heap s !! l')
           (l :: rest).
Proof.
  destruct (SorobanData_frame t data s) as (h' & HS & Hfr & Hlead & _).
  specialize (Hlead l rest Hops). rewrite Hl in Hlead.
  eexists. split; [exact HS |].
  assert (Hall : forall l', h' !! l'
            = if decide (l' = l)
              then Some (OpInvokeHostFunction
                           (set_Invoke_Ext op {| Ext_V := 1; Ext_SorobanData := Some data |}))
              else heap s !! l').
  { intros l'. destruct (decide (l' = l)) as [-> | Hne]; [exact Hlead |].
    apply Hfr. rewrite Hops. simpl. congruence. }
  unfold buildParams. cbn [Params_Operations heap]. rewrite Hops.
  apply map_ext. exact Hall.
Qed.

Lemma SorobanData_shared_witness :
  exists s',
    SorobanData demoTwice (demoData "data") demoInvokeState = (Return demoTwice, s')
    /\ exists op, Params_Operations (buildParams demoTwice (heap s')) = [Some op; Some op].
Proof.
  destruct (SorobanData_shared demoTwice (demoData "data") demoInvokeState 0%nat [0%nat]
              (invokeOp demoAddress {| function := "hello"; prams := [] |} "GABC")
              eq_refl eq_refl) as (s' & Hrun & Hparams).
  exists s'. split; [exact Hrun |]. eexists. rewrite Hparams. reflexivity.
Defined.

(** The memo of the builder never reaches the transaction: [buildTx] does
    not pass it on, so a builder with a memo builds, and sends, exactly what
    the builder without it does. *)
Theorem Memo_is_dropped (E : Env) (t : Transaction) (m : option Memo) (s : State) :
  buildParams (Transaction_Memo t m) (heap s) = buildParams t (heap s)
  /\ buildTx E (Transaction_Memo t m) s = buildTx E t s
  /\ Send E (Transaction_Memo t m) s = Send E t s.
Proof.
  assert (Hp : forall h, buildParams (Transaction_Memo t m) h = buildParams t h)
    by reflexivity.
  split; [apply Hp |]. split.
  - unfold buildTx. unfold_prims. simpl. rewrite Hp. reflexivity.
  - unfold Send, buildTx. unfold_prims. simpl. rewrite Hp. reflexivity.
Qed.

(** [Simulate] writes back at the end only: when it returns an error, the
    builder and every operation are as they were before the call. *)
Theorem Simulate_error_changes_nothing (E : Env) (t : Transaction) (s : State)
  (e : error) (t' : Transaction) (s' : State)
  (Hrun : Simulate E t s = (Return (Err e, t'), s')) :
  t' = t /\ heap s' = heap s.
Proof.
  revert Hrun. rewrite Simulate_unfold. cbn zeta.
  destruct (txnbuild_NewTransaction E (trace s) _); [| intros [= _ <- <-]; auto].
  destruct (client t) as [cl |]; [| discriminate].
  destruct (Tx_Base64 E a) as [base64 |]; [| intros [= _ <- <-]; auto].
  destruct (rpc_simulateTransaction E _ cl base64) as [res |]; [| intros [= _ <- <-]; auto].
  destruct (decodeResults E (Sim_Results res) []) as [auth |]; [| intros [= _ <- <-]; auto].
  destruct (SafeUnmarshalBase64_TransactionData E (Sim_TransactionData res)) as [td |];
    [| intros [= _ <- <-]; auto].
  set (s2 := after (after s _) _).
  destruct (writeBack_run t res auth td s2) as [(h' & ->) | (msg & h' & ->)]; discriminate.
Qed.

Lemma Simulate_error_changes_nothing_witness :
  heap (snd (Simulate failingNet demoBuilder demoInvokeState)) = heap demoInvokeState.
Proof.
  assert (Hrun : Simulate failingNet demoBuilder demoInvokeState =
                 (Return (Err (errors_New "bad status 503"), demoBuilder),
                  snd (Simulate failingNet demoBuilder demoInvokeState)))
    by (vm_compute; reflexivity).
  apply (Simulate_error_changes_nothing failingNet demoBuilder demoInvokeState _ _ _ Hrun).
Defined.

Lemma Send_cases (E : Env) (t : Transaction) (s : State) :
  exists rest,
    snd (Send E t s) = after s (EvNewTransaction (buildParams t (heap s)) :: rest)
    /\ (rest = [] \/
        exists cl tx signed base64,
          client t = Some cl
          /\ txnbuild_NewTransaction E (trace s) (buildParams t (heap s)) = Ok tx
          /\ Tx_Sign E tx (PassPhrase cl) (signers (build t)) = Ok signed
          /\ Tx_Base64 E signed = Ok base64
          /\ rest = [EvCall cl (ReqSendTransaction base64)]
          /\ fst (Send E t s)
             = Return (rpc_sendTransaction E
                         (trace s ++ [EvNewTransaction (buildParams t (heap s))]) cl base64)).
Proof.
  unfold Send, buildTx, Client_SendTransaction. unfold_prims. simpl.
  destruct (txnbuild_NewTransaction E (trace s) _) as [tx |] eqn:Hb;
    [| exists []; split; [reflexivity | auto]].
  destruct (client t) as [cl |]; [| exists []; split; [reflexivity | auto]].
  simpl. destruct (Tx_Sign E tx (PassPhrase cl) _) as [signed |] eqn:Hs;
    [| exists []; split; [reflexivity | auto]].
  destruct (Tx_Base64 E signed) as [base64 |] eqn:H64;
    [| exists []; split; [reflexivity | auto]].
  simpl. exists [EvCall cl (ReqSendTransaction base64)]. split.
  - unfold after. simpl. rewrite <- app_assoc. reflexivity.
  - right. exists cl, tx, signed, base64. repeat split; (assumption || reflexivity).
Qed.

(** [Send] builds one transaction from the builder as it is, signs it with
    the passphrase of the client and all the signers, and submits the
    signed transaction: the one network call it makes, made only when
    building, signing and encoding succeeded, and whose answer it returns.
    The heap is left alone. *)
Theorem Send_submits_signed (E : Env) (t : Transaction) (s : State) :
  exists rest,
    snd (Send E t s) = after s (EvNewTransaction (buildParams t (heap s)) :: rest)
    /\ (rest = [] \/
        exists cl tx signed base64,
          client t = Some cl
          /\ txnbuild_NewTransaction E (trace s) (buildParams t (heap s)) = Ok tx
          /\ Tx_Sign E tx (PassPhrase cl) (signers (build t)) = Ok signed
          /\ Tx_Base64 E signed = Ok base64
          /\ rest = [EvCall cl (ReqSendTransaction base64)]
          /\ fst (Send E t s)
             = Return (rpc_sendTransaction E
                         (trace s ++ [EvNewTransaction (buildParams t (heap s))]) cl base64)).
Proof. apply Send_cases. Qed.

(** ** The simulate and send pipeline *)

Lemma writeBack_returns t res auth td s l rest :
  operations (build t) = l :: rest ->
  exists h',
    writeBack t res auth td s
    = (Return (Ok res, Transaction_BaseFee t (wrap64 (Sim_MinResourceFee res + MinBaseFee))),
       {| heap := h'; trace := trace s |}).
Proof.
  intros Hops. unfold writeBack. set (t1 := Transaction_BaseFee t _).
  destruct (SorobanData_frame t1 td s) as (h1 & HS & _).
  rewrite (bind_Return _ _ _ _ _ HS).
  destruct (Authorization_frame t1 auth {| heap := h1; trace := trace s |} l rest Hops)
    as (h2 & HA & _).
  rewrite (bind_Return _ _ _ _ _ HA). exists h2. reflexivity.
Qed.

(** A simulation in which every step succeeds. *)
Lemma Simulate_success E t s tx cl base64 res auth td l rest op0 :
  txnbuild_NewTransaction E (trace s) (simParams t s) = Ok tx ->
  client t = Some cl ->
  Tx_Base64 E tx = Ok base64 ->
  rpc_simulateTransaction E (trace s ++ [EvNewTransaction (simParams t s)]) cl base64 = Ok res ->
  decodeResults E (Sim_Results res) [] = Ok auth ->
  SafeUnmarshalBase64_TransactionData E (Sim_TransactionData res) = Ok td ->
  operations (build t) = l :: rest ->
  heap s !! l = Some op0 ->
  exists h',
    Simulate E t s
    = (Return (Ok res, Transaction_BaseFee t (wrap64 (Sim_MinResourceFee res + MinBaseFee))),
       {| heap := h';
          trace := trace s ++ [EvNewTransaction (simParams t s);
                               EvCall cl (ReqSimulateTransaction base64)] |})
    /\ h' !! l = Some (written td auth op0)
    /\ (forall l', l' <> l -> h' !! l' = heap s !! l').
Proof.
  intros Hbuild Hcl Hb64 Hsim Hdec Htd Hops Hl.
  rewrite Simulate_unfold. cbn zeta. rewrite Hbuild, Hcl, Hb64.
  change (trace (after s [EvNewTransaction (simParams t s)]))
    with (trace s ++ [EvNewTransaction (simParams t s)]).
  rewrite Hsim, Hdec, Htd.
  set (s2 := after (after s _) _).
  destruct (writeBack_returns t res auth td s2 l rest Hops) as (h' & Hwb).
  destruct (writeBack_heap t res auth td s2 _ _ _ Hwb) as (l0 & rest0 & Hops0 & Hfr & Hlead).
  rewrite Hops in Hops0. injection Hops0 as <- <-.
  exists h'. split; [| split].
  - rewrite Hwb. simpl. rewrite <- app_assoc. reflexivity.
  - simpl in Hlead. rewrite Hl in Hlead. unfold written.
    destruct op0 as [o | o | k]; simpl in Hlead |- *; try exact Hlead.
    rewrite Hlead. exact Hl.
  - exact Hfr.
Qed.

(** What [Simulate] did when it returned a result: it made the call. *)
Lemma Simulate_cases E t s :
  (snd (Simulate E t s) = after s [EvNewTransaction (simParams t s)]
   /\ forall res t', fst (Simulate E t s) <> Return (Ok res, t'))
  \/ (exists cl base64 h',
        snd (Simulate E t s)
        = {| heap := h';
             trace := trace s ++ [EvNewTransaction (simParams t s);
                                  EvCall cl (ReqSimulateTransaction base64)] |}).
Proof.
  rewrite Simulate_unfold. cbn zeta.
  destruct (txnbuild_NewTransaction E (trace s) _); [| left; split; [reflexivity | discriminate]].
  destruct (client t) as [cl |]; [| left; split; [reflexivity | discriminate]].
  destruct (Tx_Base64 E a) as [base64 |]; [| left; split; [reflexivity | discriminate]].
  right. exists cl, base64.
  set (s2 := after (after s _) _).
  assert (Hs2 : s2 = {| heap := heap s;
                        trace := trace s ++ [EvNewTransaction (simParams t s);
                                             EvCall cl (ReqSimulateTransaction base64)] |}).
  { unfold s2, after. simpl. rewrite <- app_assoc. reflexivity. }
  destruct (rpc_simulateTransaction E _ cl base64) as [res |]; [| exists (heap s); exact Hs2].
  destruct (decodeResults E (Sim_Results res) []) as [auth |]; [| exists (heap s); exact Hs2].
  destruct (SafeUnmarshalBase64_TransactionData E (Sim_TransactionData res)) as [td |];
    [| exists (heap s); exact Hs2].
  destruct (writeBack_run t res auth td s2) as [(h' & ->) | (msg & h' & ->)];
    exists h'; simpl; rewrite <- app_assoc; reflexivity.
Qed.

(** [simulateSubmitHostFunction], behind [Install] and [Deploy], when the
    simulation succeeds. The transaction simulated carries the operation as
    given, the minimum base fee and no sequence increment. The transaction
    sent next is built from the same builder after the write-back: the
    operation with the decoded resource data and authorization entries of
    the simulation, the fee [minResourceFee + MinBaseFee] (64-bit), and the
    sequence increment allowed. After that comes at most the submission. *)
Theorem simulateSubmitHostFunction_sends_simulated (E : Env) (c : Contract)
  (op : InvokeHostFunction) (s : State) (cl : Client) (tx : Tx) (base64 : string)
  (res : SimulateTransactionResult) (auth : list SorobanAuthorizationEntry)
  (td : SorobanTransactionData)
  (Hcl : contract_client c = Some cl)
  (Hbuild : txnbuild_NewTransaction E (trace s) (submitParams E c op s) = Ok tx)
  (Hb64 : Tx_Base64 E tx = Ok base64)
  (Hsim : rpc_simulateTransaction E (trace s ++ [EvNewTransaction (submitParams E c op s)])
            cl base64 = Ok res)
  (Hdec : decodeResults E (Sim_Results res) [] = Ok auth)
  (Htd : SafeUnmarshalBase64_TransactionData E (Sim_TransactionData res) = Ok td) :
  exists p2 rest,
    trace (snd (simulateSubmitHostFunction E c op s))
    = trace s ++ [EvNewTransaction (submitParams E c op s);
                  EvCall cl (ReqSimulateTransaction base64);
                  EvNewTransaction p2] ++ rest
    /\ Params_Operations (submitParams E c op s) = [Some (OpInvokeHostFunction op)]
    /\ Params_BaseFee (submitParams E c op s) = MinBaseFee
    /\ Params_IncrementSequenceNum (submitParams E c op s) = false
    /\ Params_Operations p2
       = [Some (OpInvokeHostFunction
                  (set_Auth (set_Invoke_Ext op {| Ext_V := 1; Ext_SorobanData := Some td |})
                     auth))]
    /\ Params_BaseFee p2 = wrap64 (Sim_MinResourceFee res + MinBaseFee)
    /\ Params_IncrementSequenceNum p2 = true
    /\ Params_SourceAccount p2 = contract_source c
    /\ (rest = [] \/ exists signed, rest = [EvCall cl (ReqSendTransaction signed)]).
Proof.
  unfold submitParams in *.
  set (l := length (heap s)) in *.
  set (t := builderFor c l (txnbuild_NewTimeout E (trace s) 30)) in *.
  set (s1 := {| heap := heap s ++ [OpInvokeHostFunction op]; trace := trace s |}) in *.
  assert (Hl : heap s1 !! l = Some (OpInvokeHostFunction op))
    by (apply list_lookup_middle; reflexivity).
  destruct (Simulate_success E t s1 tx cl base64 res auth td l [] (OpInvokeHostFunction op)
              Hbuild Hcl Hb64 Hsim Hdec Htd eq_refl Hl) as (h' & HSim & Hh' & _).
  set (t1 := Transaction_BaseFee t _) in HSim.
  set (s2 := {| heap := h'; trace := _ |}) in HSim.
  destruct (Send_cases E t1 s2) as (rest & HSend & Hrest).
  exists (buildParams t1 h'), rest.
  split; [| repeat split].
  - unfold simulateSubmitHostFunction, newBuilder.
    unfold bind at 1 2 3. simpl. fold l. fold t. fold s1.
    rewrite (bind_Return _ _ _ _ _ HSim). rewrite HSend. simpl.
    rewrite <- !app_assoc. reflexivity.
  - change (Params_Operations (simParams t s1)) with [heap s1 !! l].
    rewrite Hl. reflexivity.
  - change (Params_Operations (buildParams t1 h')) with [h' !! l].
    rewrite Hh'. reflexivity.
  - destruct Hrest as [-> | (cl' & tx' & signed & b64' & Hcl' & _ & _ & _ & -> & _)];
      [left; reflexivity |].
    right. exists b64'. simpl in Hcl'. rewrite Hcl in Hcl'. injection Hcl' as <-. reflexivity.
Qed.

Lemma simulateSubmitHostFunction_sends_simulated_witness :
  exists p2 rest,
    trace (snd (simulateSubmitHostFunction authNet demoBare (installOp demoBare "GABC")
                  emptyState))
    = trace emptyState
      ++ [EvNewTransaction (submitParams authNet demoBare (installOp demoBare "GABC") emptyState);
          EvCall demoClient (ReqSimulateTransaction "tx");
          EvNewTransaction p2] ++ rest
    /\ Params_BaseFee p2 = 200
    /\ Params_IncrementSequenceNum p2 = true.
Proof.
  destruct (simulateSubmitHostFunction_sends_simulated authNet demoBare
              (installOp demoBare "GABC") emptyState demoClient (Envelope "tx") "tx"
              (demoSim 100 0 ["a1"; "a2"]) [AuthorizationEntry "a1"; AuthorizationEntry "a2"]
              (demoData "invoke-data") eq_refl eq_refl eq_refl eq_refl eq_refl eq_refl)
    as (p2 & rest & Htr & _ & _ & _ & _ & Hfee & Hflag & _).
  exists p2, rest. split; [exact Htr |]. split; [exact Hfee | exact Hflag].
Defined.


Lemma emits_weaken {A} (P Q : Event -> Prop) (m : M A) :
  (forall e, P e -> Q e) -> emits P m -> emits Q m.
Proof.
  intros HPQ Hm s. destruct (Hm s) as (new & Hnew & HP). exists new.
  split; [exact Hnew |]. eapply Forall_impl; eassumption.
Qed.

Lemma Simulate_grows E t : grows (Simulate E t).
Proof. apply (emits_weaken noSubmission); [intros; exact I | apply Simulate_quiet]. Qed.

Lemma restorePreambleStep_grows E c res restore : grows (restorePreambleStep E c res restore).
Proof.
  unfold restorePreambleStep, grows.
  destruct (negb restore); [apply emits_ret |].
  destruct (SafeUnmarshalBase64_TransactionData E (Sim_TransactionData res));
    [| apply emits_ret].
  apply emits_bind; [unfold source_GetAccountID; emits_auto |]. intros id.
  apply emits_bind; [apply emits_alloc |]. intros l.
  apply emits_bind; [unfold newBuilder; emits_auto |]. intros t.
  apply emits_bind; [apply SorobanData_emits |]. intros t1.
  apply emits_bind; [apply Send_grows |]. intros r.
  destruct r as [res' | e]; [| apply emits_ret].
  apply emits_bind; [apply pollFrom_grows |]. intros _. apply emits_ret.
Qed.

(** ** Restore, Deploy and Invoke *)

(** The transaction [Restore] simulates has one restore-footprint operation
    whose read-write footprint is the code key followed by the instance key
    of [GetFootprint], and is built without a sequence increment. *)
Theorem Restore_simulates_footprint (E : Env) (c : Contract) (s : State)
  (src : Account) (key : LedgerKey) (c' : Contract)
  (Hsrc : contract_source c = Some src)
  (Hkey : GetFootprint E c s = (Return (Ok key, c'), s)) :
  exists p,
    (exists rest, trace (snd (Restore E c s)) = (trace s ++ [EvNewTransaction p]) ++ rest)
    /\ Params_Operations p
       = [Some (OpRestoreFootprint
                  (restoreOp (GetAccountID src)
                     (SorobanTransactionData_ReadWrite [codeKey c; key])))]
    /\ Params_IncrementSequenceNum p = false.
Proof.
  destruct (GetFootprint_run E c s) as (key0 & c0 & HF & _ & Hsrc0 & _).
  rewrite Hkey in HF. injection HF as <- <-.
  set (op := {| Restore_SourceAccount := GetAccountID src;
                Restore_Ext := TransactionExt_zero |}).
  set (s1 := {| heap := heap s ++ [OpRestoreFootprint op]; trace := trace s |}).
  set (l := length (heap s)).
  set (t := builderFor c' l (txnbuild_NewTimeout E (trace s) 30)).
  set (data := SorobanTransactionData_ReadWrite [codeKey c; key]).
  assert (Hl : heap s1 !! l = Some (OpRestoreFootprint op)).
  { apply list_lookup_middle. reflexivity. }
  destruct (SorobanData_frame t data s1) as (h' & HS & _ & Hlead & _).
  specialize (Hlead l [] eq_refl). rewrite Hl in Hlead.
  set (s2 := {| heap := h'; trace := trace s1 |}) in *.
  exists (simParams t s2). split; [| split].
  - unfold Restore. rewrite GetCodeKey_ok. rewrite (bind_Return _ _ _ _ _ Hkey).
    unfold source_GetAccountID, deref. rewrite Hsrc0, Hsrc. unfold newBuilder.
    unfold bind at 1 2 3 4 5 6. simpl. fold l. fold op. fold s1. fold t. fold data.
    rewrite HS. fold s2.
    apply (bind_prefix (Simulate E t) _ s2).
    + intros [r t']. destruct r as [res | e]; [| apply emits_ret].
      apply emits_bind; [apply Send_grows |]. intros r. apply emits_ret.
    + destruct (Simulate_trace E t s2) as (rest & Htr & _). exists rest.
      rewrite Htr. simpl. rewrite <- app_assoc. reflexivity.
  - change (Params_Operations (simParams t s2)) with [h' !! l]. rewrite Hlead. reflexivity.
  - reflexivity.
Qed.

Lemma Restore_simulates_footprint_witness :
  exists p,
    (exists rest,
       trace (snd (Restore liveNet (Contract_Address (demoContract liveNet) demoAddress)
                     emptyState))
       = (trace emptyState ++ [EvNewTransaction p]) ++ rest)
    /\ Params_IncrementSequenceNum p = false.
Proof.
  destruct (Restore_simulates_footprint liveNet
              (Contract_Address (demoContract liveNet) demoAddress) emptyState demoAccount
              {| LedgerKey_Type := LedgerEntryTypeContractData;
                 LedgerKey_Account := None;
                 LedgerKey_ContractData := Some
                   {| ContractData_Contract := demoAddress;
                      ContractData_Key := ScvLedgerKeyContractInstance;
                      ContractData_Durability := ContractDataDurabilityPersistent |};
                 LedgerKey_ContractCode := None |}
              (Contract_Address (demoContract liveNet) demoAddress) eq_refl eq_refl)
    as (p & Htr & _ & Hflag).
  exists p. split; [exact Htr | exact Hflag].
Defined.


(** [Deploy] on a contract whose code entry is no longer live returns the
    error WasmCodeNeedsRestore after the one query of ledger entries:
    nothing is built, simulated or sent. *)
Theorem Deploy_needs_live_code (E : Env) (c : Contract) (cl : Client) (src : Account)
  (k : KeyPair) (s : State) (base64 : string) (res : GetLedgerEntriesResult)
  (e0 : GetLedgerEntrie) (rest : list GetLedgerEntrie)
  (Hcl : contract_client c = Some cl)
  (Hsrc : contract_source c = Some src)
  (Hkp : kp c = Some k)
  (Hkey : LedgerKey_MarshalBinaryBase64 E (codeKey c) = Ok base64)
  (Hres : rpc_getLedgerEntries E (trace s) cl [base64] = Ok res)
  (Hentry : Entries res = e0 :: rest)
  (Hexpired : LiveUntilLedgerSeq e0 < LatestLedger res) :
  Deploy E c s
  = (Return (Err (errors_New ErrorWasmCodeNeedsRestore)),
     after s [EvCall cl (ReqGetLedgerEntries [base64])]).
Proof.
  unfold Deploy. rewrite Hcl, Hsrc, Hkp.
  pose proof (IsCodeAlive_run E c cl base64 res s Hcl Hkey Hres) as Hrun.
  rewrite Hentry in Hrun. rewrite (bind_Return _ _ _ _ _ Hrun).
  unfold entryAlive. destruct (Z.geb_spec (LiveUntilLedgerSeq e0) (LatestLedger res));
    [lia | reflexivity].
Qed.

Lemma Deploy_needs_live_code_witness :
  Deploy expiredNet (demoContract liveNet) emptyState
  = (Return (Err (errors_New ErrorWasmCodeNeedsRestore)),
     after emptyState [EvCall demoClient (ReqGetLedgerEntries ["code"])]).
Proof.
  apply (Deploy_needs_live_code expiredNet (demoContract liveNet) demoClient demoAccount
           (FullKeyPair "SEED") emptyState "code" (demoLedger [99])
           {| Entrie_Key := ""; Entrie_Xdr := ""; LastModifiedLedgerSeq := 1;
              LiveUntilLedgerSeq := 99 |} []); reflexivity.
Defined.

(** When the code is live, the transaction [Deploy] simulates creates the
    contract from the preimage of the source account and the salt, the very
    preimage whose record [GetAddress] hashes, with the code hash of the
    contract: the address [GetAddress] predicts is the one being deployed. *)
Theorem Deploy_creates_predicted (E : Env) (c : Contract) (cl : Client) (src : Account)
  (k : KeyPair) (s : State) (res : GetLedgerEntriesResult) (s1 : State)
  (account : AccountId)
  (Hcl : contract_client c = Some cl)
  (Hsrc : contract_source c = Some src)
  (Hkp : kp c = Some k)
  (Halive : IsCodeAlive E c s = (Return (Ok (true, res)), s1))
  (Hparse : xdr_AddressToAccountId E (GetAccountID src) = Ok account) :
  (exists p,
     (exists rest, trace (snd (Deploy E c s)) = (trace s1 ++ [EvNewTransaction p]) ++ rest)
     /\ Params_Operations p
        = [Some (OpInvokeHostFunction
                   (createOp c (preimageOf account (salt c)) (GetAccountID src)))])
  /\ HashIdPreimage_ContractId (contractIdRecord E account (salt c) (PassPhrase cl))
     = Some {| NetworkId := sha256_Sum256 E (list_byte_of_string (PassPhrase cl));
               ContractId_ContractIdPreimage := preimageOf account (salt c) |}.
Proof.
  split; [| reflexivity].
  set (op := createOp c (preimageOf account (salt c)) (GetAccountID src)).
  set (l := length (heap s1)).
  set (t := builderFor c l (txnbuild_NewTimeout E (trace s1) 30)).
  set (s2 := {| heap := heap s1 ++ [OpInvokeHostFunction op]; trace := trace s1 |}).
  exists (simParams t s2). 
  assert (Hl : heap s2 !! l = Some (OpInvokeHostFunction op))
    by (apply list_lookup_middle; reflexivity).
  split.
  - unfold Deploy. rewrite Hcl, Hsrc, Hkp. rewrite (bind_Return _ _ _ _ _ Halive).
    unfold getContractIdPreimage, source_GetAccountID, deref. rewrite Hsrc.
    unfold bind at 1 2 3. simpl. rewrite Hparse. simpl.
    unfold simulateSubmitHostFunction, newBuilder.
    unfold bind at 1 2 3 4 5. simpl. fold l. fold t.
    change {| heap := heap s1 ++ _; trace := trace s1 |} with s2.
    apply (bind_prefix (Simulate E t) _ s2).
    + intros [r t']. destruct r as [res' | e]; [apply Send_grows | apply emits_ret].
    + destruct (Simulate_trace E t s2) as (rest & Htr & _). exists rest.
      rewrite Htr. simpl. rewrite <- app_assoc. reflexivity.
  - change (Params_Operations (simParams t s2)) with [heap s2 !! l]. rewrite Hl. reflexivity.
Qed.

Lemma Deploy_creates_predicted_witness :
  exists p,
    (exists rest,
       trace (snd (Deploy liveNet (demoContract liveNet) emptyState))
       = (trace (snd (IsCodeAlive liveNet (demoContract liveNet) emptyState))
          ++ [EvNewTransaction p]) ++ rest)
    /\ Params_Operations p
       = [Some (OpInvokeHostFunction
                  (createOp (demoContract liveNet)
                     (preimageOf (list_byte_of_string "GABC") (salt (demoContract liveNet)))
                     "GABC"))].
Proof.
  assert (Halive : IsCodeAlive liveNet (demoContract liveNet) emptyState
                   = (Return (Ok (true, demoLedger [100])),
                      snd (IsCodeAlive liveNet (demoContract liveNet) emptyState)))
    by (vm_compute; reflexivity).
  destruct (Deploy_creates_predicted liveNet (demoContract liveNet) demoClient demoAccount
              (FullKeyPair "SEED") emptyState (demoLedger [100]) _
              (list_byte_of_string "GABC") eq_refl eq_refl eq_refl Halive eq_refl)
    as [H _].
  exact H.
Defined.

(** [IsAlive] only reads: it makes at most two network calls, both queries
    of ledger entries, and builds, simulates and sends nothing; the heap
    is as it was. *)
Theorem IsAlive_only_queries (E : Env) (c : Contract) (s : State) :
  exists new,
    snd (IsAlive E c s) = after s new
    /\ Forall isLedgerQuery new
    /\ (length new <= 2)%nat.
Proof. apply IsAlive_reads. Qed.

(** Without a function name, [Send] and [RestoreAndSend] of the invoke
    builder return the error InvokeRequiresFunction at once: no interaction,
    and the contract is not touched. *)
Theorem invokeBuilder_requires_function (E : Env) (c : Contract) (b : invokeBuild)
  (s : State) (Hempty : function b = "") :
  invokeBuilder_Send E c b s
    = (Return (Err (errors_New ErrorInvokeRequiresFunction), c), s)
  /\ invokeBuilder_RestoreAndSend E c b s
    = (Return (Err (errors_New ErrorInvokeRequiresFunction), c), s).
Proof.
  unfold invokeBuilder_Send, invokeBuilder_RestoreAndSend. rewrite Hempty.
  split; reflexivity.
Qed.

Lemma invokeBuilder_requires_function_witness :
  invokeBuilder_Send liveNet (demoContract liveNet) Invoke emptyState
    = (Return (Err (errors_New ErrorInvokeRequiresFunction), demoContract liveNet), emptyState)
  /\ invokeBuilder_RestoreAndSend liveNet (demoContract liveNet) Invoke emptyState
    = (Return (Err (errors_New ErrorInvokeRequiresFunction), demoContract liveNet), emptyState).
Proof.
  apply (invokeBuilder_requires_function liveNet (demoContract liveNet) Invoke emptyState).
  reflexivity.
Defined.

(** When [IsAlive] answers that the contract is not alive, [Send] of the
    invoke builder returns the error ContractNeedsRestore and has done
    nothing but the queries of [IsAlive]: no transaction was built,
    simulated or sent. *)
Theorem Send_requires_alive (E : Env) (c : Contract) (b : invokeBuild) (s : State)
  (c1 : Contract) (s1 : State)
  (Hfunction : function b <> "")
  (Hdead : IsAlive E c s = (Return (Ok false, c1), s1)) :
  invokeBuilder_Send E c b s
    = (Return (Err (errors_New ErrorContractNeedsRestore), c1), s1)
  /\ exists new, s1 = after s new /\ Forall isLedgerQuery new /\ (length new <= 2)%nat.
Proof.
  split.
  - unfold invokeBuilder_Send. apply String.eqb_neq in Hfunction. rewrite Hfunction.
    rewrite (bind_Return _ _ _ _ _ Hdead). reflexivity.
  - destruct (IsAlive_reads E c s) as (new & Hnew & HQ). rewrite Hdead in Hnew.
    exists new. split; [exact Hnew | exact HQ].
Qed.

Lemma Send_requires_alive_witness :
  invokeBuilder_Send expiredNet (demoContract liveNet) demoInvoke emptyState
    = (Return (Err (errors_New ErrorContractNeedsRestore),
               Contract_Address (demoContract liveNet) (demoDerived liveNet)),
       snd (IsAlive expiredNet (demoContract liveNet) emptyState)).
Proof.
  assert (Hdead : IsAlive expiredNet (demoContract liveNet) emptyState
                  = (Return (Ok false, Contract_Address (demoContract liveNet)
                                         (demoDerived liveNet)),
                     snd (IsAlive expiredNet (demoContract liveNet) emptyState)))
    by (vm_compute; reflexivity).
  apply (Send_requires_alive expiredNet (demoContract liveNet) demoInvoke emptyState _ _
           ltac:(discriminate) Hdead).
Defined.

(** Whatever [restore] is, the first transaction [invoke] builds, for the
    simulation, has one invoke-host-function operation that calls the
    function of the builder on the address of the contract with the
    parameters in the order they were added; it has the minimum base fee and
    no sequence increment. *)
Theorem invoke_simulates_call (E : Env) (c : Contract) (b : invokeBuild) (restore : bool)
  (s : State) (addr : ScAddress) (c' : Contract) (src : Account)
  (Haddress : GetAddress E c s = (Return (Ok addr, c'), s))
  (Hsrc : contract_source c = Some src) :
  exists p,
    (exists rest, trace (snd (invoke E c b restore s)) = (trace s ++ [EvNewTransaction p]) ++ rest)
    /\ Params_Operations p
       = [Some (OpInvokeHostFunction (invokeOp addr b (GetAccountID src)))]
    /\ Params_BaseFee p = MinBaseFee
    /\ Params_IncrementSequenceNum p = false.
Proof.
  assert (Hsrc' : contract_source c' = Some src).
  { destruct (GetAddress_total E c s) as (r0 & c0 & HG & Hc0).
    rewrite Haddress in HG. injection HG as _ <-.
    destruct Hc0 as [-> | [a ->]]; exact Hsrc. }
  set (op := invokeOp addr b (GetAccountID src)).
  set (l := length (heap s)).
  set (t := builderFor c' l (txnbuild_NewTimeout E (trace s) 30)).
  set (s1 := {| heap := heap s ++ [OpInvokeHostFunction op]; trace := trace s |}).
  assert (Hl : heap s1 !! l = Some (OpInvokeHostFunction op))
    by (apply list_lookup_middle; reflexivity).
  exists (simParams t s1). split; [| split; [| split]].
  - unfold invoke. rewrite (bind_Return _ _ _ _ _ Haddress).
    unfold invokeTransaction, newBuilder, source_GetAccountID, deref. rewrite Hsrc'.
    unfold bind at 1 2 3 4 5 6. simpl. fold op. fold l. fold t. fold s1.
    apply (bind_prefix (Simulate E t) _ s1).
    + intros [r t']. destruct r as [res | e]; [| apply emits_ret].
      apply emits_bind.
      * destruct (negb (Preamble_MinResourceFee (RestorePreamble res) =? 0));
          [apply restorePreambleStep_grows | apply emits_ret].
      * intros early. destruct early; [apply emits_ret |].
        apply emits_bind; [apply Send_grows |]. intros r. apply emits_ret.
    + destruct (Simulate_trace E t s1) as (rest & Htr & _). exists rest.
      rewrite Htr. simpl. rewrite <- app_assoc. reflexivity.
  - change (Params_Operations (simParams t s1)) with [heap s1 !! l]. rewrite Hl. reflexivity.
  - reflexivity.
  - reflexivity.
Qed.

Lemma invoke_simulates_call_witness :
  exists p,
    (exists rest,
       trace (snd (invoke liveNet (Contract_Address (demoContract liveNet) demoAddress)
                     demoInvoke false emptyState))
       = (trace emptyState ++ [EvNewTransaction p]) ++ rest)
    /\ Params_Operations p = [Some (OpInvokeHostFunction (invokeOp demoAddress demoInvoke "GABC"))].
Proof.
  destruct (invoke_simulates_call liveNet (Contract_Address (demoContract liveNet) demoAddress)
              demoInvoke false emptyState demoAddress
              (Contract_Address (demoContract liveNet) demoAddress) demoAccount
              eq_refl eq_refl) as (p & Htr & Hops & _).
  exists p. split; [exact Htr | exact Hops].
Defined.

(** A chain of calls on the invoke builder adds the values to the
    parameters in the order of the calls, after those already there, and
    keeps the function name of the last [Function] call. *)
Theorem invokeBuilder_chain (calls : list BuilderCall) (b : invokeBuild) :
  prams (foldl applyCall b calls) = prams b ++ concat (map callValues calls)
  /\ function (foldl applyCall b calls) = lastFunction calls (function b).
Proof.
  revert b. induction calls as [| call calls IH]; intros b.
  - simpl. rewrite app_nil_r. split; reflexivity.
  - simpl. destruct (IH (applyCall b call)) as [IHp IHf]. rewrite IHp.
    unfold lastFunction in *. simpl. rewrite IHf. split.
    + destruct call; simpl; rewrite <- ?app_assoc, ?app_nil_r; reflexivity.
    + destruct call; reflexivity.
Qed.

(** What a simulation that returned a result did. *)
Lemma Simulate_ok_heap E t s res t' s' l rest op0 :
  Simulate E t s = (Return (Ok res, t'), s') ->
  operations (build t) = l :: rest ->
  heap s !! l = Some op0 ->
  exists td auth cl base64,
    heap s' !! l = Some (written td auth op0)
    /\ trace s' = trace s ++ [EvNewTransaction (simParams t s);
                              EvCall cl (ReqSimulateTransaction base64)]
    /\ t' = Transaction_BaseFee t (wrap64 (Sim_MinResourceFee res + MinBaseFee)).
Proof.
  intros Hrun Hops Hl. revert Hrun. rewrite Simulate_unfold. cbn zeta.
  destruct (txnbuild_NewTransaction E (trace s) _) as [tx |] eqn:Hbuild; [| discriminate].
  destruct (client t) as [cl |] eqn:Hcl; [| discriminate].
  destruct (Tx_Base64 E tx) as [base64 |] eqn:Hb64; [| discriminate].
  destruct (rpc_simulateTransaction E _ cl base64) as [res0 |] eqn:Hsim; [| discriminate].
  destruct (decodeResults E (Sim_Results res0) []) as [auth |] eqn:Hdec; [| discriminate].
  destruct (SafeUnmarshalBase64_TransactionData E (Sim_TransactionData res0)) as [td |] eqn:Htd;
    [| discriminate].
  intros Hwb.
  destruct (Simulate_success E t s tx cl base64 res0 auth td l rest op0
              Hbuild Hcl Hb64 Hsim Hdec Htd Hops Hl) as (h' & HSim & Hh' & _).
  rewrite Simulate_unfold in HSim. cbn zeta in HSim.
  rewrite Hbuild, Hcl, Hb64, Hsim, Hdec, Htd in HSim.
  rewrite HSim in Hwb. injection Hwb as <- <- <-.
  exists td, auth, cl, base64. split; [exact Hh' |]. split; reflexivity.
Qed.

(** [invoke] without [restore], as [Send] of the invoke builder runs it,
    never restores: in every run it builds at most two transactions, the
    one it simulates and the one it sends, and each has the one
    invoke-host-function operation of the call (the second with what the
    simulation wrote back). Its interactions are, in order and up to where
    the run stops: build, simulateTransaction, build, sendTransaction. *)
Theorem invoke_never_restores (E : Env) (c : Contract) (b : invokeBuild)
  (s : State) (addr : ScAddress) (c' : Contract) (src : Account)
  (Haddress : GetAddress E c s = (Return (Ok addr, c'), s))
  (Hsrc : contract_source c = Some src) :
  exists p1 new,
    trace (snd (invoke E c b false s)) = trace s ++ new
    /\ Params_Operations p1
       = [Some (OpInvokeHostFunction (invokeOp addr b (GetAccountID src)))]
    /\ (new = [EvNewTransaction p1]
        \/ exists cl base64,
             new = [EvNewTransaction p1; EvCall cl (ReqSimulateTransaction base64)]
             \/ exists p2 td auth,
                  Params_Operations p2
                  = [Some (written td auth
                             (OpInvokeHostFunction (invokeOp addr b (GetAccountID src))))]
                  /\ (new = [EvNewTransaction p1; EvCall cl (ReqSimulateTransaction base64);
                             EvNewTransaction p2]
                      \/ exists cl2 signed,
                           new = [EvNewTransaction p1;
                                  EvCall cl (ReqSimulateTransaction base64);
                                  EvNewTransaction p2;
                                  EvCall cl2 (ReqSendTransaction signed)])).
Proof.
  assert (Hsrc' : contract_source c' = Some src).
  { destruct (GetAddress_total E c s) as (r0 & c0 & HG & Hc0).
    rewrite Haddress in HG. injection HG as _ <-.
    destruct Hc0 as [-> | [a ->]]; exact Hsrc. }
  set (op := invokeOp addr b (GetAccountID src)).
  set (l := length (heap s)).
  set (t := builderFor c' l (txnbuild_NewTimeout E (trace s) 30)).
  set (s1 := {| heap := heap s ++ [OpInvokeHostFunction op]; trace := trace s |}).
  assert (Hl : heap s1 !! l = Some (OpInvokeHostFunction op))
    by (apply list_lookup_middle; reflexivity).
  exists (simParams t s1).
  assert (Hp1 : Params_Operations (simParams t s1) = [Some (OpInvokeHostFunction op)]).
  { change (Params_Operations (simParams t s1)) with [heap s1 !! l]. rewrite Hl. reflexivity. }
  unfold invoke. rewrite (bind_Return _ _ _ _ _ Haddress).
  unfold invokeTransaction, newBuilder, source_GetAccountID, deref. rewrite Hsrc'.
  unfold bind at 1 2 3 4 5 6. simpl. fold op. fold l. fold t. fold s1.
  unfold bind at 1.
  destruct (Simulate E t s1) as [[[r t'] | msg] s2] eqn:HSim.
  2:{ destruct (Simulate_cases E t s1) as [[Hs _] | (cl & base64 & h' & Hs)];
        rewrite HSim in Hs; simpl in Hs; subst s2; eexists;
        (split; [reflexivity |]); (split; [exact Hp1 |]).
      - left. reflexivity.
      - right. exists cl, base64. left. reflexivity. }
  destruct r as [res | e].
  2:{ destruct (Simulate_cases E t s1) as [[Hs _] | (cl & base64 & h' & Hs)];
        rewrite HSim in Hs; simpl in Hs; subst s2; eexists;
        (split; [reflexivity |]); (split; [exact Hp1 |]).
      - left. reflexivity.
      - right. exists cl, base64. left. reflexivity. }
  destruct (Simulate_ok_heap E t s1 res t' s2 l [] (OpInvokeHostFunction op) HSim eq_refl Hl)
    as (td & auth & cl & base64 & Hh2 & Htr2 & Ht').
  unfold bind at 1.
  destruct (negb (Preamble_MinResourceFee (RestorePreamble res) =? 0)).
  - simpl. eexists. split; [exact Htr2 |]. split; [exact Hp1 |].
    right. exists cl, base64. left. reflexivity.
  - simpl. unfold bind.
    destruct (Send_cases E t' s2) as (rest & HSend & Hrest).
    assert (Hp2 : Params_Operations (buildParams t' (heap s2))
                  = [Some (written td auth (OpInvokeHostFunction op))]).
    { subst t'. change (Params_Operations (buildParams (Transaction_BaseFee t _) (heap s2)))
        with [heap s2 !! l]. rewrite Hh2. reflexivity. }
    assert (Htr : trace (snd (Send E t' s2))
                  = trace s ++ [EvNewTransaction (simParams t s1);
                                EvCall cl (ReqSimulateTransaction base64)]
                    ++ EvNewTransaction (buildParams t' (heap s2)) :: rest).
    { rewrite HSend. simpl. rewrite Htr2. simpl. rewrite <- app_assoc. reflexivity. }
    destruct (Send E t' s2) as [[r | msg] s3]; simpl in Htr |- *;
      (eexists; split; [exact Htr |]; split; [exact Hp1 |];
       right; exists cl, base64; right;
       exists (buildParams t' (heap s2)), td, auth; split; [exact Hp2 |];
       destruct Hrest as [-> | (cl2 & tx' & signed & b64' & _ & _ & _ & _ & -> & _)];
       [left; reflexivity | right; exists cl2, b64'; reflexivity]).
Qed.

Lemma invoke_never_restores_witness :
  exists p1 new,
    trace (snd (invoke staleNet (Contract_Address (demoContract liveNet) demoAddress)
                  demoInvoke false emptyState))
    = trace emptyState ++ new
    /\ Params_Operations p1
       = [Some (OpInvokeHostFunction (invokeOp demoAddress demoInvoke "GABC"))].
Proof.
  destruct (invoke_never_restores staleNet (Contract_Address (demoContract liveNet) demoAddress)
              demoInvoke emptyState demoAddress
              (Contract_Address (demoContract liveNet) demoAddress) demoAccount
              eq_refl eq_refl) as (p1 & new & Htr & Hops & _).
  exists p1, new. split; [exact Htr | exact Hops].
Defined.

